(** * HAL drivers: LPC15XX C_CAN controller and M2354 real-time clock

    A shallow embedding of
    - [targets/TARGET_NXP/TARGET_LPC15XX/can_api.c] (modules [Can] and
      [CanBoard]),
    - [targets/TARGET_NUVOTON/TARGET_M2354/rtc_api.c] (module [Rtc]) and
    - the register macros of
      [targets/TARGET_NUVOTON/TARGET_M251/device/StdDriver/inc/m251_qspi.h]
      (module [Qspi]),
    with the properties of the driver specification proved about it.

    C integers are modelled as [Z] with the wrap-around of their width
    written out; memory-mapped registers as a register file indexed by
    register name; loops whose exit depends on the hardware or on a
    wrapping counter carry a fuel argument and report [Diverge] when it
    runs out. *)

From Stdlib Require Import ZArith List Bool Lia.
Import ListNotations.
Local Open Scope Z_scope.

(** ** Machine integers *)

Definition u16 (z : Z) : Z := z mod 2 ^ 16.
Definition u32 (z : Z) : Z := z mod 2 ^ 32.
Definition int32 (z : Z) : Z := (z + 2 ^ 31) mod 2 ^ 32 - 2 ^ 31.
Definition int64 (z : Z) : Z := (z + 2 ^ 63) mod 2 ^ 64 - 2 ^ 63.

Definition INT64_MAX : Z := 2 ^ 63 - 1.

(** [x & m] is non-zero, as C tests it in [if (x & m)]. *)
Definition anyset (x m : Z) : bool := negb (Z.land x m =? 0).

(** ** Outcome of a computation that may loop *)

Inductive result (A : Type) : Type :=
| Done (a : A)      (* the function returned [a] *)
| Diverge           (* the fuel ran out before the loop was left *)
| Fault.            (* undefined behaviour: division by zero *)
Arguments Done {A} a.
Arguments Diverge {A}.
Arguments Fault {A}.

Definition bind {A B : Type} (m : result A) (k : A -> result B) : result B :=
  match m with
  | Done a => k a
  | Diverge => Diverge
  | Fault => Fault
  end.

Notation "x <- m ;; k" := (bind m (fun x => k))
  (at level 61, m at next level, right associativity).

(** [m] returns [a] once it is given enough fuel. *)
Definition returns {A : Type} (m : nat -> result A) (a : A) : Prop :=
  exists fuel0 : nat, forall fuel : nat, (fuel0 <= fuel)%nat -> m fuel = Done a.

Module Can.

(** ** Handy defines *)

Definition RX_MSG_OBJ_COUNT : Z := 31.
Definition TX_MSG_OBJ_COUNT : Z := 1.
Definition DLC_MAX : Z := 8.

Definition ID_STD_MASK : Z := 0x07FF.
Definition ID_EXT_MASK : Z := 0x1FFFFFFF.

Definition CANIFn_ARB2_DIR : Z := Z.shiftl 1 13.
Definition CANIFn_ARB2_XTD : Z := Z.shiftl 1 14.
Definition CANIFn_ARB2_MSGVAL : Z := Z.shiftl 1 15.
Definition CANIFn_MSK2_MXTD : Z := Z.shiftl 1 15.
Definition CANIFn_MSK2_MDIR : Z := Z.shiftl 1 14.
Definition CANIFn_MCTRL_EOB : Z := Z.shiftl 1 7.
Definition CANIFn_MCTRL_TXRQST : Z := Z.shiftl 1 8.
Definition CANIFn_MCTRL_UMASK : Z := Z.shiftl 1 12.
Definition CANIFn_CMDMSK_DATA_B : Z := Z.shiftl 1 0.
Definition CANIFn_CMDMSK_DATA_A : Z := Z.shiftl 1 1.
Definition CANIFn_CMDMSK_TXRQST : Z := Z.shiftl 1 2.
Definition CANIFn_CMDMSK_CLRINTPND : Z := Z.shiftl 1 3.
Definition CANIFn_CMDMSK_CTRL : Z := Z.shiftl 1 4.
Definition CANIFn_CMDMSK_ARB : Z := Z.shiftl 1 5.
Definition CANIFn_CMDMSK_MASK : Z := Z.shiftl 1 6.
Definition CANIFn_CMDMSK_WR : Z := Z.shiftl 1 7.
Definition CANIFn_CMDMSK_RD : Z := Z.shiftl 0 7.
Definition CANIFn_CMDREQ_BUSY : Z := Z.shiftl 1 15.

Definition CANSTAT_TXOK : Z := Z.shiftl 1 3.
Definition CANSTAT_RXOK : Z := Z.shiftl 1 4.
Definition CANSTAT_EPASS : Z := Z.shiftl 1 5.
Definition CANSTAT_EWARN : Z := Z.shiftl 1 6.
Definition CANSTAT_BOFF : Z := Z.shiftl 1 7.

Definition CANCNTL_INIT : Z := Z.shiftl 1 0.
Definition CANCNTL_IE : Z := Z.shiftl 1 1.
Definition CANCNTL_SIE : Z := Z.shiftl 1 2.
Definition CANCNTL_EIE : Z := Z.shiftl 1 3.
Definition CANCNTL_CCE : Z := Z.shiftl 1 6.

Definition IRQ_ENABLE_TX : Z := Z.shiftl 1 0.
Definition IRQ_ENABLE_RX : Z := Z.shiftl 1 1.
Definition IRQ_ENABLE_EW : Z := Z.shiftl 1 2.
Definition IRQ_ENABLE_EP : Z := Z.shiftl 1 3.
Definition IRQ_ENABLE_BE : Z := Z.shiftl 1 4.
Definition IRQ_ENABLE_STATUS : Z := Z.lor IRQ_ENABLE_TX IRQ_ENABLE_RX.
Definition IRQ_ENABLE_ERROR : Z :=
  Z.lor (Z.lor IRQ_ENABLE_EW IRQ_ENABLE_EP) IRQ_ENABLE_BE.
Definition IRQ_ENABLE_ANY : Z := Z.lor IRQ_ENABLE_STATUS IRQ_ENABLE_ERROR.

(** ** Bit-timing solver *)

(** [timing_pts]: sampling points as close to 75% as possible; first value
    TSEG1, second TSEG2.  [can_speed] reads row [bits] after matching
    [(bits + 3) * (brp + 1)] against the clock ratio. *)
Definition timing_pts : list (Z * Z) :=
  [ (0x0, 0x0); (0x1, 0x0); (0x2, 0x0); (0x3, 0x0); (0x3, 0x1); (0x4, 0x1);
    (0x5, 0x1); (0x6, 0x1); (0x6, 0x2); (0x7, 0x2); (0x8, 0x2); (0x9, 0x2);
    (0x9, 0x3); (0xA, 0x3); (0xB, 0x3); (0xC, 0x3); (0xD, 0x3); (0xD, 0x4);
    (0xE, 0x4); (0xF, 0x4); (0xF, 0x5); (0xF, 0x6); (0xF, 0x7) ].

Definition timing_pt (bits : Z) : Z * Z :=
  nth (Z.to_nat bits) timing_pts (0, 0).

(** [for (bits = n; bits > 0; bits--)] with its [hit = 1; break]: the pair
    is [(hit, bits)] when the loop is left. *)
Fixpoint scan_bits (n : nat) (brp bitwidth : Z) : bool * Z :=
  match n with
  | O => (false, 0)
  | S m =>
      let bits := Z.of_nat n in
      let calcbit := u32 ((bits + 3) * (brp + 1)) in
      if calcbit =? bitwidth then (true, bits) else scan_bits m brp bitwidth
  end.

(** [while ((!hit) && (brp < bitwidth / 4))]; [brp] is a [uint16_t], so
    [brp++] wraps at 65536.  Yields [(hit, brp, bits)]. *)
Fixpoint speed_search (fuel : nat) (bitwidth brp bits : Z)
  : result (bool * Z * Z) :=
  match fuel with
  | O => Diverge
  | S f =>
      if brp <? bitwidth / 4 then
        let brp' := u16 (brp + 1) in
        let '(hit, bits') := scan_bits 22 brp' bitwidth in
        if hit then Done (true, brp', bits')
        else speed_search f bitwidth brp' bits'
      else Done (false, brp, bits)
  end.

Definition pack_btr (bits psjw brp clkdiv : Z) : Z :=
  let btr :=
    Z.lor (Z.lor (Z.lor (Z.shiftl (Z.land (snd (timing_pt bits)) 0x7) 12)
                        (Z.shiftl (Z.land (fst (timing_pt bits)) 0xf) 8))
                 (Z.shiftl (Z.land psjw 0x3) 6))
          (Z.land brp 0x3F) in
  Z.lor btr (u32 (Z.shiftl clkdiv 16)).

Definition can_speed (fuel : nat) (sclk cclk psjw : Z) : result Z :=
  let clkdiv := 1 in
  if cclk =? 0 then Fault else
  let bitwidth := sclk / cclk in
  let brp := u16 (bitwidth / 0x18) in
  r <- speed_search fuel bitwidth brp 0 ;;
  let '(hit, brp, bits) := r in
  let clkdiv := u32 (clkdiv - 1) in
  Done (if (hit : bool) then pack_btr bits psjw brp clkdiv else 0).

(** Fields of a bit-timing word (CANBT layout). *)
Definition btr_TSEG1 (btr : Z) : Z := Z.land (Z.shiftr btr 8) 0xF.
Definition btr_TSEG2 (btr : Z) : Z := Z.land (Z.shiftr btr 12) 0x7.

(** Time quanta per bit a timing word encodes, counted as [can_speed]
    counts them in [calcbit = (bits + 3) * (brp + 1)]: the two segment
    fields add up to [bits]. *)
Definition btr_quanta (btr : Z) : Z := btr_TSEG1 btr + btr_TSEG2 btr + 3.

(** ** Controller state *)

(** The registers of [LPC_C_CAN0] the driver touches. *)
Inductive creg : Set :=
| CANCNTL | CANSTAT | CANBT | CANINT | CANBRPE | CANCLKDIV
| CANIF1_CMDREQ | CANIF1_CMDMSK_W | CANIF1_MSK1 | CANIF1_MSK2
| CANIF1_ARB1 | CANIF1_ARB2 | CANIF1_MCTRL
| CANIF1_DA1 | CANIF1_DA2 | CANIF1_DB1 | CANIF1_DB2
| CANIF2_CMDREQ | CANIF2_CMDMSK_W | CANIF2_ARB1 | CANIF2_ARB2 | CANIF2_MCTRL
| CANIF2_DA1 | CANIF2_DA2 | CANIF2_DB1 | CANIF2_DB2
| CANTXREQ1 | CANTXREQ2 | CANND1 | CANND2 | CANMSGV1 | CANMSGV2.

Scheme Equality for creg.

Definition regfile : Type := creg -> Z.

(** The interrupt kinds [can_irq_set] names in its [switch]; [IRQ_OTHER]
    stands for every other enumerator of [CanIrqType] (its [default]). *)
Inductive CanIrqType : Set :=
| IRQ_RX | IRQ_TX | IRQ_ERROR | IRQ_PASSIVE | IRQ_BUS | IRQ_OTHER (code : Z).

Inductive CANFormat : Set := CANStandard | CANExtended.
Inductive CANType : Set := CANData | CANRemote.

Record CAN_Message : Set := mkMsg {
  id : Z;
  data : list Z;
  len : Z;
  format : CANFormat;
  type : CANType
}.

Record can_state : Type := mkCan {
  regs : regfile;                     (* LPC_C_CAN0 *)
  mmio : list (creg * Z);             (* register writes, most recent first *)
  can_irq_id : Z;
  enabled_irqs : Z;
  calls : list (Z * CanIrqType);      (* irq_handler(id, type), most recent first *)
  nvic_enabled : bool                 (* C_CAN0_IRQn enabled in the NVIC *)
}.

Definition with_regs (f : regfile) (s : can_state) : can_state :=
  mkCan f (mmio s) (can_irq_id s) (enabled_irqs s) (calls s) (nvic_enabled s).
Definition with_enabled_irqs (e : Z) (s : can_state) : can_state :=
  mkCan (regs s) (mmio s) (can_irq_id s) e (calls s) (nvic_enabled s).
Definition with_can_irq_id (i : Z) (s : can_state) : can_state :=
  mkCan (regs s) (mmio s) i (enabled_irqs s) (calls s) (nvic_enabled s).
Definition with_nvic (b : bool) (s : can_state) : can_state :=
  mkCan (regs s) (mmio s) (can_irq_id s) (enabled_irqs s) (calls s) b.

(** Register read and write; a register holds 32 bits. *)
Definition rd (s : can_state) (r : creg) : Z := u32 (regs s r).

Definition wr (r : creg) (v : Z) (s : can_state) : can_state :=
  mkCan (fun r' => if creg_beq r r' then u32 v else regs s r')
        ((r, u32 v) :: mmio s)
        (can_irq_id s) (enabled_irqs s) (calls s) (nvic_enabled s).

(** [irq_handler(can_irq_id, t)]: the registered callback is application
    code; its invocation is recorded. *)
Definition irq_handler (t : CanIrqType) (s : can_state) : can_state :=
  mkCan (regs s) (mmio s) (can_irq_id s) (enabled_irqs s)
        ((can_irq_id s, t) :: calls s) (nvic_enabled s).

(** [for (i = i0; i < i0 + n; i++) if (test i) { handle = i+1; break; }]:
    the value of [handle] after the loop. *)
Fixpoint find_slot (test : Z -> bool) (n : nat) (i handle : Z) : Z :=
  match n with
  | O => handle
  | S m => if test i then i + 1 else find_slot test m (i + 1) handle
  end.

Definition bit_clear (w i : Z) : bool := Z.land w (Z.shiftl 1 i) =? 0.
Definition bit_set (w i : Z) : bool := anyset w (Z.shiftl 1 i).

Section Driver.

(** The controller's side of the message-interface handshake: what it does
    to the registers when a command request is written to [CANIFn_CMDREQ]
    (raise BUSY, start the message-RAM transfer), and what it does between
    two polls of the busy-wait loop. *)
Variable hw_cmdreq : creg -> regfile -> regfile.
Variable hw_tick : regfile -> regfile.

Definition cmdreq (r : creg) (v : Z) (s : can_state) : can_state :=
  let s := wr r v s in
  with_regs (hw_cmdreq r (regs s)) s.

(** [while (LPC_C_CAN0->r & CANIFn_CMDREQ_BUSY);] *)
Fixpoint wait_idle (fuel : nat) (r : creg) (s : can_state) : result can_state :=
  match fuel with
  | O => Diverge
  | S f =>
      if anyset (rd s r) CANIFn_CMDREQ_BUSY
      then wait_idle f r (with_regs (hw_tick (regs s)) s)
      else Done s
  end.

(** The controller finishes every transfer: from any register state the
    busy bit of a command-request register is clear after finitely many
    polls. *)
Definition transfer_completes : Prop :=
  forall (r : creg) (f : regfile),
    r = CANIF1_CMDREQ \/ r = CANIF2_CMDREQ ->
    exists n : nat,
      anyset (u32 (Nat.iter n hw_tick f r)) CANIFn_CMDREQ_BUSY = false.

Definition can_disable (s : can_state) : can_state :=
  wr CANCNTL (Z.lor (rd s CANCNTL) 0x1) s.

Definition can_enable (s : can_state) : can_state :=
  if anyset (rd s CANCNTL) 0x1
  then wr CANCNTL (Z.land (rd s CANCNTL) (Z.lnot 0x1)) s
  else s.

Definition can_filter (fuel : nat) (s : can_state) (id mask : Z)
    (format : CANFormat) (handle : Z) : result (Z * can_state) :=
  let handle :=
    if handle =? 0 then
      let msgval := Z.lor (rd s CANMSGV1) (u32 (Z.shiftl (rd s CANMSGV2) 16)) in
      find_slot (bit_clear msgval) 32 0 handle
    else handle in
  if (0 <? handle) && (handle <=? 32) then
    let s :=
      match format with
      | CANExtended =>
          let s := wr CANIF1_ARB1 (Z.land id 0xFFFF) s in
          let s := wr CANIF1_ARB2
                     (Z.lor (Z.lor CANIFn_ARB2_MSGVAL CANIFn_ARB2_XTD)
                            (Z.land (Z.shiftr id 16) 0x1FFF)) s in
          let s := wr CANIF1_MSK1 (Z.land mask 0xFFFF) s in
          wr CANIF1_MSK2
             (Z.lor CANIFn_MSK2_MXTD (Z.land (Z.shiftr mask 16) 0x1FFF)) s
      | CANStandard =>
          let s := wr CANIF1_ARB2
                     (Z.lor CANIFn_ARB2_MSGVAL
                            (Z.land (u32 (Z.shiftl id 2)) 0x1FFF)) s in
          wr CANIF1_MSK2 (Z.land (u32 (Z.shiftl mask 2)) 0x1FFF) s
      end in
    let s := wr CANIF1_MCTRL
               (Z.lor (Z.lor CANIFn_MCTRL_UMASK CANIFn_MCTRL_EOB)
                      (Z.land DLC_MAX 0xF)) s in
    let s := wr CANIF1_CMDMSK_W
               (Z.lor (Z.lor (Z.lor CANIFn_CMDMSK_WR CANIFn_CMDMSK_MASK)
                             CANIFn_CMDMSK_ARB) CANIFn_CMDMSK_CTRL) s in
    let s := cmdreq CANIF1_CMDREQ (Z.land handle 0x3F) s in
    s <- wait_idle fuel CANIF1_CMDREQ s ;;
    Done (handle, s)
  else Done (handle, s).

Definition can_irq (s : can_state) : can_state :=
  let intid := Z.land (rd s CANINT) 0xFFFF in
  if intid =? 0x8000 then
    let status := rd s CANSTAT in
    let s :=
      if anyset status CANSTAT_BOFF then
        if anyset (enabled_irqs s) IRQ_ENABLE_BE then irq_handler IRQ_BUS s
        else s
      else s in
    let s :=
      if anyset status CANSTAT_EPASS then
        if anyset (enabled_irqs s) IRQ_ENABLE_EP then irq_handler IRQ_PASSIVE s
        else s
      else s in
    let s :=
      if anyset status CANSTAT_EWARN then
        if anyset (enabled_irqs s) IRQ_ENABLE_EW then irq_handler IRQ_ERROR s
        else s
      else s in
    let s :=
      if anyset status CANSTAT_RXOK then
        let s := wr CANSTAT (Z.land (rd s CANSTAT) (Z.lnot CANSTAT_RXOK)) s in
        irq_handler IRQ_RX s
      else s in
    let s :=
      if anyset status CANSTAT_TXOK then
        let s := wr CANSTAT (Z.land (rd s CANSTAT) (Z.lnot CANSTAT_TXOK)) s in
        irq_handler IRQ_TX s
      else s in
    s
  else s.

(** The handler pointer itself is not represented: a call through it is
    recorded by [irq_handler]. *)
Definition can_irq_init (s : can_state) (id : Z) : can_state :=
  with_can_irq_id (u32 id) s.

Definition can_irq_free (s : can_state) : can_state :=
  let s := wr CANCNTL (Z.land (rd s CANCNTL) (Z.lnot (Z.shiftl 1 1))) s in
  let s := with_can_irq_id 0 s in
  with_nvic false s.

Definition can_irq_set (s : can_state) (type : CanIrqType) (enable : Z)
  : can_state :=
  let mask_enable :=
    match type with
    | IRQ_RX => Some IRQ_ENABLE_RX
    | IRQ_TX => Some IRQ_ENABLE_TX
    | IRQ_BUS => Some IRQ_ENABLE_BE
    | IRQ_PASSIVE => Some IRQ_ENABLE_EP
    | IRQ_ERROR => Some IRQ_ENABLE_EW
    | IRQ_OTHER _ => None
    end in
  match mask_enable with
  | None => s
  | Some mask_enable =>
      let s :=
        if negb (enable =? 0)
        then with_enabled_irqs (Z.lor (enabled_irqs s) mask_enable) s
        else with_enabled_irqs
               (Z.land (enabled_irqs s) (u32 (Z.lnot mask_enable))) s in
      let s := can_disable s in
      let s :=
        if negb (anyset (enabled_irqs s) IRQ_ENABLE_ANY) then
          wr CANCNTL
             (Z.land (rd s CANCNTL)
                (Z.lnot (Z.lor (Z.lor (Z.shiftl 1 1) (Z.shiftl 1 2))
                               (Z.shiftl 1 3)))) s
        else
          let s := wr CANCNTL (Z.lor (rd s CANCNTL) (Z.shiftl 1 1)) s in
          let s :=
            if anyset (enabled_irqs s) IRQ_ENABLE_STATUS
            then wr CANCNTL (Z.lor (rd s CANCNTL) (Z.shiftl 1 2)) s
            else wr CANCNTL (Z.land (rd s CANCNTL) (Z.lnot (Z.shiftl 1 2))) s in
          if anyset (enabled_irqs s) IRQ_ENABLE_ERROR
          then wr CANCNTL (Z.lor (rd s CANCNTL) (Z.shiftl 1 3)) s
          else wr CANCNTL (Z.land (rd s CANCNTL) (Z.lnot (Z.shiftl 1 3))) s in
      let s := can_enable s in
      with_nvic true s
  end.

(** [SystemCoreClock] is the CMSIS global holding the core frequency. *)
Definition can_frequency (fuel : nat) (SystemCoreClock : Z) (s : can_state)
    (f : Z) : result (Z * can_state) :=
  w <- can_speed fuel SystemCoreClock (u32 f) 1 ;;
  let btr := int32 w in
  let clkdiv := Z.land (Z.shiftr btr 16) 0x0F in
  let btr := Z.land btr 0xFFFF in
  if 0 <? btr then
    let s := wr CANCNTL
               (Z.lor (rd s CANCNTL) (Z.lor (Z.shiftl 1 6) (Z.shiftl 1 0))) s in
    let s := wr CANCLKDIV clkdiv s in
    let s := wr CANBT btr s in
    let s := wr CANBRPE 0x0000 s in
    let s := wr CANCNTL
               (Z.land (rd s CANCNTL)
                       (Z.lnot (Z.lor (Z.shiftl 1 6) (Z.shiftl 1 0)))) s in
    Done (1, s)
  else Done (0, s).

Definition byte_at (msg : CAN_Message) (k : nat) : Z :=
  Z.land (nth k (data msg) 0) 0xFF.

Definition can_write (fuel : nat) (s : can_state) (msg : CAN_Message) (cc : Z)
  : result (Z * can_state) :=
  let s := can_enable s in
  let msgnum := 0 in
  let txPending :=
    Z.lor (Z.land (rd s CANTXREQ1) 0xFF) (u32 (Z.shiftl (rd s CANTXREQ2) 16)) in
  let msgnum := find_slot (bit_clear txPending)
                  (Z.to_nat (32 - RX_MSG_OBJ_COUNT)) RX_MSG_OBJ_COUNT msgnum in
  if msgnum =? 0 then Done (0, s) else
  s <- wait_idle fuel CANIF1_CMDREQ s ;;
  let direction :=
    match type msg with CANData => CANIFn_ARB2_DIR | CANRemote => 0 end in
  let s :=
    match format msg with
    | CANExtended =>
        let s := wr CANIF1_ARB1 (Z.land (id msg) 0xFFFF) s in
        let s := wr CANIF1_ARB2
                   (Z.lor (Z.lor (Z.lor CANIFn_ARB2_MSGVAL CANIFn_ARB2_XTD)
                                 direction)
                          (Z.land (Z.shiftr (id msg) 16) 0x1FFFF)) s in
        let s := wr CANIF1_MSK1 (Z.land ID_EXT_MASK 0xFFFF) s in
        wr CANIF1_MSK2
           (Z.lor (Z.lor CANIFn_MSK2_MXTD CANIFn_MSK2_MDIR)
                  (Z.land (Z.shiftr ID_EXT_MASK 16) 0x1FFF)) s
    | CANStandard =>
        let s := wr CANIF1_ARB2
                   (Z.lor (Z.lor CANIFn_ARB2_MSGVAL direction)
                          (Z.land (u32 (Z.shiftl (id msg) 2)) 0x1FFF)) s in
        wr CANIF1_MSK2
           (Z.lor CANIFn_MSK2_MDIR (Z.land (Z.shiftl ID_STD_MASK 2) 0x1FFF)) s
    end in
  let s := wr CANIF1_MCTRL
             (Z.lor (Z.lor (Z.lor CANIFn_MCTRL_UMASK CANIFn_MCTRL_TXRQST)
                           CANIFn_MCTRL_EOB)
                    (Z.land (len msg) 0xF)) s in
  let s := wr CANIF1_DA1 (Z.lor (Z.shiftl (byte_at msg 1) 8) (byte_at msg 0)) s in
  let s := wr CANIF1_DA2 (Z.lor (Z.shiftl (byte_at msg 3) 8) (byte_at msg 2)) s in
  let s := wr CANIF1_DB1 (Z.lor (Z.shiftl (byte_at msg 5) 8) (byte_at msg 4)) s in
  let s := wr CANIF1_DB2 (Z.lor (Z.shiftl (byte_at msg 7) 8) (byte_at msg 6)) s in
  let s := wr CANIF1_CMDMSK_W
             (Z.lor (Z.lor (Z.lor (Z.lor (Z.lor (Z.lor
                CANIFn_CMDMSK_WR CANIFn_CMDMSK_MASK) CANIFn_CMDMSK_ARB)
                CANIFn_CMDMSK_CTRL) CANIFn_CMDMSK_TXRQST)
                CANIFn_CMDMSK_DATA_A) CANIFn_CMDMSK_DATA_B) s in
  let s := cmdreq CANIF1_CMDREQ (Z.land msgnum 0x3F) s in
  s <- wait_idle fuel CANIF1_CMDREQ s ;;
  let s := wr CANSTAT (Z.land (rd s CANSTAT) (Z.lnot (Z.shiftl 1 3))) s in
  Done (1, s).

Definition can_read (fuel : nat) (s : can_state) (msg : CAN_Message)
    (handle : Z) : result (Z * CAN_Message * can_state) :=
  let s := can_enable s in
  let handle :=
    if handle =? 0 then
      let newdata := Z.lor (rd s CANND1) (u32 (Z.shiftl (rd s CANND2) 16)) in
      find_slot (bit_set newdata) (Z.to_nat RX_MSG_OBJ_COUNT) 0 handle
    else handle in
  if (0 <? handle) && (handle <=? 32) then
    s <- wait_idle fuel CANIF2_CMDREQ s ;;
    let s := wr CANIF2_CMDMSK_W
               (Z.lor (Z.lor (Z.lor (Z.lor (Z.lor (Z.lor (Z.lor
                  CANIFn_CMDMSK_RD CANIFn_CMDMSK_MASK) CANIFn_CMDMSK_ARB)
                  CANIFn_CMDMSK_CTRL) CANIFn_CMDMSK_CLRINTPND)
                  CANIFn_CMDMSK_TXRQST) CANIFn_CMDMSK_DATA_A)
                  CANIFn_CMDMSK_DATA_B) s in
    let s := cmdreq CANIF2_CMDREQ (Z.land handle 0x3F) s in
    s <- wait_idle fuel CANIF2_CMDREQ s ;;
    let '(fmt, ident) :=
      if anyset (rd s CANIF2_ARB2) CANIFn_ARB2_XTD then
        (CANExtended,
         Z.lor (Z.shiftl (Z.land (rd s CANIF2_ARB2) 0x1FFF) 16)
               (Z.land (rd s CANIF2_ARB1) 0xFFFF))
      else
        (CANStandard, Z.shiftr (Z.land (rd s CANIF2_ARB2) 0x1FFF) 2) in
    let ty :=
      if anyset (rd s CANIF2_ARB2) CANIFn_ARB2_DIR then CANRemote
      else CANData in
    let msg :=
      mkMsg ident
            [ Z.land (Z.shiftr (rd s CANIF2_DA1) 0) 0xFF;
              Z.land (Z.shiftr (rd s CANIF2_DA1) 8) 0xFF;
              Z.land (Z.shiftr (rd s CANIF2_DA2) 0) 0xFF;
              Z.land (Z.shiftr (rd s CANIF2_DA2) 8) 0xFF;
              Z.land (Z.shiftr (rd s CANIF2_DB1) 0) 0xFF;
              Z.land (Z.shiftr (rd s CANIF2_DB1) 8) 0xFF;
              Z.land (Z.shiftr (rd s CANIF2_DB2) 0) 0xFF;
              Z.land (Z.shiftr (rd s CANIF2_DB2) 8) 0xFF ]
            (Z.land (rd s CANIF2_MCTRL) 0xF) fmt ty in
    let s := wr CANSTAT (Z.land (rd s CANSTAT) (Z.lnot (Z.shiftl 1 4))) s in
    Done (1, msg, s)
  else Done (0, msg, s).

End Driver.

(** ** Observations used by the specification *)

(** Value of the most recent write to register [r] in a write log. *)
Fixpoint last_write (r : creg) (log : list (creg * Z)) : option Z :=
  match log with
  | [] => None
  | (r', v) :: l => if creg_beq r r' then Some v else last_write r l
  end.

(** The busy-wait on [r] entered in state [s] leaves its loop at poll [n]:
    BUSY reads set at every earlier poll and clear at poll [n]. *)
Definition leaves_wait (hw_tick : regfile -> regfile) (r : creg)
    (s : can_state) (n : nat) : Prop :=
  (forall k : nat, (k < n)%nat ->
     anyset (u32 (Nat.iter k hw_tick (regs s) r)) CANIFn_CMDREQ_BUSY = true) /\
  anyset (u32 (Nat.iter n hw_tick (regs s) r)) CANIFn_CMDREQ_BUSY = false.

(** The state such a wait hands on: the controller stepped [n] times, the
    driver wrote nothing. *)
Definition polled (hw_tick : regfile -> regfile) (n : nat) (s : can_state)
    : can_state :=
  with_regs (Nat.iter n hw_tick (regs s)) s.

(** Callback invocations in the order they happened. *)
Definition fired (s : can_state) : list (Z * CanIrqType) := rev (calls s).

(** [i] is the lowest index in [lo, hi) satisfying [P]. *)
Definition lowest (P : Z -> bool) (lo hi i : Z) : Prop :=
  lo <= i < hi /\ P i = true /\ forall j, lo <= j < i -> P j = false.

(** The aggregate 32-bit bitmaps as the driver assembles them from the
    register pairs: bit [i] belongs to message object [i + 1]. *)
Definition msgval (s : can_state) : Z :=
  Z.lor (rd s CANMSGV1) (u32 (Z.shiftl (rd s CANMSGV2) 16)).
Definition txPending (s : can_state) : Z :=
  Z.lor (Z.land (rd s CANTXREQ1) 0xFF) (u32 (Z.shiftl (rd s CANTXREQ2) 16)).
Definition newdata (s : can_state) : Z :=
  Z.lor (rd s CANND1) (u32 (Z.shiftl (rd s CANND2) 16)).

(** Bit of [enabled_irqs] that records an interrupt kind. *)
Definition irq_bit (t : CanIrqType) : option Z :=
  match t with
  | IRQ_TX => Some 0
  | IRQ_RX => Some 1
  | IRQ_ERROR => Some 2
  | IRQ_PASSIVE => Some 3
  | IRQ_BUS => Some 4
  | IRQ_OTHER _ => None
  end.

Definition irq_enabled (s : can_state) (t : CanIrqType) : bool :=
  match irq_bit t with
  | Some b => Z.testbit (enabled_irqs s) b
  | None => false
  end.

(** The interrupt-line bits of CANCNTL agree with the enabled kinds. *)
Definition cntl_lines_ok (s : can_state) : Prop :=
  Z.testbit (rd s CANCNTL) 1
  = (irq_enabled s IRQ_RX || irq_enabled s IRQ_TX || irq_enabled s IRQ_BUS
     || irq_enabled s IRQ_PASSIVE || irq_enabled s IRQ_ERROR) /\
  Z.testbit (rd s CANCNTL) 2 = (irq_enabled s IRQ_RX || irq_enabled s IRQ_TX) /\
  Z.testbit (rd s CANCNTL) 3
  = (irq_enabled s IRQ_BUS || irq_enabled s IRQ_PASSIVE
     || irq_enabled s IRQ_ERROR).

(** ** A simulated controller and sample states *)

(** A controller that raises BUSY on a command request and clears it at
    the first poll. *)
Definition sim_cmdreq (r : creg) (f : regfile) : regfile :=
  fun r' => if creg_beq r r' then Z.lor (f r') CANIFn_CMDREQ_BUSY else f r'.
Definition sim_tick (f : regfile) : regfile :=
  fun r' =>
    match r' with
    | CANIF1_CMDREQ | CANIF2_CMDREQ => Z.land (f r') 0x7FFF
    | _ => f r'
    end.

(** Registers after a peripheral reset: only CANCNTL.INIT is set. *)
Definition reset_regs : regfile :=
  fun r => match r with CANCNTL => 0x1 | _ => 0 end.

Definition set_reg (r : creg) (v : Z) (f : regfile) : regfile :=
  fun r' => if creg_beq r r' then v else f r'.

Definition reset_state : can_state := mkCan reset_regs [] 0 0 [] false.

(** Message objects 1 to 3 valid, new data in message object 3, nothing
    pending for transmission; callback registered with id 7. *)
Definition sample_state : can_state :=
  mkCan (set_reg CANMSGV1 0x7 (set_reg CANND1 0x4 reset_regs)) [] 7 0 [] false.


(** RX enabled by [can_irq_set], then the handler unregistered by
    [can_irq_free], which clears IE but not [enabled_irqs]. *)
Definition stale_lines_state : can_state :=
  can_irq_free (can_irq_set reset_state IRQ_RX 1).

Definition sample_msg : CAN_Message :=
  mkMsg 0x123 [1; 2; 3; 4; 5; 6; 7; 8] 8 CANStandard CANData.

(** Status interrupt pending with bus-off, error-passive and
    receive-complete asserted; [en] is the enable mask. *)
Definition irq_state (en : Z) : can_state :=
  mkCan (set_reg CANINT 0x8000 (set_reg CANSTAT 0xB0 reset_regs))
        [] 7 en [] true.

End Can.

Module Rtc.

(** Start year of struct TM, of POSIX time and of the H/W RTC. *)
Definition NU_TM_YEAR0 : Z := 1900.
Definition NU_POSIX_YEAR0 : Z := 1970.
Definition NU_HWRTC_YEAR0 : Z := 2000.

Record S_RTC_TIME_DATA_T : Set := mkDateTime {
  u32Year : Z;
  u32Month : Z;
  u32Day : Z;
  u32DayOfWeek : Z;
  u32Hour : Z;
  u32Minute : Z;
  u32Second : Z;
  u32TimeScale : Z;
  u32AmPm : Z
}.

(** The fields of [struct tm] this file assigns; [tm_yday] and [tm_isdst]
    are never written by it and are not represented. *)
Record tm : Set := mkTm {
  tm_sec : Z;
  tm_min : Z;
  tm_hour : Z;
  tm_mday : Z;
  tm_mon : Z;
  tm_year : Z;
  tm_wday : Z
}.

(** The RTC peripheral as the driver sees it, and the file's statics. *)
Record rtc_state : Set := mkRtc {
  clk_enabled : bool;              (* module clock gate of RTC_MODULE *)
  INIT_ACTIVE : bool;              (* RTC->INIT & RTC_INIT_ACTIVE_Msk *)
  spare_access : bool;             (* spare register access enabled *)
  SPR0 : Z;                        (* spare register 0 *)
  hwrtc : S_RTC_TIME_DATA_T;       (* date and time registers *)
  t_hwrtc_origin_inited : bool;
  t_hwrtc_origin : Z;
  t_write : Z
}.

Definition with_clk (b : bool) (s : rtc_state) : rtc_state :=
  mkRtc b (INIT_ACTIVE s) (spare_access s) (SPR0 s) (hwrtc s)
        (t_hwrtc_origin_inited s) (t_hwrtc_origin s) (t_write s).
Definition with_active (b : bool) (s : rtc_state) : rtc_state :=
  mkRtc (clk_enabled s) b (spare_access s) (SPR0 s) (hwrtc s)
        (t_hwrtc_origin_inited s) (t_hwrtc_origin s) (t_write s).
Definition with_spare_access (b : bool) (s : rtc_state) : rtc_state :=
  mkRtc (clk_enabled s) (INIT_ACTIVE s) b (SPR0 s) (hwrtc s)
        (t_hwrtc_origin_inited s) (t_hwrtc_origin s) (t_write s).
Definition with_SPR0 (v : Z) (s : rtc_state) : rtc_state :=
  mkRtc (clk_enabled s) (INIT_ACTIVE s) (spare_access s) v (hwrtc s)
        (t_hwrtc_origin_inited s) (t_hwrtc_origin s) (t_write s).
Definition with_hwrtc (d : S_RTC_TIME_DATA_T) (s : rtc_state) : rtc_state :=
  mkRtc (clk_enabled s) (INIT_ACTIVE s) (spare_access s) (SPR0 s) d
        (t_hwrtc_origin_inited s) (t_hwrtc_origin s) (t_write s).
Definition with_origin_inited (b : bool) (s : rtc_state) : rtc_state :=
  mkRtc (clk_enabled s) (INIT_ACTIVE s) (spare_access s) (SPR0 s) (hwrtc s)
        b (t_hwrtc_origin s) (t_write s).
Definition with_origin (v : Z) (s : rtc_state) : rtc_state :=
  mkRtc (clk_enabled s) (INIT_ACTIVE s) (spare_access s) (SPR0 s) (hwrtc s)
        (t_hwrtc_origin_inited s) v (t_write s).
Definition with_t_write (v : Z) (s : rtc_state) : rtc_state :=
  mkRtc (clk_enabled s) (INIT_ACTIVE s) (spare_access s) (SPR0 s) (hwrtc s)
        (t_hwrtc_origin_inited s) (t_hwrtc_origin s) v.

(** *** Board-support services used by the driver *)

(** Modelled from the spec: [CLK_EnableModuleClock] (absent from the
    sources) "enables the peripheral clock gate". *)
Definition CLK_EnableModuleClock (s : rtc_state) : rtc_state := with_clk true s.

(** Modelled from the spec: [CLK_SetModuleClock] (absent) selects the clock
    source of the already enabled module; no state of the model depends on
    the selection. *)
Definition CLK_SetModuleClock (s : rtc_state) : rtc_state := s.

(** Modelled from the spec: [CLK_DisableModuleClock_S] (absent) closes the
    clock gate again. *)
Definition CLK_DisableModuleClock_S (s : rtc_state) : rtc_state :=
  with_clk false s.

(** Modelled from the spec: [RTC_Open] (absent) "powers the clock domain",
    after which the hardware-latched "init active" flag reads as set. *)
Definition RTC_Open (s : rtc_state) : rtc_state := with_active true s.

(** Modelled from the spec: [RTC_EnableSpareAccess] (absent) opens the
    scratch registers for access. *)
Definition RTC_EnableSpareAccess (s : rtc_state) : rtc_state :=
  with_spare_access true s.

(** Modelled from the spec: [RTC_SetDateAndTime] and [RTC_GetDateAndTime]
    (absent) load and read back the hardware date-time registers. *)
Definition RTC_SetDateAndTime (d : S_RTC_TIME_DATA_T) (s : rtc_state)
  : rtc_state := with_hwrtc d s.
Definition RTC_GetDateAndTime (s : rtc_state) : S_RTC_TIME_DATA_T := hwrtc s.

(** On M2354 [RTC_WaitAccessEnable] is a dummy. *)
Definition RTC_WaitAccessEnable (s : rtc_state) : rtc_state := s.

(** [wait_us]: the settle delay changes no state. *)
Definition wait_us (s : rtc_state) : rtc_state := s.

Section Impl.

(** Constants of the BSP header, absent from the sources. *)
Variables RTC_SATURDAY RTC_CLOCK_12 RTC_CLOCK_24 RTC_PM : Z.

(** [_rtc_maketime(&tm, &seconds, RTC_FULL_LEAP_YEAR_SUPPORT)] of
    mbed_mktime.c, absent from the sources: [None] when it returns false,
    [Some seconds] otherwise. *)
Variable _rtc_maketime : tm -> option Z.

(** What spare register 0 holds after [RTC_WRITE_SPARE_REGISTER] stores a
    value into it; the register's width is fixed by the absent BSP header. *)
Variable spare_store : Z -> Z.

Definition RTC_WRITE_SPARE_REGISTER (v : Z) (s : rtc_state) : rtc_state :=
  with_SPR0 (spare_store v) s.
Definition RTC_READ_SPARE_REGISTER (s : rtc_state) : Z := SPR0 s.

(** RTC H/W origin time: 00:00:00 UTC, Saturday, 1 January 2000 *)
Definition DATETIME_HWRTC_ORIGIN : S_RTC_TIME_DATA_T :=
  mkDateTime 2000 1 1 RTC_SATURDAY 0 0 0 RTC_CLOCK_24 0.

Definition rtc_convert_datetime_hwrtc_to_tm (datetime_hwrtc : S_RTC_TIME_DATA_T)
  : tm :=
  let year := int32 (u32Year datetime_hwrtc - NU_TM_YEAR0) in
  let mon := int32 (u32Month datetime_hwrtc - 1) in
  let mday := int32 (u32Day datetime_hwrtc) in
  let wday := int32 (u32DayOfWeek datetime_hwrtc) in
  let hour := int32 (u32Hour datetime_hwrtc) in
  let hour :=
    if (u32TimeScale datetime_hwrtc =? RTC_CLOCK_12)
       && (u32AmPm datetime_hwrtc =? RTC_PM)
    then int32 (hour + 12) else hour in
  let min := int32 (u32Minute datetime_hwrtc) in
  let sec := int32 (u32Second datetime_hwrtc) in
  mkTm sec min hour mday mon year wday.

Definition rtc_free_impl (s : rtc_state) : rtc_state :=
  CLK_DisableModuleClock_S s.

Definition rtc_isenabled_impl (s : rtc_state) : Z * rtc_state :=
  let s := CLK_EnableModuleClock s in
  let s := CLK_SetModuleClock s in
  (if INIT_ACTIVE s then 1 else 0, s).

(** [rtc_init_impl] and [rtc_write_impl] call each other; the fuel bounds
    the depth of the calls. *)
Fixpoint rtc_init_impl (fuel : nat) (s : rtc_state) {struct fuel}
  : result rtc_state :=
  match fuel with
  | O => Diverge
  | S f =>
      let '(en, s) := rtc_isenabled_impl s in
      if negb (en =? 0) then Done s else
      let s := RTC_Open s in
      rtc_write_impl f 0 s
  end
with rtc_write_impl (fuel : nat) (t : Z) (s : rtc_state) {struct fuel}
  : result rtc_state :=
  match fuel with
  | O => Diverge
  | S f =>
      let '(en, s) := rtc_isenabled_impl s in
      s <- (if en =? 0 then rtc_init_impl f s else Done s) ;;
      let s := with_t_write (int64 t) s in
      let s := RTC_WaitAccessEnable s in
      let s := RTC_EnableSpareAccess s in
      let s := RTC_WaitAccessEnable s in
      let s := RTC_WRITE_SPARE_REGISTER (t_write s) s in
      let s := RTC_WaitAccessEnable s in
      let s := RTC_SetDateAndTime DATETIME_HWRTC_ORIGIN s in
      Done (wait_us s)
  end.

(** The part of [rtc_read_impl] after the one-time set-up of
    [t_hwrtc_origin]: read the hardware date and time and translate. *)
Definition rtc_read_present (s : rtc_state) : Z * rtc_state :=
  let s := RTC_WaitAccessEnable s in
  let hwrtc_datetime_2K_present := RTC_GetDateAndTime s in
  let datetime_tm := rtc_convert_datetime_hwrtc_to_tm hwrtc_datetime_2K_present in
  match _rtc_maketime datetime_tm with
  | None => (0, s)
  | Some seconds =>
      let t_hwrtc_elapsed := int64 seconds in
      let t_present :=
        int64 (t_write s + int64 (t_hwrtc_elapsed - t_hwrtc_origin s)) in
      (t_present, s)
  end.

Definition rtc_read_impl (fuel : nat) (s : rtc_state) : result (Z * rtc_state) :=
  let '(en, s) := rtc_isenabled_impl s in
  s <- (if en =? 0 then rtc_init_impl fuel s else Done s) ;;
  if negb (t_hwrtc_origin_inited s) then
    let s := with_origin_inited true s in
    let datetime_tm := rtc_convert_datetime_hwrtc_to_tm DATETIME_HWRTC_ORIGIN in
    match _rtc_maketime datetime_tm with
    | None => Done (0, s)
    | Some seconds =>
        let s := with_origin (int64 seconds) s in
        let s := RTC_WaitAccessEnable s in
        let s := RTC_EnableSpareAccess s in
        let s := RTC_WaitAccessEnable s in
        let s := with_t_write (int64 (RTC_READ_SPARE_REGISTER s)) s in
        Done (rtc_read_present s)
    end
  else Done (rtc_read_present s).

(** Secure entry points ([__NONSECURE_ENTRY]). *)
Definition rtc_init_s (fuel : nat) (s : rtc_state) : result rtc_state :=
  rtc_init_impl fuel s.
Definition rtc_free_s (s : rtc_state) : rtc_state := rtc_free_impl s.
Definition rtc_isenabled_s (s : rtc_state) : Z * rtc_state :=
  rtc_isenabled_impl s.
Definition rtc_read_s (fuel : nat) (s : rtc_state) : result (Z * rtc_state) :=
  rtc_read_impl fuel s.
Definition rtc_write_s (fuel : nat) (t : Z) (s : rtc_state) : result rtc_state :=
  rtc_write_impl fuel t s.

(** The HAL functions, which cross into the secure side. *)
Definition rtc_init (fuel : nat) (s : rtc_state) : result rtc_state :=
  rtc_init_s fuel s.
Definition rtc_free (s : rtc_state) : rtc_state := rtc_free_s s.
Definition rtc_isenabled (s : rtc_state) : Z * rtc_state := rtc_isenabled_s s.
Definition rtc_read (fuel : nat) (s : rtc_state) : result (Z * rtc_state) :=
  rtc_read_s fuel s.
Definition rtc_write (fuel : nat) (t : Z) (s : rtc_state) : result rtc_state :=
  rtc_write_s fuel t s.

(** The cached origin, once set up, is the conversion of the reference
    date whenever that conversion succeeds. *)
Definition origin_consistent (s : rtc_state) : Prop :=
  forall seconds : Z,
    t_hwrtc_origin_inited s = true ->
    _rtc_maketime (rtc_convert_datetime_hwrtc_to_tm DATETIME_HWRTC_ORIGIN)
    = Some seconds ->
    t_hwrtc_origin s = int64 seconds.

End Impl.

(** State after power-up: statics zeroed, RTC never opened. *)
Definition power_on (d : S_RTC_TIME_DATA_T) : rtc_state :=
  mkRtc false false false 0 d false 0 0.

(** *** A reference calendar conversion *)

Definition is_leap_year (y : Z) : bool :=
  (y mod 4 =? 0) && (negb (y mod 100 =? 0) || (y mod 400 =? 0)).

Definition days_before_month (leap : bool) (mon : Z) : Z :=
  nth (Z.to_nat mon) [0; 31; 59; 90; 120; 151; 181; 212; 243; 273; 304; 334] 0
  + (if leap && (2 <=? mon) then 1 else 0).

Definition leap_days_before (y : Z) : Z :=
  (y - 1) / 4 - (y - 1) / 100 + (y - 1) / 400.

(** Modelled from the spec: the calendar-to-epoch conversion (absent from
    the sources) is "a calendar algorithm that supports the full leap-year
    range from 1970 onward" and "rejects an implausible calendar value". *)
Definition maketime_full_leap (t : tm) : option Z :=
  let y := tm_year t + NU_TM_YEAR0 in
  if (NU_POSIX_YEAR0 <=? y)
     && (0 <=? tm_mon t) && (tm_mon t <=? 11)
     && (1 <=? tm_mday t) && (tm_mday t <=? 31)
     && (0 <=? tm_hour t) && (tm_hour t <=? 23)
     && (0 <=? tm_min t) && (tm_min t <=? 59)
     && (0 <=? tm_sec t) && (tm_sec t <=? 61)
  then
    let days :=
      365 * (y - NU_POSIX_YEAR0)
      + (leap_days_before y - leap_days_before NU_POSIX_YEAR0)
      + days_before_month (is_leap_year y) (tm_mon t)
      + (tm_mday t - 1) in
    Some (((days * 24 + tm_hour t) * 60 + tm_min t) * 60 + tm_sec t)
  else None.


(** Sample values for the BSP constants and a 32-bit spare register. *)
Definition sample_SATURDAY : Z := 6.
Definition sample_CLOCK_12 : Z := 0.
Definition sample_CLOCK_24 : Z := 1.
Definition sample_PM : Z := 2.

(** An opened RTC whose date registers hold year 0, which no POSIX time
    corresponds to. *)
Definition malformed_state : rtc_state :=
  mkRtc true true false 0 (mkDateTime 0 1 1 0 0 0 0 sample_CLOCK_24 0)
        false 0 0.

End Rtc.

(** * The rest of can_api.c *)

Module CanBoard.
Import Can.

Definition CANCNTL_DAR : Z := Z.shiftl 1 5.
Definition CANCNTL_TEST : Z := Z.shiftl 1 7.

Definition CANTEST_BASIC : Z := Z.shiftl 1 2.
Definition CANTEST_SILENT : Z := Z.shiftl 1 3.
Definition CANTEST_LBACK : Z := Z.shiftl 1 4.

(** Registers the remaining functions touch besides those of [creg]:
    CANTEST and CANEC of [LPC_C_CAN0], the clock and reset controls of
    [LPC_SYSCON] and [PINASSIGN[6]] of [LPC_SWM]. *)
Inductive sreg : Set :=
| CANTEST | CANEC | SYSAHBCLKCTRL1 | PRESETCTRL1 | PINASSIGN6.

Scheme Equality for sreg.

Inductive CanMode : Set :=
| MODE_RESET | MODE_NORMAL | MODE_SILENT | MODE_TEST_LOCAL | MODE_TEST_SILENT
| MODE_TEST_GLOBAL | MODE_OTHER (code : Z).

Record board : Type := mkBoard {
  can : can_state;
  sregs : sreg -> Z
}.

Definition srd (b : board) (r : sreg) : Z := u32 (sregs b r).

Definition swr (r : sreg) (v : Z) (b : board) : board :=
  mkBoard (can b) (fun r' => if sreg_beq r r' then u32 v else sregs b r').

(** A step of the driver on the registers of [creg]. *)
Definition on_can (f : can_state -> can_state) (b : board) : board :=
  mkBoard (f (can b)) (sregs b).

Definition crd (b : board) (r : creg) : Z := rd (can b) r.
Definition cwr (r : creg) (v : Z) (b : board) : board := on_can (wr r v) b.

Definition can_mode (b : board) (mode : CanMode) : Z * board :=
  match mode with
  | MODE_RESET =>
      let b := cwr CANCNTL (Z.land (crd b CANCNTL) (Z.lnot CANCNTL_TEST)) b in
      let b := on_can can_disable b in
      (1, b)
  | MODE_NORMAL =>
      let b := cwr CANCNTL (Z.land (crd b CANCNTL) (Z.lnot CANCNTL_TEST)) b in
      let b := on_can can_enable b in
      (1, b)
  | MODE_SILENT =>
      let b := cwr CANCNTL (Z.lor (crd b CANCNTL) CANCNTL_TEST) b in
      let b := swr CANTEST (Z.lor (srd b CANTEST) CANTEST_SILENT) b in
      let b := swr CANTEST (Z.land (srd b CANTEST) (Z.lnot CANTEST_LBACK)) b in
      (1, b)
  | MODE_TEST_LOCAL =>
      let b := cwr CANCNTL (Z.lor (crd b CANCNTL) CANCNTL_TEST) b in
      let b := swr CANTEST (Z.land (srd b CANTEST) (Z.lnot CANTEST_SILENT)) b in
      let b := swr CANTEST (Z.lor (srd b CANTEST) CANTEST_LBACK) b in
      (1, b)
  | MODE_TEST_SILENT =>
      let b := cwr CANCNTL (Z.lor (crd b CANCNTL) CANCNTL_TEST) b in
      let b := swr CANTEST
                 (Z.lor (srd b CANTEST) (Z.lor CANTEST_LBACK CANTEST_SILENT)) b in
      (1, b)
  | MODE_TEST_GLOBAL | MODE_OTHER _ => (0, b)
  end.

Definition can_free (b : board) : board :=
  let b := swr SYSAHBCLKCTRL1
             (Z.land (srd b SYSAHBCLKCTRL1) (Z.lnot (Z.shiftl 1 7))) b in
  swr PRESETCTRL1 (Z.land (srd b PRESETCTRL1) (Z.lnot (Z.shiftl 1 7))) b.

Definition can_rderror (b : board) : Z :=
  Z.land (Z.land (Z.shiftr (srd b CANEC) 8) 0x7F) 0xFF.

Definition can_tderror (b : board) : Z :=
  Z.land (Z.land (srd b CANEC) 0xFF) 0xFF.

Definition can_monitor (b : board) (silent : Z) : board :=
  let b :=
    if negb (silent =? 0) then
      let b := cwr CANCNTL (Z.lor (crd b CANCNTL) (Z.shiftl 1 7)) b in
      swr CANTEST (Z.lor (srd b CANTEST) (Z.shiftl 1 3)) b
    else
      let b := cwr CANCNTL (Z.land (crd b CANCNTL) (Z.lnot (Z.shiftl 1 7))) b in
      swr CANTEST (Z.land (srd b CANTEST) (Z.lnot (Z.shiftl 1 3))) b in
  if negb (anyset (crd b CANCNTL) (Z.shiftl 1 0))
  then cwr CANCNTL (Z.lor (crd b CANCNTL) (Z.shiftl 1 0)) b
  else b.

Section Controller.

Variable hw_cmdreq : creg -> regfile -> regfile.
Variable hw_tick : regfile -> regfile.

(** What asserting the peripheral reset (bit 7 of PRESETCTRL1) does to the
    registers of the CAN block. *)
Variable hw_preset : regfile -> regfile.

(** The loop shared by [can_config_rxmsgobj] and [can_config_txmsgobj]:
    [n] message objects from number [i] on ([i] is a [uint16_t]). *)
Fixpoint config_msgobjs (fuel : nat) (n : nat) (i : Z) (s : can_state)
  : result can_state :=
  match n with
  | O => Done s
  | S m =>
      let s := wr CANIF1_CMDMSK_W
                 (Z.lor (Z.lor CANIFn_CMDMSK_WR CANIFn_CMDMSK_ARB)
                        CANIFn_CMDMSK_CTRL) s in
      let s := cmdreq hw_cmdreq CANIF1_CMDREQ (Z.land i 0x3F) s in
      s <- wait_idle hw_tick fuel CANIF1_CMDREQ s ;;
      config_msgobjs fuel m (u16 (i + 1)) s
  end.

Definition can_config_rxmsgobj (fuel : nat) (s : can_state)
  : result (Z * can_state) :=
  let i := 0 in
  s <- wait_idle hw_tick fuel CANIF1_CMDREQ s ;;
  let s := wr CANIF1_ARB1 0 s in
  let s := wr CANIF1_ARB2 0 s in
  let s := wr CANIF1_MCTRL 0 s in
  let i := 1 in
  s <- config_msgobjs fuel (Z.to_nat RX_MSG_OBJ_COUNT) i s ;;
  r <- can_filter hw_cmdreq hw_tick fuel s 0 0 CANStandard 1 ;;
  Done (1, snd r).

Definition can_config_txmsgobj (fuel : nat) (s : can_state)
  : result (Z * can_state) :=
  let i := 0 in
  s <- wait_idle hw_tick fuel CANIF1_CMDREQ s ;;
  let s := wr CANIF1_ARB1 0 s in
  let s := wr CANIF1_ARB2 CANIFn_ARB2_DIR s in
  let s := wr CANIF1_MCTRL 0 s in
  let i := RX_MSG_OBJ_COUNT + 1 in
  s <- config_msgobjs fuel (Z.to_nat TX_MSG_OBJ_COUNT) i s ;;
  Done (1, s).

(** [while (LPC_C_CAN0->CANCNTL & (1UL << 0));] *)
Fixpoint wait_running (fuel : nat) (s : can_state) : result can_state :=
  match fuel with
  | O => Diverge
  | S f =>
      if anyset (rd s CANCNTL) (Z.shiftl 1 0)
      then wait_running f (with_regs (hw_tick (regs s)) s)
      else Done s
  end.

Definition can_init_freq (fuel : nat) (SystemCoreClock : Z) (b : board)
    (rd td hz : Z) : result board :=
  let b := swr SYSAHBCLKCTRL1 (Z.lor (srd b SYSAHBCLKCTRL1) (Z.shiftl 1 7)) b in
  let b := swr PRESETCTRL1 (Z.lor (srd b PRESETCTRL1) (Z.shiftl 1 7)) b in
  let b := on_can (fun s => with_regs (hw_preset (regs s)) s) b in
  let b := swr PRESETCTRL1
             (Z.land (srd b PRESETCTRL1) (Z.lnot (Z.shiftl 1 7))) b in
  let b :=
    if negb (anyset (crd b CANCNTL) (Z.shiftl 1 0))
    then cwr CANCNTL (Z.lor (crd b CANCNTL) (Z.shiftl 1 0)) b
    else b in
  let b := swr PINASSIGN6 (Z.land (srd b PINASSIGN6) (Z.lnot 0x00FFFF00)) b in
  let b := swr PINASSIGN6
             (Z.lor (srd b PINASSIGN6)
                    (Z.lor (Z.shiftl rd 16) (Z.shiftl td 8))) b in
  r <- can_frequency fuel SystemCoreClock (can b) hz ;;
  let s := snd r in
  let s := wr CANCNTL (Z.land (Can.rd s CANCNTL) (Z.lnot (Z.shiftl 1 0))) s in
  s <- wait_running fuel s ;;
  r <- can_config_rxmsgobj fuel s ;;
  r <- can_config_txmsgobj fuel (snd r) ;;
  Done (mkBoard (snd r) (sregs b)).

Definition can_init (fuel : nat) (SystemCoreClock : Z) (b : board) (rd td : Z)
  : result board :=
  can_init_freq fuel SystemCoreClock b rd td 100000.

Definition can_reset (fuel : nat) (b : board) : result board :=
  let b := swr PRESETCTRL1
             (Z.land (srd b PRESETCTRL1) (Z.lnot (Z.shiftl 1 7))) b in
  let s := wr CANSTAT 0 (can b) in
  r <- can_config_rxmsgobj fuel s ;;
  r <- can_config_txmsgobj fuel (snd r) ;;
  let s := can_enable (snd r) in
  Done (mkBoard s (sregs b)).

End Controller.

(** ** Observations *)

(** Register writes in the order they happened. *)
Definition trace (s : can_state) : list (creg * Z) := rev (mmio s).

(** Writes of the message-object loop for objects [i], [i+1], ... *)
Fixpoint config_writes (n : nat) (i : Z) : list (creg * Z) :=
  match n with
  | O => []
  | S m => (CANIF1_CMDMSK_W, 0xB0) :: (CANIF1_CMDREQ, i)
           :: config_writes m (i + 1)
  end.

(** Everything [can_config_rxmsgobj] and [can_config_txmsgobj] write. *)
Definition rx_config_writes : list (creg * Z) :=
  [(CANIF1_ARB1, 0); (CANIF1_ARB2, 0); (CANIF1_MCTRL, 0)]
  ++ config_writes 31 1
  ++ [(CANIF1_ARB2, 0x8000); (CANIF1_MSK2, 0); (CANIF1_MCTRL, 0x1088);
      (CANIF1_CMDMSK_W, 0xF0); (CANIF1_CMDREQ, 1)].

Definition tx_config_writes : list (creg * Z) :=
  [(CANIF1_ARB1, 0); (CANIF1_ARB2, 0x2000); (CANIF1_MCTRL, 0)]
  ++ config_writes 1 32.

(** Fields of a bit-timing word below TSEG1. *)
Definition btr_BRP (btr : Z) : Z := Z.land btr 0x3F.
Definition btr_SJW (btr : Z) : Z := Z.land (Z.shiftr btr 6) 0x3.

(** Bit of CANSTAT that reports the condition of an interrupt kind. *)
Definition status_bit (t : CanIrqType) : option Z :=
  match t with
  | IRQ_TX => Some 3
  | IRQ_RX => Some 4
  | IRQ_PASSIVE => Some 5
  | IRQ_ERROR => Some 6
  | IRQ_BUS => Some 7
  | IRQ_OTHER _ => None
  end.

(** The interface 2 register that corresponds to an interface 1 register
    holding identifier, control or data fields. *)
Definition if_twin (r : creg) : option creg :=
  match r with
  | CANIF1_ARB1 => Some CANIF2_ARB1
  | CANIF1_ARB2 => Some CANIF2_ARB2
  | CANIF1_MCTRL => Some CANIF2_MCTRL
  | CANIF1_DA1 => Some CANIF2_DA1
  | CANIF1_DA2 => Some CANIF2_DA2
  | CANIF1_DB1 => Some CANIF2_DB1
  | CANIF1_DB2 => Some CANIF2_DB2
  | _ => None
  end.

(** A read request on interface 2 presents the fields interface 1 holds
    (one mailbox behind both interfaces). *)
Definition presents_if1 (hw_cmdreq : creg -> regfile -> regfile) : Prop :=
  forall (f : regfile) (r r' : creg),
    if_twin r = Some r' -> hw_cmdreq CANIF2_CMDREQ f r' = f r.

(** Between requests the controller leaves the field registers of both
    interfaces alone, and a request on interface 1 leaves those of
    interface 1 as written. *)
Definition interface_stable (hw_cmdreq : creg -> regfile -> regfile)
    (hw_tick : regfile -> regfile) : Prop :=
  forall (f : regfile) (r r' : creg),
    if_twin r = Some r' ->
    hw_tick f r = f r /\ hw_tick f r' = f r' /\
    hw_cmdreq CANIF1_CMDREQ f r = f r.

(** The message [can_read] assembles from the interface 2 registers. *)
Definition if2_message (s : can_state) : CAN_Message :=
  let '(fmt, ident) :=
    if anyset (rd s CANIF2_ARB2) CANIFn_ARB2_XTD then
      (CANExtended,
       Z.lor (Z.shiftl (Z.land (rd s CANIF2_ARB2) 0x1FFF) 16)
             (Z.land (rd s CANIF2_ARB1) 0xFFFF))
    else
      (CANStandard, Z.shiftr (Z.land (rd s CANIF2_ARB2) 0x1FFF) 2) in
  let ty :=
    if anyset (rd s CANIF2_ARB2) CANIFn_ARB2_DIR then CANRemote
    else CANData in
  mkMsg ident
        [ Z.land (Z.shiftr (rd s CANIF2_DA1) 0) 0xFF;
          Z.land (Z.shiftr (rd s CANIF2_DA1) 8) 0xFF;
          Z.land (Z.shiftr (rd s CANIF2_DA2) 0) 0xFF;
          Z.land (Z.shiftr (rd s CANIF2_DA2) 8) 0xFF;
          Z.land (Z.shiftr (rd s CANIF2_DB1) 0) 0xFF;
          Z.land (Z.shiftr (rd s CANIF2_DB1) 8) 0xFF;
          Z.land (Z.shiftr (rd s CANIF2_DB2) 0) 0xFF;
          Z.land (Z.shiftr (rd s CANIF2_DB2) 8) 0xFF ]
        (Z.land (rd s CANIF2_MCTRL) 0xF) fmt ty.

(** A simulated controller with one mailbox behind both interfaces: a
    request on interface 2 presents what interface 1 holds. *)
Definition mirror_cmdreq (r : creg) (f : regfile) : regfile :=
  match r with
  | CANIF2_CMDREQ =>
      fun r' =>
        match r' with
        | CANIF2_ARB1 => f CANIF1_ARB1
        | CANIF2_ARB2 => f CANIF1_ARB2
        | CANIF2_MCTRL => f CANIF1_MCTRL
        | CANIF2_DA1 => f CANIF1_DA1
        | CANIF2_DA2 => f CANIF1_DA2
        | CANIF2_DB1 => f CANIF1_DB1
        | CANIF2_DB2 => f CANIF1_DB2
        | _ => f r'
        end
  | _ => f
  end.

Definition sample_ext_msg : CAN_Message :=
  mkMsg 0x12345678 [0x11; 0x22; 0x33; 0x44; 0x55; 0x66; 0x77; 0x88] 8
        CANExtended CANData.

Definition reset_board : board := mkBoard reset_state (fun _ => 0).

End CanBoard.

(** * RTC across a reset cycle *)

Module RtcReset.
Import Rtc.

(** A reset of the core: the statics of rtc_api.c are zero again and the
    clock gate and spare access are closed, while the RTC domain keeps its
    "init active" flag, spare register 0 and date and time (the driver's
    own notes: "to support crossing reset cycle", "Load t_write from RTC
    spare register to cross reset cycle"). *)
Definition reset_cycle (s : rtc_state) : rtc_state :=
  mkRtc false (INIT_ACTIVE s) false (SPR0 s) (hwrtc s) false 0 0.

(** 2001-02-03 04:05:06 in 24-hour mode. *)
Definition sample_datetime : S_RTC_TIME_DATA_T :=
  mkDateTime 2001 2 3 6 4 5 6 sample_CLOCK_24 0.

(** A running RTC showing [sample_datetime], origin set up, time written 0. *)
Definition running_state : rtc_state :=
  mkRtc true true true 0 sample_datetime true 946684800 0.

End RtcReset.

(** * QSPI register macros (m251_qspi.h) *)

Module Qspi.

Section Layout.

(** Bit masks and positions of the register fields, from the device header
    (absent from the sources). *)
Variables QSPI_SSCTL_AUTOSS_Msk QSPI_SSCTL_SSACTPOL_Msk QSPI_SSCTL_SS_Msk : Z.
Variables QSPI_CTL_SUSPITV_Msk QSPI_CTL_SUSPITV_Pos : Z.
Variables QSPI_CTL_DWIDTH_Msk QSPI_CTL_DWIDTH_Pos : Z.

(** Each macro as the value it stores, given the value the register
    holds. *)
Definition QSPI_SET_SS_HIGH (SSCTL : Z) : Z :=
  u32 (Z.lor (Z.land SSCTL (u32 (Z.lnot QSPI_SSCTL_AUTOSS_Msk)))
             (Z.lor QSPI_SSCTL_SSACTPOL_Msk QSPI_SSCTL_SS_Msk)).

Definition QSPI_SET_SS_LOW (SSCTL : Z) : Z :=
  u32 (Z.lor (Z.land SSCTL
                (u32 (Z.lnot (Z.lor QSPI_SSCTL_AUTOSS_Msk
                                    QSPI_SSCTL_SSACTPOL_Msk))))
             QSPI_SSCTL_SS_Msk).

Definition QSPI_SET_SUSPEND_CYCLE (CTL u32SuspCycle : Z) : Z :=
  u32 (Z.lor (Z.land CTL (u32 (Z.lnot QSPI_CTL_SUSPITV_Msk)))
             (u32 (Z.shiftl u32SuspCycle QSPI_CTL_SUSPITV_Pos))).

Definition QSPI_SET_DATA_WIDTH (CTL u32Width : Z) : Z :=
  u32 (Z.lor (Z.land CTL (u32 (Z.lnot QSPI_CTL_DWIDTH_Msk)))
             (u32 (Z.shiftl (Z.land u32Width 0x1F) QSPI_CTL_DWIDTH_Pos))).

End Layout.

End Qspi.

(** * Properties of the CAN driver *)

Module CanSpec.
Import Can.

(** ** Machine-integer facts *)

Lemma u16_range (z : Z) : 0 <= u16 z < 2 ^ 16.
Proof. unfold u16. apply Z.mod_pos_bound. lia. Qed.

Lemma u32_range (z : Z) : 0 <= u32 z < 2 ^ 32.
Proof. unfold u32. apply Z.mod_pos_bound. lia. Qed.

Lemma u32_small (z : Z) : 0 <= z < 2 ^ 32 -> u32 z = z.
Proof. intros H. unfold u32. apply Z.mod_small. exact H. Qed.

Lemma u32_idem (z : Z) : u32 (u32 z) = u32 z.
Proof. apply u32_small, u32_range. Qed.

Lemma u32_testbit (z i : Z) : 0 <= i < 32 -> Z.testbit (u32 z) i = Z.testbit z i.
Proof. intros H. unfold u32. apply Z.mod_pow2_bits_low. lia. Qed.

(** Shifting a field that lies below bit [m] right by [m] leaves nothing. *)
Lemma shiftr_low_field (x mask m : Z) :
  Z.shiftr mask m = 0 -> Z.shiftr (Z.land x mask) m = 0.
Proof.
  intros H. rewrite Z.shiftr_land, H. apply Z.land_0_r.
Qed.

Lemma shiftr_shifted_field (x mask n m : Z) :
  0 <= n <= m -> Z.shiftr mask (m - n) = 0 ->
  Z.shiftr (Z.shiftl (Z.land x mask) n) m = 0.
Proof.
  intros Hn H. rewrite Z.shiftr_shiftl_r by lia.
  apply shiftr_low_field. exact H.
Qed.

(** ** Computations that return *)

Lemma returns_ret {A : Type} (a : A) : returns (fun _ => Done a) a.
Proof. exists 0%nat. intros fuel _. reflexivity. Qed.

Lemma returns_bind {A B : Type} (m : nat -> result A) (k : A -> nat -> result B)
    (a : A) (b : B) :
  returns m a -> returns (k a) b ->
  returns (fun fuel => x <- m fuel ;; k x fuel) b.
Proof.
  intros [n1 H1] [n2 H2]. exists (Nat.max n1 n2). intros fuel Hf.
  rewrite H1 by lia. cbn [bind]. apply H2. lia.
Qed.

(** ** Single bits *)

Lemma testbit_one_shifted (k i : Z) :
  0 <= k -> Z.testbit (Z.shiftl 1 k) i = (k =? i).
Proof.
  intros Hk. rewrite Z.shiftl_1_l. rewrite Z.pow2_bits_eqb by exact Hk.
  reflexivity.
Qed.

Lemma land_bit_zero (w i : Z) :
  0 <= i -> (Z.land w (Z.shiftl 1 i) =? 0) = negb (Z.testbit w i).
Proof.
  intros Hi. destruct (Z.testbit w i) eqn:E; cbn [negb].
  - apply Z.eqb_neq. intros H.
    assert (Hb : Z.testbit (Z.land w (Z.shiftl 1 i)) i = true).
    { rewrite Z.land_spec, E, testbit_one_shifted by exact Hi.
      rewrite Z.eqb_refl. reflexivity. }
    rewrite H, Z.bits_0 in Hb. discriminate Hb.
  - apply Z.eqb_eq. apply Z.bits_inj'. intros j Hj.
    rewrite Z.land_spec, Z.bits_0, testbit_one_shifted by exact Hi.
    destruct (Z.eqb_spec i j) as [->|_].
    + rewrite E. reflexivity.
    + apply andb_false_r.
Qed.

Lemma bit_clear_spec (w i : Z) : 0 <= i -> bit_clear w i = negb (Z.testbit w i).
Proof. apply land_bit_zero. Qed.

Lemma bit_set_spec (w i : Z) : 0 <= i -> bit_set w i = Z.testbit w i.
Proof.
  intros Hi. unfold bit_set, anyset. rewrite land_bit_zero by exact Hi.
  apply negb_involutive.
Qed.

Lemma anyset_bit (w i : Z) : 0 <= i -> anyset w (Z.shiftl 1 i) = Z.testbit w i.
Proof. apply bit_set_spec. Qed.

Lemma anyset_lor (w a b : Z) : anyset w (Z.lor a b) = anyset w a || anyset w b.
Proof.
  unfold anyset. rewrite Z.land_lor_distr_r.
  destruct (Z.eqb_spec (Z.land w a) 0) as [Ha|Ha];
    destruct (Z.eqb_spec (Z.land w b) 0) as [Hb|Hb]; cbn [negb orb];
    destruct (Z.eqb_spec (Z.lor (Z.land w a) (Z.land w b)) 0) as [Hab|Hab];
    try reflexivity; exfalso.
  - apply Hab. rewrite Ha, Hb. reflexivity.
  - apply Z.lor_eq_0_iff in Hab. tauto.
  - apply Z.lor_eq_0_iff in Hab. tauto.
  - apply Z.lor_eq_0_iff in Hab. tauto.
Qed.

Lemma land_small_id (h : Z) (n : Z) :
  0 <= n -> 0 <= h < 2 ^ n -> Z.land h (Z.ones n) = h.
Proof. intros Hn Hh. rewrite Z.land_ones by exact Hn. apply Z.mod_small, Hh. Qed.

(** ** Slot search *)

Lemma find_slot_none (test : Z -> bool) (n : nat) (i handle : Z) :
  (forall j, i <= j < i + Z.of_nat n -> test j = false) ->
  find_slot test n i handle = handle.
Proof.
  revert i. induction n as [|m IH]; intros i H.
  - reflexivity.
  - cbn [find_slot]. rewrite (H i) by lia. apply IH.
    intros j Hj. apply H. lia.
Qed.

Lemma find_slot_lowest (test : Z -> bool) (n : nat) (i handle k : Z) :
  lowest test i (i + Z.of_nat n) k ->
  find_slot test n i handle = k + 1.
Proof.
  revert i. induction n as [|m IH]; intros i [Hr [Hk Hlow]].
  - lia.
  - cbn [find_slot]. destruct (Z.eq_dec i k) as [->|Hne].
    + rewrite Hk. reflexivity.
    + rewrite (Hlow i) by lia. apply IH. repeat split; try lia.
      * exact Hk.
      * intros j Hj. apply Hlow. lia.
Qed.

(** ** Register file *)

Lemma rd_wr_same (r : creg) (v : Z) (s : can_state) : rd (wr r v s) r = u32 v.
Proof.
  unfold rd, wr. cbn [regs].
  replace (creg_beq r r) with true by (destruct r; reflexivity).
  apply u32_idem.
Qed.

Lemma rd_wr_other (r r' : creg) (v : Z) (s : can_state) :
  r <> r' -> rd (wr r v s) r' = rd s r'.
Proof.
  intros H. unfold rd, wr. cbn [regs].
  destruct (creg_beq r r') eqn:E; [|reflexivity].
  exfalso. apply H. apply internal_creg_dec_bl. exact E.
Qed.

Lemma rd_can_enable_other (s : can_state) (r : creg) :
  r <> CANCNTL -> rd (can_enable s) r = rd s r.
Proof.
  intros H. unfold can_enable. destruct (anyset (rd s CANCNTL) 1).
  - apply rd_wr_other. congruence.
  - reflexivity.
Qed.

Lemma with_regs_same (s : can_state) : with_regs (regs s) s = s.
Proof. destruct s; reflexivity. Qed.

(** ** The busy-wait handshake *)

Section Handshake.

Variable hw_cmdreq : creg -> regfile -> regfile.
Variable hw_tick : regfile -> regfile.

Lemma wait_idle_after (n : nat) (r : creg) (s : can_state) :
  anyset (u32 (Nat.iter n hw_tick (regs s) r)) CANIFn_CMDREQ_BUSY = false ->
  exists f',
    forall fuel, (n < fuel)%nat -> wait_idle hw_tick fuel r s = Done (with_regs f' s).
Proof.
  revert s. induction n as [|m IH]; intros s H.
  - exists (regs s). intros fuel Hf. destruct fuel as [|f]; [lia|].
    cbn [wait_idle]. change (Nat.iter 0 hw_tick (regs s)) with (regs s) in H.
    unfold rd. rewrite H.
    rewrite with_regs_same. reflexivity.
  - rewrite Nat.iter_succ_r in H.
    destruct (anyset (rd s r) CANIFn_CMDREQ_BUSY) eqn:E.
    + destruct (IH (with_regs (hw_tick (regs s)) s) H) as [f' Hf'].
      exists f'. intros fuel Hf. destruct fuel as [|f]; [lia|].
      cbn [wait_idle]. rewrite E. rewrite Hf' by lia. reflexivity.
    + exists (regs s). intros fuel Hf. destruct fuel as [|f]; [lia|].
      cbn [wait_idle]. rewrite E. rewrite with_regs_same. reflexivity.
Qed.

Lemma wait_idle_returns (r : creg) (s : can_state) :
  transfer_completes hw_tick ->
  r = CANIF1_CMDREQ \/ r = CANIF2_CMDREQ ->
  exists f',
    returns (fun fuel => wait_idle hw_tick fuel r s) (with_regs f' s).
Proof.
  intros H Hr. destruct (H r (regs s) Hr) as [n Hn].
  destruct (wait_idle_after n r s Hn) as [f' Hf'].
  exists f', (S n). intros fuel Hf. apply Hf'. lia.
Qed.

(** The busy-wait returns at the first poll that reads BUSY clear, with the
    registers the controller has by then. *)
Lemma wait_idle_leaves (N : nat) (r : creg) (s : can_state) :
  anyset (u32 (Nat.iter N hw_tick (regs s) r)) CANIFn_CMDREQ_BUSY = false ->
  exists n : nat,
    leaves_wait hw_tick r s n /\
    forall fuel, (n < fuel)%nat ->
      wait_idle hw_tick fuel r s = Done (polled hw_tick n s).
Proof.
  revert s. induction N as [|m IH]; intros s H.
  - exists 0%nat. split; [split; [intros k Hk; lia | exact H]|].
    intros fuel Hf. destruct fuel as [|f]; [lia|].
    cbn [wait_idle]. change (Nat.iter 0 hw_tick (regs s)) with (regs s) in H.
    unfold rd. rewrite H. unfold polled.
    change (Nat.iter 0 hw_tick (regs s)) with (regs s).
    rewrite with_regs_same. reflexivity.
  - rewrite Nat.iter_succ_r in H.
    destruct (anyset (rd s r) CANIFn_CMDREQ_BUSY) eqn:E.
    + destruct (IH (with_regs (hw_tick (regs s)) s) H) as [n [[L1 L2] W]].
      exists (S n). split; [split|].
      * intros k Hk. destruct k as [|k]; [exact E|].
        rewrite Nat.iter_succ_r. apply L1. lia.
      * rewrite Nat.iter_succ_r. exact L2.
      * intros fuel Hf. destruct fuel as [|f]; [lia|].
        cbn [wait_idle]. rewrite E. rewrite W by lia.
        unfold polled. rewrite Nat.iter_succ_r. reflexivity.
    + exists 0%nat. split; [split; [intros k Hk; lia | exact E]|].
      intros fuel Hf. destruct fuel as [|f]; [lia|].
      cbn [wait_idle]. rewrite E. unfold polled.
      change (Nat.iter 0 hw_tick (regs s)) with (regs s).
      rewrite with_regs_same. reflexivity.
Qed.

Lemma wait_idle_first (r : creg) (s : can_state) :
  transfer_completes hw_tick ->
  r = CANIF1_CMDREQ \/ r = CANIF2_CMDREQ ->
  exists n : nat,
    leaves_wait hw_tick r s n /\
    returns (fun fuel => wait_idle hw_tick fuel r s) (polled hw_tick n s).
Proof.
  intros H Hr. destruct (H r (regs s) Hr) as [N HN].
  destruct (wait_idle_leaves N r s HN) as [n [L W]].
  exists n. split; [exact L|]. exists (S n). intros fuel Hf. apply W. lia.
Qed.

(** A computation that starts with a busy-wait returns whatever its
    continuation returns from the register state the controller leaves. *)
Lemma returns_after_wait {B : Type} (r : creg) (s : can_state)
    (k : can_state -> nat -> result B) (P : B -> Prop) :
  transfer_completes hw_tick ->
  r = CANIF1_CMDREQ \/ r = CANIF2_CMDREQ ->
  (forall f', exists b, returns (k (with_regs f' s)) b /\ P b) ->
  exists b,
    returns (fun fuel => x <- wait_idle hw_tick fuel r s ;; k x fuel) b /\ P b.
Proof.
  intros H Hr Hk. destruct (wait_idle_returns r s H Hr) as [f' Hw].
  destruct (Hk f') as [b [Hb HP]]. exists b. split; [|exact HP].
  apply (returns_bind _ k _ b Hw Hb).
Qed.

End Handshake.

(** ** The quanta scan and the prescaler search *)

Lemma scan_bits_hit (n : nat) (brp bitwidth bits : Z) :
  scan_bits n brp bitwidth = (true, bits) ->
  1 <= bits <= Z.of_nat n /\ u32 ((bits + 3) * (brp + 1)) = bitwidth.
Proof.
  induction n as [|m IH]; intros H.
  - discriminate H.
  - cbn [scan_bits] in H.
    destruct (u32 ((Z.of_nat (S m) + 3) * (brp + 1)) =? bitwidth) eqn:E.
    + inversion H; subst bits. apply Z.eqb_eq in E. split; [lia | exact E].
    + destruct (IH H) as [Hb Hm]. split; [lia | exact Hm].
Qed.

Lemma speed_search_hit (fuel : nat) (bitwidth brp0 bits0 brp bits : Z) :
  speed_search fuel bitwidth brp0 bits0 = Done (true, brp, bits) ->
  scan_bits 22 brp bitwidth = (true, bits) /\ 0 <= brp < 2 ^ 16.
Proof.
  revert brp0 bits0. induction fuel as [|f IH]; intros brp0 bits0 H.
  - discriminate H.
  - cbn [speed_search] in H.
    destruct (brp0 <? bitwidth / 4); [|discriminate H].
    destruct (scan_bits 22 (u16 (brp0 + 1)) bitwidth) as [hit b] eqn:E.
    destruct hit.
    + inversion H; subst. split; [exact E | apply u16_range].
    + exact (IH _ _ H).
Qed.

Lemma scan_bits_no_match (n : nat) (brp bitwidth : Z) :
  (forall b, 1 <= b <= Z.of_nat n -> u32 ((b + 3) * (brp + 1)) <> bitwidth) ->
  scan_bits n brp bitwidth = (false, 0).
Proof.
  induction n as [|m IH]; intros H.
  - reflexivity.
  - cbn [scan_bits].
    destruct (u32 ((Z.of_nat (S m) + 3) * (brp + 1)) =? bitwidth) eqn:E.
    + apply Z.eqb_eq in E. exfalso. apply (H (Z.of_nat (S m))); [lia | exact E].
    + apply IH. intros b Hb. apply H. lia.
Qed.

Lemma calcbit_small (b p : Z) :
  1 <= b <= 22 -> 0 <= p < 2 ^ 16 -> u32 ((b + 3) * (p + 1)) = (b + 3) * (p + 1).
Proof. intros Hb Hp. apply u32_small. nia. Qed.

(** With a bit width of 4 * 65536 or more the 16-bit prescaler never
    reaches the loop bound: without a match the search goes on for ever. *)
Lemma speed_search_stuck (fuel : nat) (bitwidth brp bits : Z) :
  0 <= brp < 2 ^ 16 -> 2 ^ 16 <= bitwidth / 4 ->
  (forall b p, 1 <= b <= 22 -> 0 <= p < 2 ^ 16 -> (b + 3) * (p + 1) <> bitwidth) ->
  speed_search fuel bitwidth brp bits = Diverge.
Proof.
  intros Hb Hw Hno. revert brp bits Hb.
  induction fuel as [|f IH]; intros brp bits Hb.
  - reflexivity.
  - cbn [speed_search].
    assert (Hlt : (brp <? bitwidth / 4) = true) by (apply Z.ltb_lt; lia).
    rewrite Hlt.
    rewrite (scan_bits_no_match 22 (u16 (brp + 1)) bitwidth).
    + apply IH. apply u16_range.
    + intros b Hr. rewrite calcbit_small by (try apply u16_range; lia).
      apply Hno; [lia | apply u16_range].
Qed.

(** Below that width the prescaler does not wrap, and a search without a
    match is left with [hit = 0]. *)
Lemma speed_search_no_match (fuel : nat) (bitwidth brp bits : Z) :
  0 <= brp -> bitwidth / 4 < 2 ^ 16 ->
  (forall b p, 1 <= b <= 22 -> brp < p <= bitwidth / 4 ->
               (b + 3) * (p + 1) <> bitwidth) ->
  (Z.to_nat (bitwidth / 4 - brp) < fuel)%nat ->
  exists brp' bits', speed_search fuel bitwidth brp bits = Done (false, brp', bits').
Proof.
  intros Hb Hw. revert brp bits Hb.
  induction fuel as [|f IH]; intros brp bits Hb Hno Hf.
  - lia.
  - cbn [speed_search]. destruct (Z.ltb_spec brp (bitwidth / 4)) as [Hlt|Hge].
    + assert (Hu : u16 (brp + 1) = brp + 1)
        by (unfold u16; apply Z.mod_small; lia).
      rewrite Hu. rewrite (scan_bits_no_match 22 (brp + 1) bitwidth).
      * apply IH; try lia. intros b p Hr Hp. apply Hno; lia.
      * intros b Hr. rewrite calcbit_small by lia. apply Hno; lia.
    + exists brp, bits. reflexivity.
Qed.

(** ** The timing word *)

Lemma timing_row (bits : Z) :
  1 <= bits <= 22 ->
  nth_error timing_pts (Z.to_nat bits) = Some (timing_pt bits) /\
  Z.land (fst (timing_pt bits)) 0xf = fst (timing_pt bits) /\
  Z.land (snd (timing_pt bits)) 0x7 = snd (timing_pt bits) /\
  1 <= fst (timing_pt bits) /\
  fst (timing_pt bits) + snd (timing_pt bits) = bits.
Proof.
  intros H. unfold timing_pt.
  assert (Hk : exists k : nat, Z.to_nat bits = k /\ (1 <= k <= 22)%nat)
    by (exists (Z.to_nat bits); lia).
  destruct Hk as [k [Ek Hk]]. rewrite Ek.
  do 23 (destruct k as [|k]; [try lia; cbn; repeat split; lia|]). lia.
Qed.

Lemma pack_btr_fields (bits psjw brp : Z) :
  1 <= bits <= 22 ->
  btr_TSEG1 (pack_btr bits psjw brp 0) = fst (timing_pt bits) /\
  btr_TSEG2 (pack_btr bits psjw brp 0) = snd (timing_pt bits).
Proof.
  intros H. destruct (timing_row bits H) as [_ [H1 [H2 _]]].
  unfold btr_TSEG1, btr_TSEG2, pack_btr.
  change (u32 (Z.shiftl 0 16)) with 0. rewrite Z.lor_0_r.
  rewrite H1, H2. rewrite !Z.shiftr_lor.
  rewrite !(shiftr_low_field brp 0x3F) by reflexivity.
  rewrite !(shiftr_shifted_field psjw 0x3 6) by (try reflexivity; lia).
  rewrite !Z.lor_0_r.
  clear H1 H2. unfold timing_pt.
  assert (Hk : exists k : nat, Z.to_nat bits = k /\ (1 <= k <= 22)%nat)
    by (exists (Z.to_nat bits); lia).
  destruct Hk as [k [-> Hk]].
  do 23 (destruct k as [|k]; [try lia; split; reflexivity|]). lia.
Qed.

Lemma pack_btr_nonzero (bits psjw brp : Z) :
  1 <= bits <= 22 -> pack_btr bits psjw brp 0 <> 0.
Proof.
  intros H E.
  destruct (pack_btr_fields bits psjw brp H) as [H1 _].
  destruct (timing_row bits H) as [_ [_ [_ [Hpos _]]]].
  rewrite E in H1. change (btr_TSEG1 0) with 0 in H1. lia.
Qed.

(** A non-zero result of [can_speed] is a packed word of a matched row. *)
Lemma can_speed_nonzero_inv (fuel : nat) (sclk cclk psjw w : Z) :
  can_speed fuel sclk cclk psjw = Done w -> w <> 0 ->
  exists bits brp,
    1 <= bits <= 22 /\ 0 <= brp < 2 ^ 16 /\
    u32 ((bits + 3) * (brp + 1)) = sclk / cclk /\
    w = pack_btr bits psjw brp 0.
Proof.
  unfold can_speed. intros H Hw.
  destruct (cclk =? 0); [discriminate H|].
  destruct (speed_search fuel (sclk / cclk) (u16 (sclk / cclk / 24)) 0)
    as [[[hit brp] bits]| |] eqn:E; cbn [bind] in H; try discriminate H.
  destruct hit.
  - destruct (speed_search_hit _ _ _ _ _ _ E) as [Hs Hb].
    destruct (scan_bits_hit _ _ _ _ Hs) as [Hr Hm].
    exists bits, brp. inversion H. repeat split; try lia; reflexivity.
  - inversion H. congruence.
Qed.

(** ** Message-object selection *)

Lemma lowest_ext (P Q : Z -> bool) (lo hi i : Z) :
  (forall j, lo <= j < hi -> P j = Q j) -> lowest P lo hi i -> lowest Q lo hi i.
Proof.
  intros H [Hr [Hi Hlow]]. repeat split; try lia.
  - rewrite <- H by lia. exact Hi.
  - intros j Hj. rewrite <- H by lia. apply Hlow. exact Hj.
Qed.

Lemma slot_number_masked (h : Z) : 1 <= h <= 32 -> u32 (Z.land h 0x3F) = h.
Proof.
  intros H. change 0x3F with (Z.ones 6).
  rewrite land_small_id by (try change (2 ^ 6) with 64; lia).
  apply u32_small. lia.
Qed.

Lemma in_range_true (h : Z) : 1 <= h <= 32 -> (0 <? h) && (h <=? 32) = true.
Proof. intros H. apply andb_true_iff. split; [apply Z.ltb_lt | apply Z.leb_le]; lia. Qed.

Lemma in_range_false (h : Z) : ~ 1 <= h <= 32 -> (0 <? h) && (h <=? 32) = false.
Proof.
  intros H. apply andb_false_iff.
  destruct (Z.ltb_spec 0 h); [right; apply Z.leb_gt; lia | left; reflexivity].
Qed.

Section Allocation.

Variable hw_cmdreq : creg -> regfile -> regfile.
Variable hw_tick : regfile -> regfile.
Hypothesis transfers : transfer_completes hw_tick.

(** [can_filter] with the handle it settles on in range: the request goes
    to that message object and the handle is returned. *)
Lemma can_filter_in_range (s : can_state) (id mask : Z) (format : CANFormat)
    (handle h : Z) :
  h = (if handle =? 0 then find_slot (bit_clear (msgval s)) 32 0 handle
       else handle) ->
  1 <= h <= 32 ->
  exists s',
    returns (fun fuel => can_filter hw_cmdreq hw_tick fuel s id mask format handle)
            (h, s') /\
    last_write CANIF1_CMDREQ (mmio s') = Some h.
Proof.
  intros Hh Hr. unfold can_filter. fold (msgval s). rewrite <- Hh.
  rewrite (in_range_true h Hr).
  match goal with
  | |- context [wait_idle hw_tick _ CANIF1_CMDREQ ?st] =>
      destruct (wait_idle_returns hw_tick CANIF1_CMDREQ st transfers
                  (or_introl eq_refl)) as [f' Hw]
  end.
  eexists. split.
  - eapply returns_bind; [exact Hw | apply returns_ret].
  - cbn. rewrite slot_number_masked by exact Hr. reflexivity.
Qed.

Lemma can_filter_out_of_range (s : can_state) (id mask : Z)
    (format : CANFormat) (handle h : Z) (fuel : nat) :
  h = (if handle =? 0 then find_slot (bit_clear (msgval s)) 32 0 handle
       else handle) ->
  ~ 1 <= h <= 32 ->
  can_filter hw_cmdreq hw_tick fuel s id mask format handle = Done (h, s).
Proof.
  intros Hh Hr. unfold can_filter. fold (msgval s). rewrite <- Hh.
  rewrite (in_range_false h Hr). reflexivity.
Qed.

Lemma txPending_can_enable (s : can_state) :
  txPending (can_enable s) = txPending s.
Proof. unfold txPending. rewrite !rd_can_enable_other by discriminate. reflexivity. Qed.

Lemma newdata_can_enable (s : can_state) : newdata (can_enable s) = newdata s.
Proof. unfold newdata. rewrite !rd_can_enable_other by discriminate. reflexivity. Qed.

(** [can_write]: message object 32 is taken when its transmit request is
    not pending, and nothing is done otherwise. *)
Lemma can_write_free (s : can_state) (msg : CAN_Message) (cc : Z) :
  Z.testbit (txPending s) 31 = false ->
  exists b,
    returns (fun fuel => can_write hw_cmdreq hw_tick fuel s msg cc) b /\
    fst b = 1 /\ last_write CANIF1_CMDREQ (mmio (snd b)) = Some 32.
Proof.
  intros H. unfold can_write. fold (txPending (can_enable s)).
  rewrite txPending_can_enable.
  change (Z.to_nat (32 - RX_MSG_OBJ_COUNT)) with 1%nat. cbn [find_slot].
  rewrite bit_clear_spec by (unfold RX_MSG_OBJ_COUNT; lia).
  change RX_MSG_OBJ_COUNT with 31. rewrite H. cbn [negb].
  change (31 + 1 =? 0) with false. cbv iota.
  apply returns_after_wait; [exact transfers | left; reflexivity |].
  intros f1. cbv beta.
  apply returns_after_wait; [exact transfers | left; reflexivity |].
  intros f2. eexists. split; [apply returns_ret|].
  split; reflexivity.
Qed.

Lemma can_write_pending (s : can_state) (msg : CAN_Message) (cc : Z) (fuel : nat) :
  Z.testbit (txPending s) 31 = true ->
  can_write hw_cmdreq hw_tick fuel s msg cc = Done (0, can_enable s).
Proof.
  intros H. unfold can_write. fold (txPending (can_enable s)).
  rewrite txPending_can_enable.
  change (Z.to_nat (32 - RX_MSG_OBJ_COUNT)) with 1%nat. cbn [find_slot].
  rewrite bit_clear_spec by (unfold RX_MSG_OBJ_COUNT; lia).
  change RX_MSG_OBJ_COUNT with 31. rewrite H. reflexivity.
Qed.

(** [can_read] with the handle it settles on in range: the read-back
    request goes to that message object and 1 is returned. *)
Lemma can_read_in_range (s : can_state) (msg : CAN_Message) (handle h : Z) :
  h = (if handle =? 0
       then find_slot (bit_set (newdata s)) (Z.to_nat RX_MSG_OBJ_COUNT) 0 handle
       else handle) ->
  1 <= h <= 32 ->
  exists b,
    returns (fun fuel => can_read hw_cmdreq hw_tick fuel s msg handle) b /\
    fst (fst b) = 1 /\ last_write CANIF2_CMDREQ (mmio (snd b)) = Some h.
Proof.
  intros Hh Hr. unfold can_read. fold (newdata (can_enable s)).
  rewrite newdata_can_enable. rewrite <- Hh. rewrite (in_range_true h Hr).
  apply returns_after_wait; [exact transfers | right; reflexivity |].
  intros f1. cbv beta.
  apply returns_after_wait; [exact transfers | right; reflexivity |].
  intros f2. cbv beta.
  match goal with
  | |- context [let '(fmt, ident) := ?c in _] => destruct c as [fmt ident]
  end.
  eexists. split; [apply returns_ret|].
  split; [reflexivity|].
  cbn. rewrite slot_number_masked by exact Hr. reflexivity.
Qed.

Lemma can_read_out_of_range (s : can_state) (msg : CAN_Message) (handle h : Z)
    (fuel : nat) :
  h = (if handle =? 0
       then find_slot (bit_set (newdata s)) (Z.to_nat RX_MSG_OBJ_COUNT) 0 handle
       else handle) ->
  ~ 1 <= h <= 32 ->
  can_read hw_cmdreq hw_tick fuel s msg handle = Done (0, msg, can_enable s).
Proof.
  intros Hh Hr. unfold can_read. fold (newdata (can_enable s)).
  rewrite newdata_can_enable. rewrite <- Hh. rewrite (in_range_false h Hr).
  reflexivity.
Qed.

(** The handle [can_filter] settles on. *)
Lemma filter_handle_cases (s : can_state) (handle h : Z) :
  h = (if handle =? 0 then find_slot (bit_clear (msgval s)) 32 0 handle
       else handle) ->
  (handle = 0 ->
   forall i, lowest (fun i => negb (Z.testbit (msgval s) i)) 0 32 i -> h = i + 1) /\
  (handle = 0 ->
   (forall i, 0 <= i < 32 -> Z.testbit (msgval s) i = true) -> h = 0) /\
  (handle <> 0 -> h = handle).
Proof.
  intros Hh. repeat split.
  - intros -> i Hi. rewrite Hh. cbn [Z.eqb].
    apply (find_slot_lowest _ 32 0 0 i).
    apply (lowest_ext (fun i => negb (Z.testbit (msgval s) i))); [|exact Hi].
    intros j Hj. rewrite bit_clear_spec by lia. reflexivity.
  - intros -> Hall. rewrite Hh. cbn [Z.eqb].
    apply find_slot_none. intros j Hj.
    rewrite bit_clear_spec by lia. rewrite Hall by lia. reflexivity.
  - intros Hne. rewrite Hh. destruct (Z.eqb_spec handle 0); [contradiction|].
    reflexivity.
Qed.

(** C4 (amended).  With [handle = 0], [can_filter] returns the number of
    the first message object not marked valid (lowest index + 1), and 0
    when all 32 are valid, in which case it writes nothing.  A non-zero
    handle is returned as it was supplied; for a supplied handle below 0 or
    above 32 the call writes no register and returns that handle. *)
Theorem can_filter_return (s : can_state) (id mask : Z) (format : CANFormat)
    (handle : Z) :
  exists ret s',
    returns (fun fuel => can_filter hw_cmdreq hw_tick fuel s id mask format handle)
            (ret, s') /\
    (handle = 0 ->
     forall i, lowest (fun i => negb (Z.testbit (msgval s) i)) 0 32 i ->
               ret = i + 1) /\
    (handle = 0 ->
     (forall i, 0 <= i < 32 -> Z.testbit (msgval s) i = true) ->
     ret = 0 /\ s' = s) /\
    (handle <> 0 -> ret = handle) /\
    (handle < 0 \/ 32 < handle -> s' = s).
Proof.
  remember (if handle =? 0 then find_slot (bit_clear (msgval s)) 32 0 handle
            else handle) as h eqn:Hh.
  destruct (filter_handle_cases s handle h Hh) as [F1 [F2 F3]].
  destruct (Z.le_gt_cases 1 h) as [H1|H1];
    [destruct (Z.le_gt_cases h 32) as [H2|H2]|].
  - destruct (can_filter_in_range s id mask format handle h Hh (conj H1 H2))
      as [s' [Hret _]].
    exists h, s'. split; [exact Hret|]. split; [exact F1|].
    split; [intros H0 Hall; rewrite (F2 H0 Hall) in H1; lia|].
    split; [exact F3|].
    intros Hout. assert (Hne : handle <> 0) by lia.
    rewrite (F3 Hne) in H1, H2. lia.
  - exists h, s. split.
    + exists 0%nat. intros fuel _. apply can_filter_out_of_range; [exact Hh | lia].
    + split; [exact F1|]. split; [intros H0 Hall; split; auto|].
      split; [exact F3 | reflexivity].
  - exists h, s. split.
    + exists 0%nat. intros fuel _. apply can_filter_out_of_range; [exact Hh | lia].
    + split; [exact F1|]. split; [intros H0 Hall; split; auto|].
      split; [exact F3 | reflexivity].
Qed.


(** C10.  With an explicit handle in 1 .. 32, whatever the new-data
    registers hold, [can_read] waits for interface 2 to be idle, requests
    the read-back of that message object through interface 2 (command mask
    0x7F, request number [handle]), waits for the transfer to finish, and
    returns 1 together with the message assembled from the interface 2
    registers as the transfer left them; the caller's message plays no
    part.  Each wait ends at the first poll that reads BUSY clear. *)
Theorem can_read_explicit_handle (s : can_state) (msg : CAN_Message)
    (handle : Z) :
  1 <= handle <= 32 ->
  exists n1 n2 : nat,
    let s1 := polled hw_tick n1 (can_enable s) in
    let s2 := cmdreq hw_cmdreq CANIF2_CMDREQ (Z.land handle 0x3F)
                (wr CANIF2_CMDMSK_W 0x7F s1) in
    let s3 := polled hw_tick n2 s2 in
    let s' := wr CANSTAT (Z.land (rd s3 CANSTAT) (Z.lnot (Z.shiftl 1 4))) s3 in
    leaves_wait hw_tick CANIF2_CMDREQ (can_enable s) n1 /\
    leaves_wait hw_tick CANIF2_CMDREQ s2 n2 /\
    returns (fun fuel => can_read hw_cmdreq hw_tick fuel s msg handle)
            (1, CanBoard.if2_message s3, s') /\
    last_write CANIF2_CMDREQ (mmio s') = Some handle.
Proof.
  intros Hr.
  destruct (wait_idle_first hw_tick CANIF2_CMDREQ (can_enable s) transfers
              (or_intror eq_refl)) as [n1 [L1 [k1 W1]]].
  destruct (wait_idle_first hw_tick CANIF2_CMDREQ
              (cmdreq hw_cmdreq CANIF2_CMDREQ (Z.land handle 0x3F)
                 (wr CANIF2_CMDMSK_W 0x7F
                    (polled hw_tick n1 (can_enable s))))
              transfers (or_intror eq_refl)) as [n2 [L2 [k2 W2]]].
  exists n1, n2. cbv zeta.
  split; [exact L1|]. split; [exact L2|]. split.
  - exists (Nat.max k1 k2). intros fuel Hf. unfold can_read.
    destruct (Z.eqb_spec handle 0) as [E0|_]; [lia|].
    rewrite (in_range_true handle Hr).
    rewrite W1 by lia. cbn [bind].
    match goal with
    | |- context [wr CANIF2_CMDMSK_W ?v _] => change v with 0x7F
    end.
    rewrite W2 by lia. cbn [bind].
    unfold CanBoard.if2_message.
    match goal with
    | |- context [if ?c then (CANExtended, _) else _] => destruct c
    end; reflexivity.
  - cbn. rewrite slot_number_masked by exact Hr. reflexivity.
Qed.

End Allocation.

Lemma sim_transfers : transfer_completes sim_tick.
Proof.
  intros r f Hr. exists 1%nat. cbn [Nat.iter nat_rect].
  unfold CANIFn_CMDREQ_BUSY. rewrite anyset_bit by lia.
  rewrite u32_testbit by lia.
  destruct Hr as [-> | ->]; cbn [sim_tick];
    rewrite Z.land_spec; apply andb_false_r.
Defined.

Lemma can_filter_return_witness :
  transfer_completes sim_tick /\
  exists ret s',
    returns (fun fuel =>
               can_filter sim_cmdreq sim_tick fuel reset_state 0 0 CANStandard 33)
            (ret, s') /\
    (33 = 0 ->
     forall i, lowest (fun i => negb (Z.testbit (msgval reset_state) i)) 0 32 i ->
               ret = i + 1) /\
    (33 = 0 ->
     (forall i, 0 <= i < 32 -> Z.testbit (msgval reset_state) i = true) ->
     ret = 0 /\ s' = reset_state) /\
    (33 <> 0 -> ret = 33) /\
    (33 < 0 \/ 32 < 33 -> s' = reset_state).
Proof.
  split; [exact sim_transfers|].
  exact (can_filter_return sim_cmdreq sim_tick sim_transfers
           reset_state 0 0 CANStandard 33).
Defined.

(** A supplied handle outside 1 .. 32 comes back as the return value: 33
    and -1 are returned, not 0, with the state untouched. *)
Lemma can_filter_handle_out_of_range :
  can_filter sim_cmdreq sim_tick 0 reset_state 0 0 CANStandard 33
  = Done (33, reset_state) /\
  can_filter sim_cmdreq sim_tick 0 reset_state 0 0 CANStandard (-1)
  = Done (-1, reset_state) /\
  33 <> 0 /\ -1 <> 0.
Proof. repeat split; discriminate. Qed.


Lemma can_read_explicit_handle_witness :
  transfer_completes sim_tick /\ 1 <= 5 <= 32 /\ newdata reset_state = 0 /\
  exists n1 n2 : nat,
    let s1 := polled sim_tick n1 (can_enable reset_state) in
    let s2 := cmdreq sim_cmdreq CANIF2_CMDREQ (Z.land 5 0x3F)
                (wr CANIF2_CMDMSK_W 0x7F s1) in
    let s3 := polled sim_tick n2 s2 in
    let s' := wr CANSTAT (Z.land (rd s3 CANSTAT) (Z.lnot (Z.shiftl 1 4))) s3 in
    leaves_wait sim_tick CANIF2_CMDREQ (can_enable reset_state) n1 /\
    leaves_wait sim_tick CANIF2_CMDREQ s2 n2 /\
    returns (fun fuel => can_read sim_cmdreq sim_tick fuel reset_state sample_msg 5)
            (1, CanBoard.if2_message s3, s') /\
    last_write CANIF2_CMDREQ (mmio s') = Some 5.
Proof.
  split; [exact sim_transfers|].
  assert (H : 1 <= 5 <= 32) by lia.
  split; [exact H|]. split; [reflexivity|].
  exact (can_read_explicit_handle sim_cmdreq sim_tick sim_transfers
           reset_state sample_msg 5 H).
Defined.

(** ** Interrupt lines *)

Lemma testbit_cntl_can_enable (s : can_state) (i : Z) :
  1 <= i < 32 ->
  Z.testbit (rd (can_enable s) CANCNTL) i = Z.testbit (rd s CANCNTL) i.
Proof.
  intros Hi. unfold can_enable. destruct (anyset (rd s CANCNTL) 1); [|reflexivity].
  rewrite rd_wr_same, u32_testbit by lia.
  rewrite Z.land_spec, Z.lnot_spec by lia.
  pose proof (testbit_one_shifted 0 i ltac:(lia)) as E.
  change (Z.shiftl 1 0) with 1 in E. rewrite E.
  destruct (Z.eqb_spec 0 i); [lia|]. apply andb_true_r.
Qed.

Lemma enabled_irqs_can_enable (s : can_state) :
  enabled_irqs (can_enable s) = enabled_irqs s.
Proof. unfold can_enable. destruct (anyset (rd s CANCNTL) 1); reflexivity. Qed.

Lemma anyset_status (e : Z) :
  anyset e IRQ_ENABLE_STATUS = Z.testbit e 0 || Z.testbit e 1.
Proof.
  unfold IRQ_ENABLE_STATUS, IRQ_ENABLE_TX, IRQ_ENABLE_RX.
  rewrite anyset_lor, !anyset_bit by lia. reflexivity.
Qed.

Lemma anyset_error (e : Z) :
  anyset e IRQ_ENABLE_ERROR = Z.testbit e 2 || Z.testbit e 3 || Z.testbit e 4.
Proof.
  unfold IRQ_ENABLE_ERROR, IRQ_ENABLE_EW, IRQ_ENABLE_EP, IRQ_ENABLE_BE.
  rewrite !anyset_lor, !anyset_bit by lia. reflexivity.
Qed.

Lemma anyset_any (e : Z) :
  anyset e IRQ_ENABLE_ANY = anyset e IRQ_ENABLE_STATUS || anyset e IRQ_ENABLE_ERROR.
Proof. unfold IRQ_ENABLE_ANY. apply anyset_lor. Qed.

Ltac cntl_bits :=
  repeat first
    [ rewrite rd_wr_same
    | rewrite u32_testbit by lia
    | rewrite Z.lor_spec
    | rewrite Z.land_spec
    | rewrite Z.lnot_spec by lia
    | rewrite testbit_one_shifted by lia ].

Lemma irq_lines_programmed (s1 : can_state) :
  cntl_lines_ok
    (let s := can_disable s1 in
      let s :=
        if negb (anyset (enabled_irqs s) IRQ_ENABLE_ANY) then
          wr CANCNTL
             (Z.land (rd s CANCNTL)
                (Z.lnot (Z.lor (Z.lor (Z.shiftl 1 1) (Z.shiftl 1 2))
                               (Z.shiftl 1 3)))) s
        else
          let s := wr CANCNTL (Z.lor (rd s CANCNTL) (Z.shiftl 1 1)) s in
          let s :=
            if anyset (enabled_irqs s) IRQ_ENABLE_STATUS
            then wr CANCNTL (Z.lor (rd s CANCNTL) (Z.shiftl 1 2)) s
            else wr CANCNTL (Z.land (rd s CANCNTL) (Z.lnot (Z.shiftl 1 2))) s in
          if anyset (enabled_irqs s) IRQ_ENABLE_ERROR
          then wr CANCNTL (Z.lor (rd s CANCNTL) (Z.shiftl 1 3)) s
          else wr CANCNTL (Z.land (rd s CANCNTL) (Z.lnot (Z.shiftl 1 3))) s in
      let s := can_enable s in
      with_nvic true s).
Proof.
  cbv zeta.
  assert (He : enabled_irqs (can_disable s1) = enabled_irqs s1) by reflexivity.
  generalize dependent (can_disable s1). intros s2 He.
  generalize dependent (enabled_irqs s1). intros e He.
  unfold cntl_lines_ok, irq_enabled, irq_bit.
  change (rd (with_nvic true ?x) CANCNTL) with (rd x CANCNTL).
  rewrite !testbit_cntl_can_enable by lia.
  cbn [enabled_irqs with_nvic]. rewrite enabled_irqs_can_enable.
  rewrite He, anyset_any.
  destruct (anyset e IRQ_ENABLE_STATUS) eqn:St;
    destruct (anyset e IRQ_ENABLE_ERROR) eqn:Er;
    cbn [orb negb];
    repeat (progress (cbn [enabled_irqs wr]; rewrite ?He, ?St, ?Er));
    rewrite anyset_status in St; rewrite anyset_error in Er;
    cntl_bits;
    repeat match goal with
           | |- context [Z.testbit ?a ?b] => destruct (Z.testbit a b)
           end;
    cbn in *; try discriminate; repeat split; reflexivity.
Qed.

(** C6 (amended).  After a call to [can_irq_set] for one of the five kinds
    it handles (RX, TX, bus-off, error-passive, error-warning) the
    interrupt-line bits of CANCNTL agree with the enabled kinds: IE (bit 1)
    is set iff some kind is enabled, SIE (bit 2) iff RX or TX is, EIE
    (bit 3) iff bus-off, error-passive or error-warning is.  A call with any
    other kind returns at once and leaves the state as it was. *)
Theorem can_irq_set_lines (s : can_state) (type : CanIrqType) (enable : Z) :
  (irq_bit type <> None -> cntl_lines_ok (can_irq_set s type enable)) /\
  (irq_bit type = None -> can_irq_set s type enable = s).
Proof.
  pose (upd := fun m : Z =>
    if negb (enable =? 0)
    then with_enabled_irqs (Z.lor (enabled_irqs s) m) s
    else with_enabled_irqs (Z.land (enabled_irqs s) (u32 (Z.lnot m))) s).
  destruct type; (split; [intros H | intros H; try discriminate H]).
  - exact (irq_lines_programmed (upd IRQ_ENABLE_RX)).
  - exact (irq_lines_programmed (upd IRQ_ENABLE_TX)).
  - exact (irq_lines_programmed (upd IRQ_ENABLE_EW)).
  - exact (irq_lines_programmed (upd IRQ_ENABLE_EP)).
  - exact (irq_lines_programmed (upd IRQ_ENABLE_BE)).
  - exfalso. apply H. reflexivity.
  - reflexivity.
Qed.

Lemma can_irq_set_lines_witness :
  irq_bit IRQ_RX <> None /\
  cntl_lines_ok (can_irq_set reset_state IRQ_RX 1).
Proof.
  assert (H : irq_bit IRQ_RX <> None) by discriminate.
  split; [exact H|].
  exact (proj1 (can_irq_set_lines reset_state IRQ_RX 1) H).
Defined.

(** After [can_irq_free] has cleared IE while RX stays enabled, a call
    with a kind the [switch] does not name returns with the lines still
    disagreeing with the enabled kinds. *)
Lemma can_irq_set_unhandled_kind :
  irq_enabled (can_irq_set stale_lines_state (IRQ_OTHER 3) 1) IRQ_RX = true /\
  Z.testbit (rd (can_irq_set stale_lines_state (IRQ_OTHER 3) 1) CANCNTL) 1
  = false /\
  ~ cntl_lines_ok (can_irq_set stale_lines_state (IRQ_OTHER 3) 1).
Proof.
  split; [reflexivity|]. split; [reflexivity|].
  intros [H _]. vm_compute in H. discriminate H.
Qed.

(** ** Interrupt dispatch *)

Lemma clear_flag_bits (x k i : Z) :
  0 <= k -> 0 <= i ->
  Z.testbit (u32 (Z.land (u32 x) (Z.lnot (Z.shiftl 1 k)))) i
  = Z.testbit (u32 x) i && negb (i =? k).
Proof.
  intros Hk Hi. destruct (Z.ltb_spec i 32) as [Hlt|Hge].
  - rewrite u32_testbit by lia.
    rewrite Z.land_spec, Z.lnot_spec, testbit_one_shifted by lia.
    rewrite (Z.eqb_sym k i). reflexivity.
  - unfold u32 at 1 3. rewrite !Z.mod_pow2_bits_high by lia. reflexivity.
Qed.


Lemma can_irq_not_status (s : can_state) :
  Z.land (rd s CANINT) 0xFFFF <> 0x8000 -> can_irq s = s.
Proof.
  intros H. unfold can_irq.
  destruct (Z.eqb_spec (Z.land (rd s CANINT) 65535) 32768); [contradiction|].
  reflexivity.
Qed.

(** C5 (amended).  When the status interrupt 0x8000 is signalled, one
    dispatch fires, in the order bus-off, error-passive, error-warning,
    receive-complete, transmit-complete, one callback for each asserted
    error condition whose interrupt kind is enabled in [enabled_irqs] and
    one for each asserted completion flag; it leaves RXOK and TXOK clear
    and every other bit of CANSTAT, the error flags among them, and every
    other register as they were. *)
Theorem can_irq_dispatch (s : can_state) :
  Z.land (rd s CANINT) 0xFFFF = 0x8000 ->
  let status := rd s CANSTAT in
  let en := enabled_irqs s in
  let cb (cond : bool) (t : CanIrqType) :=
    if cond then [(can_irq_id s, t)] else [] in
  fired (can_irq s)
  = fired s
    ++ cb (Z.testbit status 7 && Z.testbit en 4) IRQ_BUS
    ++ cb (Z.testbit status 5 && Z.testbit en 3) IRQ_PASSIVE
    ++ cb (Z.testbit status 6 && Z.testbit en 2) IRQ_ERROR
    ++ cb (Z.testbit status 4) IRQ_RX
    ++ cb (Z.testbit status 3) IRQ_TX /\
  (forall i, 0 <= i ->
     Z.testbit (rd (can_irq s) CANSTAT) i
     = Z.testbit status i && negb (i =? 4) && negb (i =? 3)) /\
  (forall r, r <> CANSTAT -> rd (can_irq s) r = rd s r) /\
  (forall r v, In (r, v) (mmio (can_irq s)) -> r = CANSTAT \/ In (r, v) (mmio s)).
Proof.
  intros Hint status en cb. unfold can_irq.
  rewrite Hint. change (32768 =? 32768) with true. cbv iota zeta.
  fold status.
  unfold CANSTAT_BOFF, CANSTAT_EPASS, CANSTAT_EWARN, CANSTAT_RXOK, CANSTAT_TXOK,
    IRQ_ENABLE_BE, IRQ_ENABLE_EP, IRQ_ENABLE_EW.
  rewrite !anyset_bit by lia.
  subst en cb. cbv beta.
  assert (Hst : status = u32 (regs s CANSTAT)) by reflexivity.
  clearbody status.
  destruct (Z.testbit status 7) eqn:S7; destruct (Z.testbit status 5) eqn:S5;
    destruct (Z.testbit status 6) eqn:S6; destruct (Z.testbit status 4) eqn:S4;
    destruct (Z.testbit status 3) eqn:S3;
    cbn [enabled_irqs irq_handler wr andb];
    destruct (Z.testbit (enabled_irqs s) 4); cbn [enabled_irqs irq_handler wr];
    destruct (Z.testbit (enabled_irqs s) 3); cbn [enabled_irqs irq_handler wr];
    destruct (Z.testbit (enabled_irqs s) 2); cbn [enabled_irqs irq_handler wr].
  all: repeat progress change (rd (irq_handler ?t ?x) ?r) with (rd x r).
  all: (split; [unfold fired; cbn [calls irq_handler wr can_irq_id rev app];
                rewrite <- ?app_assoc; cbn [app]; rewrite ?app_nil_r; reflexivity|]).
  all: change (rd s CANSTAT) with (u32 (regs s CANSTAT)); rewrite <- ?Hst.
  all: (split;
        [intros i Hi; rewrite ?rd_wr_same; rewrite Hst;
         rewrite ?clear_flag_bits by lia; rewrite <- Hst;
         destruct (Z.eqb_spec i 4) as [E4|E4]; destruct (Z.eqb_spec i 3) as [E3|E3];
         try (exfalso; lia); try subst i; rewrite ?S4, ?S3; cbn [andb negb]; rewrite ?andb_true_r, ?andb_false_r;
         reflexivity|]).
  all: (split;
        [intros r Hr;
         repeat first
           [ rewrite rd_wr_other by congruence
           | progress change (rd (irq_handler ?t ?x) ?r) with (rd x r) ];
         reflexivity|]).
  all: intros r v HIn; cbn [mmio irq_handler wr In] in HIn;
    repeat (destruct HIn as [HIn|HIn]; [inversion HIn; left; reflexivity|]);
    right; exact HIn.
Qed.

Lemma can_irq_dispatch_witness :
  Z.land (rd (irq_state 0x18) CANINT) 0xFFFF = 0x8000 /\
  fired (can_irq (irq_state 0x18))
  = [(7, IRQ_BUS); (7, IRQ_PASSIVE); (7, IRQ_RX)] /\
  rd (can_irq (irq_state 0x18)) CANSTAT = 0xA0.
Proof.
  assert (H : Z.land (rd (irq_state 0x18) CANINT) 0xFFFF = 0x8000)
    by reflexivity.
  split; [exact H|].
  destruct (can_irq_dispatch (irq_state 0x18) H) as [Hf _].
  split; [exact Hf | reflexivity].
Defined.

(** With bus-off, error-passive and receive-complete asserted but no error
    interrupt kind enabled, one dispatch fires the receive callback only. *)
Lemma can_irq_errors_not_enabled :
  Z.land (rd (irq_state 0) CANINT) 0xFFFF = 0x8000 /\
  Z.testbit (rd (irq_state 0) CANSTAT) 7 = true /\
  Z.testbit (rd (irq_state 0) CANSTAT) 5 = true /\
  Z.testbit (rd (irq_state 0) CANSTAT) 4 = true /\
  fired (can_irq (irq_state 0)) = [(7, IRQ_RX)] /\
  fired (can_irq (irq_state 0))
  <> [(7, IRQ_BUS); (7, IRQ_PASSIVE); (7, IRQ_RX)].
Proof. repeat split; try reflexivity. discriminate. Qed.

(** ** What [can_frequency] does with the solver's answer *)

Lemma can_frequency_zero (fuel : nat) (clock f : Z) (s : can_state) :
  can_speed fuel clock (u32 f) 1 = Done 0 ->
  can_frequency fuel clock s f = Done (0, s).
Proof. intros H. unfold can_frequency. rewrite H. reflexivity. Qed.

Lemma can_frequency_diverge (fuel : nat) (clock f : Z) (s : can_state) :
  can_speed fuel clock (u32 f) 1 = Diverge ->
  can_frequency fuel clock s f = Diverge.
Proof. intros H. unfold can_frequency. rewrite H. reflexivity. Qed.

(** While the prescaler cannot wrap (bit width below 4 * 65536), a search
    without a match ends: the solver answers 0 and [can_frequency] returns
    0 with every register as it was. *)
Lemma can_frequency_no_match (clock f : Z) (s : can_state) :
  0 <= clock -> 0 < u32 f -> clock / u32 f / 4 < 2 ^ 16 ->
  (forall b p, 1 <= b <= 22 ->
               clock / u32 f / 24 < p <= clock / u32 f / 4 ->
               (b + 3) * (p + 1) <> clock / u32 f) ->
  exists fuel,
    can_speed fuel clock (u32 f) 1 = Done 0 /\
    can_frequency fuel clock s f = Done (0, s).
Proof.
  intros Hc Hf Hw Hno.
  set (bw := clock / u32 f) in *.
  assert (Hbw : 0 <= bw) by (apply Z.div_pos; lia).
  assert (H24 : 0 <= bw / 24 <= bw / 4).
  { split; [apply Z.div_pos; lia|].
    apply Z.div_le_lower_bound; [lia|].
    pose proof (Z.mul_div_le bw 24 ltac:(lia)).
    pose proof (Z.mul_div_le bw 4 ltac:(lia)).
    pose proof (Z.mod_pos_bound bw 4 ltac:(lia)).
    pose proof (Z.div_mod bw 4 ltac:(lia)). lia. }
  exists (S (Z.to_nat (bw / 4 - bw / 24))).
  assert (Hs : can_speed (S (Z.to_nat (bw / 4 - bw / 24))) clock (u32 f) 1 = Done 0).
  { unfold can_speed. destruct (Z.eqb_spec (u32 f) 0) as [E|_]; [lia|].
    fold bw. change 0x18 with 24.
    assert (Hu : u16 (bw / 24) = bw / 24)
      by (unfold u16; apply Z.mod_small; lia).
    rewrite Hu.
    destruct (speed_search_no_match (S (Z.to_nat (bw / 4 - bw / 24))) bw
                (bw / 24) 0) as [brp' [bits' E]]; try lia.
    - exact Hno.
    - rewrite E. reflexivity. }
  split; [exact Hs | apply can_frequency_zero; exact Hs].
Qed.

(** While the prescaler cannot wrap, the match found has its prescaler in
    the search range and between 4 and 23 quanta per bit. *)
Lemma speed_search_hit_range (fuel : nat) (bitwidth brp0 bits0 brp bits : Z) :
  0 <= brp0 -> bitwidth / 4 < 2 ^ 16 ->
  speed_search fuel bitwidth brp0 bits0 = Done (true, brp, bits) ->
  brp0 < brp <= bitwidth / 4.
Proof.
  intros H0 Hw. revert brp0 bits0 H0.
  induction fuel as [|f IH]; intros brp0 bits0 H0 H.
  - discriminate H.
  - cbn [speed_search] in H.
    destruct (Z.ltb_spec brp0 (bitwidth / 4)) as [Hlt|Hge]; [|discriminate H].
    assert (Hu : u16 (brp0 + 1) = brp0 + 1)
      by (unfold u16; apply Z.mod_small; lia).
    rewrite Hu in H.
    destruct (scan_bits 22 (brp0 + 1) bitwidth) as [hit b].
    destruct hit.
    + inversion H; subst. lia.
    + pose proof (IH (brp0 + 1) b ltac:(lia) H). lia.
Qed.

Lemma can_speed_quanta_per_bit (fuel : nat) (sclk cclk psjw w : Z) :
  0 <= sclk -> 0 < cclk -> sclk / cclk / 4 < 2 ^ 16 ->
  can_speed fuel sclk cclk psjw = Done w -> w <> 0 ->
  exists bits brp,
    1 <= bits <= 22 /\
    sclk / cclk / 24 < brp <= sclk / cclk / 4 /\
    (bits + 3) * (brp + 1) = sclk / cclk /\
    4 <= bits + 3 <= 23 /\
    w = pack_btr bits psjw brp 0.
Proof.
  intros Hs Hc Hw H Hne. unfold can_speed in H.
  destruct (cclk =? 0); [discriminate H|].
  set (bw := sclk / cclk) in *.
  assert (Hbw : 0 <= bw) by (apply Z.div_pos; lia).
  assert (H24 : 0 <= bw / 24 <= bw / 4).
  { split; [apply Z.div_pos; lia|].
    apply Z.div_le_lower_bound; [lia|].
    pose proof (Z.mul_div_le bw 24 ltac:(lia)).
    pose proof (Z.mod_pos_bound bw 4 ltac:(lia)).
    pose proof (Z.div_mod bw 4 ltac:(lia)). lia. }
  change 0x18 with 24 in H.
  assert (Hu : u16 (bw / 24) = bw / 24) by (unfold u16; apply Z.mod_small; lia).
  rewrite Hu in H.
  destruct (speed_search fuel bw (bw / 24) 0) as [[[hit brp] bits]| |] eqn:E;
    cbn [bind] in H; try discriminate H.
  destruct hit; [|inversion H; congruence].
  pose proof (speed_search_hit_range fuel bw (bw / 24) 0 brp bits
                (proj1 H24) Hw E) as Hrange.
  destruct (speed_search_hit _ _ _ _ _ _ E) as [Hscan Hb].
  destruct (scan_bits_hit _ _ _ _ Hscan) as [Hr Hm].
  rewrite calcbit_small in Hm by lia.
  exists bits, brp. split; [lia|]. split; [exact Hrange|]. split; [exact Hm|].
  split; [|inversion H; reflexivity].
  pose proof (Z.mod_pos_bound bw 24 ltac:(lia)).
  pose proof (Z.div_mod bw 24 ltac:(lia)). nia.
Qed.

(** ** A search that wraps around

    A scan over quanta counts none of which matches reports no hit. *)
Lemma scan_bits_miss (n : nat) (brp bitwidth : Z) :
  (forall b, 1 <= b <= Z.of_nat n -> u32 ((b + 3) * (brp + 1)) <> bitwidth) ->
  scan_bits n brp bitwidth = (false, 0).
Proof.
  induction n as [|m IH]; intros H.
  - reflexivity.
  - cbn [scan_bits].
    destruct (Z.eqb_spec (u32 ((Z.of_nat (S m) + 3) * (brp + 1))) bitwidth) as [E|_].
    + exfalso. apply (H (Z.of_nat (S m))); [lia | exact E].
    + apply IH. intros b Hb. apply H. lia.
Qed.

(** [k] prescalers in a row without a match, below the wrap and below the
    loop bound: the search moves on by [k]. *)
Lemma speed_search_skip (bitwidth : Z) (k : nat) :
  forall (fuel : nat) (brp : Z),
    0 <= brp -> brp + Z.of_nat k < 2 ^ 16 -> brp + Z.of_nat k <= bitwidth / 4 ->
    (forall p b, brp < p <= brp + Z.of_nat k -> 1 <= b <= 22 ->
       (b + 3) * (p + 1) <> bitwidth) ->
    speed_search (k + fuel) bitwidth brp 0
    = speed_search fuel bitwidth (brp + Z.of_nat k) 0.
Proof.
  induction k as [|k IH]; intros fuel brp H0 Hw Hb Hmiss.
  - cbn [Nat.add]. rewrite Z.add_0_r. reflexivity.
  - cbn [Nat.add speed_search].
    destruct (Z.ltb_spec brp (bitwidth / 4)) as [_|Hge]; [|lia].
    assert (Hu : u16 (brp + 1) = brp + 1)
      by (unfold u16; apply Z.mod_small; lia).
    rewrite Hu.
    rewrite scan_bits_miss.
    + rewrite IH; try lia.
      * f_equal. lia.
      * intros p b Hp Hbb. apply Hmiss; lia.
    + intros b Hbb. change (Z.of_nat 22) with 22 in Hbb.
      rewrite calcbit_small by lia. apply Hmiss; lia.
Qed.

(** 327725 = 5 * 5 * 13109: with a 16-bit prescaler only 25 quanta at
    prescaler 13108 match it. *)
Lemma no_match_327725 (bits brp : Z) :
  1 <= bits <= 22 -> 0 <= brp < 2 ^ 16 -> brp <> 13108 ->
  (bits + 3) * (brp + 1) <> 327725.
Proof.
  intros H Hp Hne.
  assert (Hk : exists k : nat, bits = Z.of_nat k /\ (1 <= k <= 22)%nat)
    by (exists (Z.to_nat bits); lia).
  destruct Hk as [k [-> Hk]].
  do 23 (destruct k as [|k]; [lia|]). lia.
Qed.

(** One turn of the search loop, without and with a match. *)
Lemma speed_search_miss (fuel : nat) (bitwidth brp bits : Z) :
  brp < bitwidth / 4 ->
  scan_bits 22 (u16 (brp + 1)) bitwidth = (false, 0) ->
  speed_search (S fuel) bitwidth brp bits
  = speed_search fuel bitwidth (u16 (brp + 1)) 0.
Proof.
  intros Hlt Hs. cbn [speed_search].
  destruct (Z.ltb_spec brp (bitwidth / 4)) as [_|Hge]; [|lia].
  rewrite Hs. reflexivity.
Qed.

Lemma speed_search_match (fuel : nat) (bitwidth brp bits b : Z) :
  brp < bitwidth / 4 ->
  scan_bits 22 (u16 (brp + 1)) bitwidth = (true, b) ->
  speed_search (S fuel) bitwidth brp bits = Done (true, u16 (brp + 1), b).
Proof.
  intros Hlt Hs. cbn [speed_search].
  destruct (Z.ltb_spec brp (bitwidth / 4)) as [_|Hge]; [|lia].
  rewrite Hs. reflexivity.
Qed.

(** The search for 327725 starts at prescaler 13655, runs up to 65535,
    wraps to 0 and matches at 13108. *)
Lemma speed_search_327725 (k1 k2 fuel : nat) :
  Z.of_nat k1 = 51880 -> Z.of_nat k2 = 13107 ->
  speed_search (k1 + S (k2 + S fuel)) 327725 13655 0 = Done (true, 13108, 22).
Proof.
  intros H1 H2.
  assert (Hq : 327725 / 4 = 81931) by reflexivity.
  rewrite speed_search_skip;
    [| lia | lia | lia
     | intros p b Hp Hb; apply no_match_327725; lia].
  rewrite H1. change (13655 + 51880) with 65535.
  rewrite speed_search_miss;
    [| lia
     | apply scan_bits_miss; intros b Hb; change (Z.of_nat 22) with 22 in Hb;
       rewrite calcbit_small by (try apply u16_range; lia);
       apply no_match_327725; [lia | apply u16_range | discriminate]].
  change (u16 (65535 + 1)) with 0.
  rewrite speed_search_skip;
    [| lia | lia | lia
     | intros p b Hp Hb; apply no_match_327725; lia].
  rewrite H2. change (0 + 13107) with 13107.
  rewrite (speed_search_match fuel 327725 13107 0 22); [reflexivity | lia | reflexivity].
Qed.

Lemma can_speed_327725 (fuel : nat) :
  64989 <= Z.of_nat fuel -> can_speed fuel 327725 1 1 = Done 0x7F74.
Proof.
  intros Hf.
  replace fuel
    with (Z.to_nat 51880 + S (Z.to_nat 13107 + S (fuel - Z.to_nat 64989)))%nat
    by lia.
  unfold can_speed. change (1 =? 0) with false. cbv iota.
  change (327725 / 1) with 327725.
  change (u16 (327725 / 0x18)) with 13655.
  rewrite speed_search_327725 by lia. reflexivity.
Qed.

(** ** Claims on the bit-timing solver *)




(** No quanta count in 22 .. 1 divides the bit width 72000000 / 271 with
    any prescaler. *)
Lemma no_match_265682 (bits brp : Z) :
  1 <= bits <= 22 -> (bits + 3) * (brp + 1) <> 72000000 / 271.
Proof.
  intros H. change (72000000 / 271) with 265682.
  assert (Hk : exists k : nat, bits = Z.of_nat k /\ (1 <= k <= 22)%nat)
    by (exists (Z.to_nat bits); lia).
  destruct Hk as [k [-> Hk]].
  do 23 (destruct k as [|k]; [lia|]). lia.
Qed.

(** C3.  With a 72 MHz core clock and a bit rate of 271 bit/s no quanta
    count matches, yet the solver does not return 0: its 16-bit prescaler
    wraps below the loop bound 265682 / 4, so the search never ends, and
    [can_frequency] never returns either. *)
Theorem can_speed_no_match_hangs :
  forall (fuel : nat) (s : can_state),
    can_speed fuel 72000000 271 1 = Diverge /\
    can_frequency fuel 72000000 s 271 = Diverge.
Proof.
  intros fuel s.
  assert (H : can_speed fuel 72000000 271 1 = Diverge).
  { unfold can_speed. change (271 =? 0) with false. cbv iota.
    change (72000000 / 271) with 265682.
    rewrite speed_search_stuck.
    - reflexivity.
    - apply u16_range.
    - vm_compute. discriminate.
    - intros b p Hb _. apply (no_match_265682 b p Hb). }
  split; [exact H | apply can_frequency_diverge; exact H].
Qed.

End CanSpec.

(** * Properties of the RTC driver *)

Module RtcSpec.
Import Rtc.

Lemma int64_small (z : Z) : - 2 ^ 63 <= z < 2 ^ 63 -> int64 z = z.
Proof. intros H. unfold int64. rewrite Z.mod_small by lia. lia. Qed.

Section Clock.

Variables RTC_SATURDAY RTC_CLOCK_12 RTC_CLOCK_24 RTC_PM : Z.
Variable _rtc_maketime : tm -> option Z.
Variable spare_store : Z -> Z.

Local Notation "'ORIGIN'" := (DATETIME_HWRTC_ORIGIN RTC_SATURDAY RTC_CLOCK_24).
Local Notation "'to_tm'" := (rtc_convert_datetime_hwrtc_to_tm RTC_CLOCK_12 RTC_PM).
Local Notation "'init_impl'" :=
  (rtc_init_impl RTC_SATURDAY RTC_CLOCK_24 spare_store).
Local Notation "'write_impl'" :=
  (rtc_write_impl RTC_SATURDAY RTC_CLOCK_24 spare_store).
Local Notation "'read_impl'" :=
  (rtc_read_impl RTC_SATURDAY RTC_CLOCK_12 RTC_CLOCK_24 RTC_PM
                 _rtc_maketime spare_store).
Local Notation "'consistent'" :=
  (origin_consistent RTC_SATURDAY RTC_CLOCK_12 RTC_CLOCK_24 RTC_PM _rtc_maketime).

(** State left by the body of [rtc_write_impl] once the RTC is enabled. *)
Lemma write_impl_active (f : nat) (t : Z) (s : rtc_state) :
  INIT_ACTIVE s = true ->
  exists s1,
    write_impl (S f) t s = Done s1 /\
    clk_enabled s1 = true /\ INIT_ACTIVE s1 = true /\
    SPR0 s1 = spare_store (int64 t) /\ hwrtc s1 = ORIGIN /\
    t_write s1 = int64 t /\
    t_hwrtc_origin_inited s1 = t_hwrtc_origin_inited s /\
    t_hwrtc_origin s1 = t_hwrtc_origin s.
Proof.
  intros H. cbn [rtc_write_impl]. unfold rtc_isenabled_impl.
  cbn [CLK_SetModuleClock CLK_EnableModuleClock with_clk INIT_ACTIVE].
  rewrite H. cbn [Z.eqb bind].
  eexists. split; [reflexivity|]. cbn. repeat split; exact H.
Qed.

Lemma write_impl_returns (fuel : nat) (t : Z) (s : rtc_state) :
  (3 <= fuel)%nat ->
  exists s1,
    write_impl fuel t s = Done s1 /\
    clk_enabled s1 = true /\ INIT_ACTIVE s1 = true /\
    SPR0 s1 = spare_store (int64 t) /\ hwrtc s1 = ORIGIN /\
    t_write s1 = int64 t /\
    t_hwrtc_origin_inited s1 = t_hwrtc_origin_inited s /\
    t_hwrtc_origin s1 = t_hwrtc_origin s.
Proof.
  intros Hf. destruct fuel as [|[|[|f]]]; try lia.
  destruct (INIT_ACTIVE s) eqn:Ha.
  - apply write_impl_active. exact Ha.
  - cbn [rtc_write_impl rtc_init_impl]. unfold rtc_isenabled_impl.
    cbn [CLK_SetModuleClock CLK_EnableModuleClock RTC_Open with_clk with_active
         INIT_ACTIVE].
    rewrite Ha. cbn [Z.eqb bind negb].
    eexists. split; [reflexivity|]. cbn. repeat split; reflexivity.
Qed.

Lemma init_impl_returns (fuel : nat) (s : rtc_state) :
  (3 <= fuel)%nat ->
  exists s1,
    init_impl fuel s = Done s1 /\
    INIT_ACTIVE s1 = true /\
    (INIT_ACTIVE s = true -> s1 = with_clk true s) /\
    (INIT_ACTIVE s = false -> hwrtc s1 = ORIGIN /\ t_write s1 = 0
                              /\ SPR0 s1 = spare_store 0) /\
    t_hwrtc_origin_inited s1 = t_hwrtc_origin_inited s /\
    t_hwrtc_origin s1 = t_hwrtc_origin s.
Proof.
  intros Hf. destruct fuel as [|[|[|f]]]; try lia.
  cbn [rtc_init_impl rtc_write_impl]. unfold rtc_isenabled_impl.
  cbn [CLK_SetModuleClock CLK_EnableModuleClock RTC_Open with_clk with_active
       INIT_ACTIVE].
  destruct (INIT_ACTIVE s) eqn:Ha; cbn [Z.eqb bind negb].
  - eexists. split; [reflexivity|]. cbn. rewrite Ha.
    repeat split; try reflexivity; discriminate.
  - eexists. split; [reflexivity|]. cbn.
    repeat split; try reflexivity; discriminate.
Qed.

Local Notation "'read_present'" :=
  (rtc_read_present RTC_CLOCK_12 RTC_PM _rtc_maketime).

(** [rtc_read_impl] after its enable check: the state [s1] it goes on
    with, and the rest of the function from there. *)
Lemma read_impl_unfold (fuel : nat) (s : rtc_state) :
  (3 <= fuel)%nat ->
  exists s1,
    INIT_ACTIVE s1 = true /\
    t_hwrtc_origin_inited s1 = t_hwrtc_origin_inited s /\
    t_hwrtc_origin s1 = t_hwrtc_origin s /\
    (INIT_ACTIVE s = true ->
     hwrtc s1 = hwrtc s /\ t_write s1 = t_write s /\ SPR0 s1 = SPR0 s) /\
    (INIT_ACTIVE s = false -> hwrtc s1 = ORIGIN) /\
    read_impl fuel s =
    if negb (t_hwrtc_origin_inited s1) then
      match _rtc_maketime (to_tm ORIGIN) with
      | None => Done (0, with_origin_inited true s1)
      | Some seconds =>
          Done (read_present
                  (with_t_write (int64 (SPR0 s1))
                     (with_spare_access true
                        (with_origin (int64 seconds)
                           (with_origin_inited true s1)))))
      end
    else Done (read_present s1).
Proof.
  intros Hf.
  unfold rtc_read_impl, rtc_isenabled_impl, CLK_SetModuleClock,
    CLK_EnableModuleClock.
  cbn [with_clk INIT_ACTIVE].
  destruct (INIT_ACTIVE s) eqn:Ha; cbn [Z.eqb bind].
  - exists (with_clk true s).
    split; [exact Ha|]. split; [reflexivity|]. split; [reflexivity|].
    split; [intros _; repeat split|]. split; [discriminate | reflexivity].
  - destruct (init_impl_returns fuel (with_clk true s) Hf)
      as [s1 [Hret [Hact [_ [Hinit [Hi Ho]]]]]].
    rewrite Hret. cbn [bind]. exists s1.
    split; [exact Hact|]. split; [exact Hi|]. split; [exact Ho|].
    split; [discriminate|]. split; [|reflexivity].
    intros _. apply Hinit. exact Ha.
Qed.

(** *** The cached origin stays consistent *)

Lemma consistent_power_on (d : S_RTC_TIME_DATA_T) : consistent (power_on d).
Proof. intros seconds H. discriminate H. Qed.

Lemma consistent_same_origin (s s' : rtc_state) :
  t_hwrtc_origin_inited s' = t_hwrtc_origin_inited s ->
  t_hwrtc_origin s' = t_hwrtc_origin s ->
  consistent s -> consistent s'.
Proof.
  intros Hi Ho Hc seconds H Hmk. rewrite Ho. apply Hc; [|exact Hmk].
  rewrite <- Hi. exact H.
Qed.

Lemma consistent_write (fuel : nat) (t : Z) (s s' : rtc_state) :
  (3 <= fuel)%nat -> consistent s -> write_impl fuel t s = Done s' ->
  consistent s'.
Proof.
  intros Hf Hc Hw.
  destruct (write_impl_returns fuel t s Hf)
    as [s1 [Hw1 [_ [_ [_ [_ [_ [Hi Ho]]]]]]]].
  rewrite Hw in Hw1. inversion Hw1; subst s1.
  exact (consistent_same_origin s s' Hi Ho Hc).
Qed.

Lemma read_present_state (s : rtc_state) : snd (read_present s) = s.
Proof.
  unfold rtc_read_present, RTC_WaitAccessEnable.
  destruct (_rtc_maketime (to_tm (RTC_GetDateAndTime s))); reflexivity.
Qed.

Lemma consistent_read (fuel : nat) (s s' : rtc_state) (v : Z) :
  (3 <= fuel)%nat -> consistent s -> read_impl fuel s = Done (v, s') ->
  consistent s'.
Proof.
  intros Hf Hc Hr.
  destruct (read_impl_unfold fuel s Hf) as [s1 [_ [Hi [Ho [_ [_ Hrd]]]]]].
  rewrite Hrd in Hr. clear Hrd.
  destruct (t_hwrtc_origin_inited s1) eqn:Hi1; cbn [negb] in Hr.
  - inversion Hr as [Hp']. pose proof (read_present_state s1) as Hp.
    rewrite Hp' in Hp. cbn [snd] in Hp. subst s'.
    apply (consistent_same_origin s s1); [congruence | exact Ho | exact Hc].
  - destruct (_rtc_maketime (to_tm ORIGIN)) as [o|] eqn:Hmk.
    + inversion Hr as [Hp'].
      match type of Hp' with read_present ?x = _ =>
        pose proof (read_present_state x) as Hp end.
      rewrite Hp' in Hp. cbn [snd] in Hp. subst s'.
      intros seconds _ Hmk'. cbn. congruence.
    + inversion Hr; subst. intros seconds _ Hmk'. congruence.
Qed.

(** C1 (amended).  For every [t] with 0 <= t <= INT64_MAX,
    [rtc_write_impl t] followed at once by [rtc_read_impl] returns [t]
    provided the time base is already set up when the write is made (the
    read then uses the [t_write] the write has just stored) or spare
    register 0 holds [t] unchanged (the read reloads [t_write] from it):
    the write leaves the hardware date and time at the reference, the read
    finds them there, and [t_write + (elapsed - origin)] is [t + 0].
    (The conversion is assumed to accept the reference date, and a cached
    origin, if there is one, to be the one it yields.) *)
Theorem rtc_write_then_read (s : rtc_state) (t seconds : Z) (fuel : nat) :
  (3 <= fuel)%nat ->
  0 <= t <= INT64_MAX ->
  _rtc_maketime (to_tm ORIGIN) = Some seconds ->
  consistent s ->
  t_hwrtc_origin_inited s = true \/ spare_store t = t ->
  exists s1 s2,
    write_impl fuel t s = Done s1 /\
    RTC_GetDateAndTime s1 = ORIGIN /\
    read_impl fuel s1 = Done (t, s2).
Proof.
  intros Hf Ht Hmk Hc Hsp. unfold INT64_MAX in Ht.
  assert (Ht64 : int64 t = t) by (apply int64_small; lia).
  destruct (write_impl_returns fuel t s Hf)
    as [s1 [Hw [_ [Hact [Hspr [Hhw [Htw [Hin Hor]]]]]]]].
  rewrite Ht64 in Hspr, Htw.
  destruct (read_impl_unfold fuel s1 Hf)
    as [s1' [Hact' [Hin' [Hor' [Hsame [_ Hrd]]]]]].
  destruct (Hsame Hact) as [Hhw' [Htw' Hspr']].
  assert (Hzero : forall x, int64 (t + int64 (int64 x - int64 x)) = t).
  { intros x. rewrite Z.sub_diag. change (int64 0) with 0.
    rewrite Z.add_0_r. exact Ht64. }
  exists s1. rewrite Hrd, Hmk.
  destruct (t_hwrtc_origin_inited s1') eqn:Hi; cbn [negb].
  - eexists. split; [exact Hw|]. split; [exact Hhw|].
    unfold rtc_read_present, RTC_GetDateAndTime, RTC_WaitAccessEnable.
    rewrite Hhw', Hhw, Hmk, Htw', Htw, Hor', Hor.
    rewrite (Hc seconds) by (try exact Hmk; congruence).
    rewrite Hzero. reflexivity.
  - assert (Hst : spare_store t = t).
    { destruct Hsp as [Hs|Hs]; [|exact Hs].
      congruence. }
    rewrite Hst in Hspr.
    eexists. split; [exact Hw|]. split; [exact Hhw|].
    unfold rtc_read_present, RTC_GetDateAndTime, RTC_WaitAccessEnable.
    cbn [hwrtc t_write t_hwrtc_origin with_t_write with_spare_access
         with_origin with_origin_inited].
    rewrite Hhw', Hhw, Hmk, Hspr', Hspr, Ht64, Hzero. reflexivity.
Qed.

(** C8.  [rtc_read_impl] returns 0 whenever the conversion rejects the
    date and time it reads from the hardware registers (those of an open
    RTC, or the reference date the read has just re-initialised a closed
    one to), and whenever it rejects the reference date on the call that
    sets up the origin. *)
Theorem rtc_read_rejected (s : rtc_state) (fuel : nat) :
  (3 <= fuel)%nat ->
  (INIT_ACTIVE s = true /\ _rtc_maketime (to_tm (RTC_GetDateAndTime s)) = None)
  \/ (INIT_ACTIVE s = false /\ _rtc_maketime (to_tm ORIGIN) = None)
  \/ (t_hwrtc_origin_inited s = false /\ _rtc_maketime (to_tm ORIGIN) = None) ->
  exists s', read_impl fuel s = Done (0, s').
Proof.
  intros Hf H.
  destruct (read_impl_unfold fuel s Hf)
    as [s1 [Hact [Hin [Hor [Hsame [Hreset Hrd]]]]]].
  rewrite Hrd. unfold rtc_read_present, RTC_GetDateAndTime, RTC_WaitAccessEnable.
  cbn [hwrtc with_t_write with_spare_access with_origin with_origin_inited].
  destruct H as [[Ha Hrej] | [[Ha Hrej] | [Hi Hrej]]].
  - destruct (Hsame Ha) as [Hhw _]. unfold RTC_GetDateAndTime in Hrej.
    rewrite Hhw, Hrej.
    destruct (negb (t_hwrtc_origin_inited s1));
      [destruct (_rtc_maketime (to_tm ORIGIN))|]; eexists; reflexivity.
  - rewrite (Hreset Ha), Hrej.
    destruct (negb (t_hwrtc_origin_inited s1)); eexists; reflexivity.
  - rewrite Hin, Hi, Hrej. eexists. reflexivity.
Qed.

(** C9.  Each secure entry point is its implementation function: same
    result and same state for every input and starting state. *)
Theorem secure_entry_is_impl (fuel : nat) (t : Z) (s : rtc_state) :
  rtc_init_s RTC_SATURDAY RTC_CLOCK_24 spare_store fuel s = init_impl fuel s /\
  rtc_free_s s = rtc_free_impl s /\
  rtc_isenabled_s s = rtc_isenabled_impl s /\
  rtc_read_s RTC_SATURDAY RTC_CLOCK_12 RTC_CLOCK_24 RTC_PM _rtc_maketime
             spare_store fuel s = read_impl fuel s /\
  rtc_write_s RTC_SATURDAY RTC_CLOCK_24 spare_store fuel t s
  = write_impl fuel t s.
Proof. repeat split. Qed.

End Clock.

Lemma rtc_write_then_read_witness :
  (3 <= 3)%nat /\
  0 <= 1700000000 <= INT64_MAX /\
  maketime_full_leap
    (rtc_convert_datetime_hwrtc_to_tm sample_CLOCK_12 sample_PM
       (DATETIME_HWRTC_ORIGIN sample_SATURDAY sample_CLOCK_24))
  = Some 946684800 /\
  origin_consistent sample_SATURDAY sample_CLOCK_12 sample_CLOCK_24 sample_PM
    maketime_full_leap (power_on (hwrtc malformed_state)) /\
  (t_hwrtc_origin_inited (power_on (hwrtc malformed_state)) = true \/
   u32 1700000000 = 1700000000) /\
  exists s1 s2,
    rtc_write_impl sample_SATURDAY sample_CLOCK_24 u32 3 1700000000
      (power_on (hwrtc malformed_state)) = Done s1 /\
    RTC_GetDateAndTime s1
    = DATETIME_HWRTC_ORIGIN sample_SATURDAY sample_CLOCK_24 /\
    rtc_read_impl sample_SATURDAY sample_CLOCK_12 sample_CLOCK_24 sample_PM
      maketime_full_leap u32 3 s1 = Done (1700000000, s2).
Proof.
  assert (H1 : (3 <= 3)%nat) by lia.
  assert (H2 : 0 <= 1700000000 <= INT64_MAX) by (unfold INT64_MAX; lia).
  assert (H3 : maketime_full_leap
                 (rtc_convert_datetime_hwrtc_to_tm sample_CLOCK_12 sample_PM
                    (DATETIME_HWRTC_ORIGIN sample_SATURDAY sample_CLOCK_24))
               = Some 946684800) by reflexivity.
  assert (H4 : origin_consistent sample_SATURDAY sample_CLOCK_12
                 sample_CLOCK_24 sample_PM maketime_full_leap
                 (power_on (hwrtc malformed_state)))
    by (intros seconds H; discriminate H).
  assert (H5 : t_hwrtc_origin_inited (power_on (hwrtc malformed_state)) = true
               \/ u32 1700000000 = 1700000000) by (right; reflexivity).
  split; [exact H1|]. split; [exact H2|]. split; [exact H3|].
  split; [exact H4|]. split; [exact H5|].
  exact (rtc_write_then_read sample_SATURDAY sample_CLOCK_12 sample_CLOCK_24
           sample_PM maketime_full_leap u32
           (power_on (hwrtc malformed_state)) 1700000000 946684800 3
           H1 H2 H3 H4 H5).
Defined.

(** C1, counterexample to "for every epochSeconds >= 0".  Spare register 0
    is 32 bits wide.  After power-on (time base not yet set up) writing
    2^32 + 5 stores 5 in it, and the read that follows at once sets up the
    time base, reloads [t_write] from the register and returns 5. *)
Lemma rtc_write_read_truncated :
  0 <= 2 ^ 32 + 5 <= INT64_MAX /\
  maketime_full_leap
    (rtc_convert_datetime_hwrtc_to_tm sample_CLOCK_12 sample_PM
       (DATETIME_HWRTC_ORIGIN sample_SATURDAY sample_CLOCK_24))
  = Some 946684800 /\
  origin_consistent sample_SATURDAY sample_CLOCK_12 sample_CLOCK_24 sample_PM
    maketime_full_leap (power_on (hwrtc malformed_state)) /\
  exists s1 s2,
    rtc_write_impl sample_SATURDAY sample_CLOCK_24 u32 3 (2 ^ 32 + 5)
      (power_on (hwrtc malformed_state)) = Done s1 /\
    SPR0 s1 = 5 /\
    RTC_GetDateAndTime s1
    = DATETIME_HWRTC_ORIGIN sample_SATURDAY sample_CLOCK_24 /\
    rtc_read_impl sample_SATURDAY sample_CLOCK_12 sample_CLOCK_24 sample_PM
      maketime_full_leap u32 3 s1 = Done (5, s2) /\
    5 <> 2 ^ 32 + 5.
Proof.
  split; [unfold INT64_MAX; lia|]. split; [reflexivity|].
  split; [intros seconds H; discriminate H|].
  eexists. eexists.
  split; [vm_compute; reflexivity|]. split; [reflexivity|].
  split; [reflexivity|]. split; [vm_compute; reflexivity | lia].
Qed.

Lemma rtc_read_rejected_witness :
  (3 <= 3)%nat /\
  INIT_ACTIVE malformed_state = true /\
  maketime_full_leap
    (rtc_convert_datetime_hwrtc_to_tm sample_CLOCK_12 sample_PM
       (RTC_GetDateAndTime malformed_state)) = None /\
  exists s',
    rtc_read_impl sample_SATURDAY sample_CLOCK_12 sample_CLOCK_24 sample_PM
      maketime_full_leap u32 3 malformed_state = Done (0, s').
Proof.
  assert (H1 : (3 <= 3)%nat) by lia.
  assert (H2 : INIT_ACTIVE malformed_state = true) by reflexivity.
  assert (H3 : maketime_full_leap
                 (rtc_convert_datetime_hwrtc_to_tm sample_CLOCK_12 sample_PM
                    (RTC_GetDateAndTime malformed_state)) = None)
    by reflexivity.
  split; [exact H1|]. split; [exact H2|]. split; [exact H3|].
  exact (rtc_read_rejected sample_SATURDAY sample_CLOCK_12 sample_CLOCK_24
           sample_PM maketime_full_leap u32 malformed_state 3 H1
           (or_introl (conj H2 H3))).
Defined.

End RtcSpec.

(** * Further properties of the CAN driver *)

Module CanMore.
Import Can CanBoard CanSpec.

(** ** Arithmetic of bit fields *)

Lemma testbit_small (b n i : Z) :
  0 <= n -> 0 <= b < 2 ^ n -> n <= i -> Z.testbit b i = false.
Proof.
  intros Hn Hb Hi. rewrite <- (Z.mod_small b (2 ^ n)) by exact Hb.
  apply Z.mod_pow2_bits_high. lia.
Qed.

Lemma lor_add_low (a b n : Z) :
  0 <= n -> 0 <= b < 2 ^ n -> Z.lor (a * 2 ^ n) b = a * 2 ^ n + b.
Proof.
  intros Hn Hb.
  assert (H0 : Z.land (a * 2 ^ n) b = 0).
  { apply Z.bits_inj'. intros i Hi. rewrite Z.land_spec, Z.bits_0.
    destruct (Z.ltb_spec i n).
    - rewrite Z.mul_pow2_bits_low by lia. reflexivity.
    - rewrite (testbit_small b n i) by lia. apply andb_false_r. }
  rewrite <- Z.lxor_lor by exact H0. symmetry.
  apply Z.add_nocarry_lxor. exact H0.
Qed.

Lemma land_mod (x n : Z) : 0 <= n -> Z.land x (Z.ones n) = x mod 2 ^ n.
Proof. apply Z.land_ones. Qed.

(** The timing word as a sum of its fields. *)
Lemma pack_btr_value (bits psjw brp : Z) :
  1 <= bits <= 22 ->
  pack_btr bits psjw brp 0
  = snd (timing_pt bits) * 4096 + fst (timing_pt bits) * 256
    + (psjw mod 4) * 64 + brp mod 64.
Proof.
  intros H. destruct (timing_row bits H) as [_ [H1 [H2 [Hpos Hsum]]]].
  unfold pack_btr. change (u32 (Z.shiftl 0 16)) with 0. rewrite Z.lor_0_r.
  rewrite H1, H2.
  change 0x3 with (Z.ones 2). change 0x3F with (Z.ones 6).
  rewrite !land_mod by lia. rewrite !Z.shiftl_mul_pow2 by lia.
  change (2 ^ 2) with 4. change (2 ^ 6) with 64.
  pose proof (Z.mod_pos_bound psjw 4 ltac:(lia)) as Hc.
  pose proof (Z.mod_pos_bound brp 64 ltac:(lia)) as Hd.
  set (c := psjw mod 4) in *. set (d := brp mod 64) in *.
  set (t1 := fst (timing_pt bits)) in *. set (t2 := snd (timing_pt bits)) in *.
  assert (Ht : 0 <= t2 /\ t1 <= 15 /\ t2 <= 7).
  { subst t1 t2. unfold timing_pt in *.
    assert (Hk : exists k : nat, Z.to_nat bits = k /\ (1 <= k <= 22)%nat)
      by (exists (Z.to_nat bits); lia).
    destruct Hk as [k [Ek Hk]]. rewrite Ek.
    do 23 (destruct k as [|k]; [cbn; lia|]). lia. }
  rewrite (lor_add_low t2 (t1 * 2 ^ 8) 12) by lia.
  replace (t2 * 2 ^ 12 + t1 * 2 ^ 8) with ((t2 * 16 + t1) * 2 ^ 8) by lia.
  rewrite (lor_add_low (t2 * 16 + t1) (c * 64) 8) by lia.
  replace ((t2 * 16 + t1) * 2 ^ 8 + c * 64)
    with (((t2 * 16 + t1) * 4 + c) * 2 ^ 6) by lia.
  rewrite (lor_add_low ((t2 * 16 + t1) * 4 + c) d 6) by lia.
  lia.
Qed.

Lemma pack_btr_range (bits psjw brp : Z) :
  1 <= bits <= 22 -> 0 < pack_btr bits psjw brp 0 < 2 ^ 15.
Proof.
  intros H. rewrite (pack_btr_value bits psjw brp H).
  destruct (timing_row bits H) as [_ [_ [_ [Hpos Hsum]]]].
  pose proof (Z.mod_pos_bound psjw 4 ltac:(lia)).
  pose proof (Z.mod_pos_bound brp 64 ltac:(lia)).
  assert (Ht : 0 <= snd (timing_pt bits) <= 7 /\ fst (timing_pt bits) <= 15).
  { unfold timing_pt in *.
    assert (Hk : exists k : nat, Z.to_nat bits = k /\ (1 <= k <= 22)%nat)
      by (exists (Z.to_nat bits); lia).
    destruct Hk as [k [Ek Hk]]. rewrite Ek.
    do 23 (destruct k as [|k]; [cbn; lia|]). lia. }
  lia.
Qed.

Lemma pack_btr_low_fields (bits psjw brp : Z) :
  1 <= bits <= 22 ->
  btr_BRP (pack_btr bits psjw brp 0) = brp mod 64 /\
  btr_SJW (pack_btr bits psjw brp 0) = psjw mod 4.
Proof.
  intros H. rewrite (pack_btr_value bits psjw brp H).
  unfold btr_BRP, btr_SJW.
  change 0x3 with (Z.ones 2). change 0x3F with (Z.ones 6).
  rewrite !land_mod by lia. rewrite Z.shiftr_div_pow2 by lia.
  change (2 ^ 2) with 4. change (2 ^ 6) with 64.
  pose proof (Z.mod_pos_bound psjw 4 ltac:(lia)) as Hc.
  pose proof (Z.mod_pos_bound brp 64 ltac:(lia)) as Hd.
  set (c := psjw mod 4) in *. set (d := brp mod 64) in *.
  set (t1 := fst (timing_pt bits)). set (t2 := snd (timing_pt bits)).
  split; Z.div_mod_to_equations; lia.
Qed.

(** ** The solver on its whole range *)

Lemma speed_search_terminates (fuel : nat) (bitwidth brp bits : Z) :
  0 <= brp -> bitwidth / 4 < 2 ^ 16 ->
  (Z.to_nat (bitwidth / 4 - brp) < fuel)%nat ->
  exists r, speed_search fuel bitwidth brp bits = Done r.
Proof.
  intros Hb Hw. revert brp bits Hb.
  induction fuel as [|f IH]; intros brp bits Hb Hf.
  - lia.
  - cbn [speed_search]. destruct (Z.ltb_spec brp (bitwidth / 4)) as [Hlt|Hge].
    + assert (Hu : u16 (brp + 1) = brp + 1)
        by (unfold u16; apply Z.mod_small; lia).
      rewrite Hu. destruct (scan_bits 22 (brp + 1) bitwidth) as [hit b].
      destruct hit; [eexists; reflexivity|]. apply IH; lia.
    + eexists. reflexivity.
Qed.

Lemma speed_search_more_fuel (n fuel : nat) (bitwidth brp bits : Z)
    (r : bool * Z * Z) :
  speed_search n bitwidth brp bits = Done r -> (n <= fuel)%nat ->
  speed_search fuel bitwidth brp bits = Done r.
Proof.
  revert fuel brp bits. induction n as [|n IH]; intros fuel brp bits H Hf.
  - discriminate H.
  - destruct fuel as [|fuel]; [lia|]. cbn [speed_search] in *.
    destruct (brp <? bitwidth / 4); [|exact H].
    destruct (scan_bits 22 (u16 (brp + 1)) bitwidth) as [hit b].
    destruct hit; [exact H|]. apply IH; [exact H | lia].
Qed.

Lemma div24_le_div4 (bw : Z) : 0 <= bw -> 0 <= bw / 24 <= bw / 4.
Proof.
  intros H. split; [apply Z.div_pos; lia|].
  apply Z.div_le_lower_bound; [lia|].
  pose proof (Z.mul_div_le bw 24 ltac:(lia)).
  pose proof (Z.mod_pos_bound bw 4 ltac:(lia)).
  pose proof (Z.div_mod bw 4 ltac:(lia)). lia.
Qed.

Lemma can_speed_returns (sclk cclk psjw : Z) :
  0 <= sclk -> 0 < cclk -> sclk / cclk / 4 < 2 ^ 16 ->
  exists w, returns (fun fuel => can_speed fuel sclk cclk psjw) w.
Proof.
  intros Hs Hc Hw. set (bw := sclk / cclk) in *.
  assert (Hbw : 0 <= bw) by (apply Z.div_pos; lia).
  pose proof (div24_le_div4 bw Hbw) as H24.
  assert (Hu : u16 (bw / 24) = bw / 24) by (unfold u16; apply Z.mod_small; lia).
  destruct (speed_search_terminates (S (Z.to_nat (bw / 4))) bw (bw / 24) 0)
    as [[[hit brp] bits] Hr]; try lia.
  eexists. exists (S (Z.to_nat (bw / 4))). intros fuel Hf.
  unfold can_speed. destruct (Z.eqb_spec cclk 0) as [E|_]; [lia|].
  fold bw. change 0x18 with 24.
  rewrite Hu, (speed_search_more_fuel _ fuel _ _ _ _ Hr Hf). reflexivity.
Qed.

(** X1.  Whenever the bit width satisfies [sclk / cclk / 4 < 65536] the
    prescaler cannot wrap and [can_speed] returns: with
    [sclk / cclk / 4 + 1] units of fuel or more it yields a word. *)
Theorem can_speed_returns_below_wrap (sclk cclk psjw : Z) :
  0 <= sclk -> 0 < cclk -> sclk / cclk / 4 < 2 ^ 16 ->
  exists w, returns (fun fuel => can_speed fuel sclk cclk psjw) w.
Proof. exact (can_speed_returns sclk cclk psjw). Qed.

Lemma can_speed_returns_below_wrap_witness :
  0 <= 48000000 /\ 0 < 500000 /\ 48000000 / 500000 / 4 < 2 ^ 16 /\
  exists w, returns (fun fuel => can_speed fuel 48000000 500000 1) w.
Proof.
  assert (H1 : 0 <= 48000000) by lia.
  assert (H2 : 0 < 500000) by lia.
  assert (H3 : 48000000 / 500000 / 4 < 2 ^ 16) by (vm_compute; reflexivity).
  split; [exact H1|]. split; [exact H2|]. split; [exact H3|].
  exact (can_speed_returns_below_wrap 48000000 500000 1 H1 H2 H3).
Defined.

(** X2.  A bit width below 8 core clocks per bit is always rejected: the
    solver starts at prescaler 1 and needs at least 4 quanta, so
    [can_speed] returns 0 and [can_frequency] returns 0 leaving every
    register as it was. *)
Theorem can_speed_rejects_fast_rates (clock f : Z) (s : can_state) (fuel : nat) :
  0 <= clock -> 0 < u32 f -> clock / u32 f < 8 -> (2 <= fuel)%nat ->
  can_speed fuel clock (u32 f) 1 = Done 0 /\
  can_frequency fuel clock s f = Done (0, s).
Proof.
  intros Hc Hf Hbw Hfuel.
  assert (Hs : can_speed fuel clock (u32 f) 1 = Done 0).
  { unfold can_speed. destruct (Z.eqb_spec (u32 f) 0) as [E|_]; [lia|].
    set (bw := clock / u32 f) in *.
    assert (Hpos : 0 <= bw) by (apply Z.div_pos; lia).
    assert (H24 : bw / 24 = 0) by (apply Z.div_small; lia).
    change 0x18 with 24. rewrite H24. change (u16 0) with 0.
    assert (H4 : 0 <= bw / 4 <= 1).
    { split; [apply Z.div_pos; lia|].
      apply Z.lt_succ_r. apply Z.div_lt_upper_bound; lia. }
    assert (Hno : forall b p, 1 <= b <= 22 -> 0 < p <= bw / 4 ->
                    (b + 3) * (p + 1) <> bw) by (intros b p Hb Hp; nia).
    assert (Hn : (Z.to_nat (bw / 4 - 0) < fuel)%nat) by lia.
    destruct (speed_search_no_match fuel bw 0 0 (Z.le_refl 0)
                ltac:(lia) Hno Hn) as [brp' [bits' E]].
    rewrite E. reflexivity. }
  split; [exact Hs | apply can_frequency_zero; exact Hs].
Qed.

Lemma can_speed_rejects_fast_rates_witness :
  0 <= 12000000 /\ 0 < u32 2000000 /\ 12000000 / u32 2000000 < 8 /\
  (2 <= 2)%nat /\
  can_speed 2 12000000 (u32 2000000) 1 = Done 0 /\
  can_frequency 2 12000000 reset_state 2000000 = Done (0, reset_state).
Proof.
  assert (H1 : 0 <= 12000000) by lia.
  assert (H2 : 0 < u32 2000000) by (vm_compute; reflexivity).
  assert (H3 : 12000000 / u32 2000000 < 8) by (vm_compute; reflexivity).
  assert (H4 : (2 <= 2)%nat) by lia.
  split; [exact H1|]. split; [exact H2|]. split; [exact H3|].
  split; [exact H4|].
  exact (can_speed_rejects_fast_rates 12000000 2000000 reset_state 2
           H1 H2 H3 H4).
Defined.

Lemma can_speed_match_inv (fuel : nat) (sclk cclk psjw w : Z) :
  0 <= sclk -> 0 < cclk -> sclk / cclk / 4 < 2 ^ 16 ->
  can_speed fuel sclk cclk psjw = Done w -> w <> 0 ->
  exists bits brp,
    1 <= bits <= 22 /\
    sclk / cclk / 24 < brp <= sclk / cclk / 4 /\
    (bits + 3) * (brp + 1) = sclk / cclk /\
    w = pack_btr bits psjw brp 0.
Proof.
  intros Hs Hc Hw H Hne. unfold can_speed in H.
  destruct (cclk =? 0); [discriminate H|].
  set (bw := sclk / cclk) in *.
  assert (Hbw : 0 <= bw) by (apply Z.div_pos; lia).
  pose proof (div24_le_div4 bw Hbw) as H24.
  change 0x18 with 24 in H.
  assert (Hu : u16 (bw / 24) = bw / 24) by (unfold u16; apply Z.mod_small; lia).
  rewrite Hu in H.
  destruct (speed_search fuel bw (bw / 24) 0) as [[[hit brp] bits]| |] eqn:E;
    cbn [bind] in H; try discriminate H.
  destruct hit; [|inversion H; congruence].
  pose proof (speed_search_hit_range fuel bw (bw / 24) 0 brp bits
                (proj1 H24) Hw E) as Hrange.
  destruct (speed_search_hit _ _ _ _ _ _ E) as [Hscan Hb].
  destruct (scan_bits_hit _ _ _ _ Hscan) as [Hr Hm].
  rewrite calcbit_small in Hm by lia.
  exists bits, brp. inversion H.
  split; [lia|]. split; [exact Hrange|]. split; [exact Hm | reflexivity].
Qed.

(** X3.  While the prescaler cannot wrap, a non-zero word decodes back to
    the match that produced it: TSEG1 + TSEG2 is the matched quanta count,
    SJW is [psjw mod 4], and the prescaler field is the matched prescaler
    modulo 64.  The bit time the word encodes,
    (TSEG1 + TSEG2 + 3) * (BRP + 1), equals [sclk / cclk] exactly when the
    matched prescaler is below 64. *)
Theorem can_speed_word_decodes (fuel : nat) (sclk cclk psjw w : Z) :
  0 <= sclk -> 0 < cclk -> sclk / cclk / 4 < 2 ^ 16 ->
  can_speed fuel sclk cclk psjw = Done w -> w <> 0 ->
  exists bits brp,
    1 <= bits <= 22 /\
    sclk / cclk / 24 < brp <= sclk / cclk / 4 /\
    (bits + 3) * (brp + 1) = sclk / cclk /\
    btr_TSEG1 w + btr_TSEG2 w = bits /\
    btr_SJW w = psjw mod 4 /\
    btr_BRP w = brp mod 64 /\
    ((btr_TSEG1 w + btr_TSEG2 w + 3) * (btr_BRP w + 1) = sclk / cclk
     <-> brp < 64).
Proof.
  intros Hs Hc Hw H Hne.
  destruct (can_speed_match_inv fuel sclk cclk psjw w Hs Hc Hw H Hne)
    as [bits [brp [Hr [Hrange [Hm ->]]]]].
  assert (Hbw : 0 <= sclk / cclk) by (apply Z.div_pos; lia).
  pose proof (div24_le_div4 _ Hbw) as H24.
  destruct (pack_btr_fields bits psjw brp Hr) as [-> ->].
  destruct (pack_btr_low_fields bits psjw brp Hr) as [-> ->].
  destruct (timing_row bits Hr) as [_ [_ [_ [_ Hsum]]]].
  exists bits, brp. rewrite Hsum.
  split; [exact Hr|]. split; [exact Hrange|]. split; [exact Hm|].
  split; [reflexivity|]. split; [reflexivity|]. split; [reflexivity|].
  pose proof (Z.mod_pos_bound brp 64 ltac:(lia)) as Hd.
  split.
  - intros E. rewrite <- Hm in E.
    assert (brp mod 64 = brp) by nia.
    lia.
  - intros Hlt. rewrite Z.mod_small by lia. exact Hm.
Qed.

Lemma can_speed_word_decodes_witness :
  0 <= 48000000 /\ 0 < 500000 /\ 48000000 / 500000 / 4 < 2 ^ 16 /\
  can_speed 1 48000000 500000 1 = Done 14917 /\ 14917 <> 0 /\
  exists bits brp,
    1 <= bits <= 22 /\
    48000000 / 500000 / 24 < brp <= 48000000 / 500000 / 4 /\
    (bits + 3) * (brp + 1) = 48000000 / 500000 /\
    btr_TSEG1 14917 + btr_TSEG2 14917 = bits /\
    btr_SJW 14917 = 1 mod 4 /\
    btr_BRP 14917 = brp mod 64 /\
    ((btr_TSEG1 14917 + btr_TSEG2 14917 + 3) * (btr_BRP 14917 + 1)
     = 48000000 / 500000 <-> brp < 64).
Proof.
  assert (H1 : 0 <= 48000000) by lia.
  assert (H2 : 0 < 500000) by lia.
  assert (H3 : 48000000 / 500000 / 4 < 2 ^ 16) by (vm_compute; reflexivity).
  assert (H4 : can_speed 1 48000000 500000 1 = Done 14917) by reflexivity.
  assert (H5 : 14917 <> 0) by discriminate.
  split; [exact H1|]. split; [exact H2|]. split; [exact H3|].
  split; [exact H4|]. split; [exact H5|].
  exact (can_speed_word_decodes 1 48000000 500000 1 14917 H1 H2 H3 H4 H5).
Defined.

(** X4.  When the solver returns a non-zero word, [can_frequency] returns
    1 with that word in CANBT, 0 in CANCLKDIV and CANBRPE, and the CCE and
    INIT bits of CANCNTL clear whatever they were before; the other bits
    of CANCNTL and all other registers keep their values. *)
Theorem can_frequency_programs (fuel : nat) (clock f w : Z) (s : can_state) :
  can_speed fuel clock (u32 f) 1 = Done w -> w <> 0 ->
  exists s',
    can_frequency fuel clock s f = Done (1, s') /\
    rd s' CANBT = w /\ rd s' CANCLKDIV = 0 /\ rd s' CANBRPE = 0 /\
    Z.testbit (rd s' CANCNTL) 0 = false /\
    Z.testbit (rd s' CANCNTL) 6 = false /\
    (forall i, 0 <= i -> i <> 0 -> i <> 6 ->
               Z.testbit (rd s' CANCNTL) i = Z.testbit (rd s CANCNTL) i) /\
    (forall r, r <> CANBT -> r <> CANCLKDIV -> r <> CANBRPE -> r <> CANCNTL ->
               rd s' r = rd s r).
Proof.
  intros H Hne.
  destruct (can_speed_nonzero_inv fuel clock (u32 f) 1 w H Hne)
    as [bits [brp [Hr [_ [_ Hw]]]]].
  pose proof (pack_btr_range bits 1 brp Hr) as Hrange. rewrite <- Hw in Hrange.
  assert (H32 : int32 w = w).
  { unfold int32. rewrite Z.mod_small by lia. lia. }
  assert (Hlow : Z.land w 0xFFFF = w).
  { change 0xFFFF with (Z.ones 16). rewrite land_mod by lia.
    apply Z.mod_small. lia. }
  assert (Hdiv : Z.land (Z.shiftr w 16) 0x0F = 0).
  { rewrite Z.shiftr_div_pow2 by lia. rewrite Z.div_small by lia.
    reflexivity. }
  unfold can_frequency. rewrite H. cbn [bind]. rewrite H32, Hlow, Hdiv.
  destruct (Z.ltb_spec 0 w) as [_|Hle]; [|lia].
  eexists. split; [reflexivity|].
  split; [|split; [|split; [|split; [|split; [|split]]]]].
  - rewrite rd_wr_other by discriminate. rewrite rd_wr_other by discriminate.
    rewrite rd_wr_same. apply u32_small. lia.
  - do 3 (rewrite rd_wr_other by discriminate). rewrite rd_wr_same.
    reflexivity.
  - rewrite rd_wr_other by discriminate. rewrite rd_wr_same. reflexivity.
  - rewrite rd_wr_same, u32_testbit by lia.
    rewrite Z.land_spec, Z.lnot_spec by lia.
    replace (Z.testbit (Z.lor (Z.shiftl 1 6) (Z.shiftl 1 0)) 0) with true
      by reflexivity.
    apply andb_false_r.
  - rewrite rd_wr_same, u32_testbit by lia.
    rewrite Z.land_spec, Z.lnot_spec by lia.
    replace (Z.testbit (Z.lor (Z.shiftl 1 6) (Z.shiftl 1 0)) 6) with true
      by reflexivity.
    apply andb_false_r.
  - intros i Hi H0 H6. rewrite rd_wr_same.
    do 3 (rewrite rd_wr_other by discriminate). rewrite rd_wr_same.
    destruct (Z.ltb_spec i 32) as [Hlt|Hge].
    + rewrite u32_testbit by lia.
      rewrite Z.land_spec, Z.lnot_spec by lia.
      rewrite u32_testbit by lia.
      rewrite !Z.lor_spec, !testbit_one_shifted by lia.
      destruct (Z.eqb_spec 6 i); [lia|]. destruct (Z.eqb_spec 0 i); [lia|].
      cbn [orb negb]. rewrite orb_false_r, andb_true_r. reflexivity.
    + unfold rd, u32. rewrite !Z.mod_pow2_bits_high by lia. reflexivity.
  - intros r H1 H2 H3 H4. repeat rewrite rd_wr_other by congruence.
    reflexivity.
Qed.

Lemma can_frequency_programs_witness :
  can_speed 1 48000000 (u32 500000) 1 = Done 14917 /\ 14917 <> 0 /\
  exists s',
    can_frequency 1 48000000 reset_state 500000 = Done (1, s') /\
    rd s' CANBT = 14917 /\ rd s' CANCLKDIV = 0 /\ rd s' CANBRPE = 0 /\
    Z.testbit (rd s' CANCNTL) 0 = false /\
    Z.testbit (rd s' CANCNTL) 6 = false /\
    (forall i, 0 <= i -> i <> 0 -> i <> 6 ->
               Z.testbit (rd s' CANCNTL) i
               = Z.testbit (rd reset_state CANCNTL) i) /\
    (forall r, r <> CANBT -> r <> CANCLKDIV -> r <> CANBRPE -> r <> CANCNTL ->
               rd s' r = rd reset_state r).
Proof.
  assert (H1 : can_speed 1 48000000 (u32 500000) 1 = Done 14917) by reflexivity.
  assert (H2 : 14917 <> 0) by discriminate.
  split; [exact H1|]. split; [exact H2|].
  exact (can_frequency_programs 1 48000000 500000 14917 reset_state H1 H2).
Defined.

(** ** Interrupt enable mask *)

Lemma rd_testbit_high (s : can_state) (r : creg) (i : Z) :
  32 <= i -> Z.testbit (rd s r) i = false.
Proof. intros H. unfold rd, u32. apply Z.mod_pow2_bits_high. lia. Qed.

Lemma can_enable_fields (s : can_state) :
  enabled_irqs (can_enable s) = enabled_irqs s /\
  can_irq_id (can_enable s) = can_irq_id s /\
  calls (can_enable s) = calls s /\
  nvic_enabled (can_enable s) = nvic_enabled s.
Proof.
  unfold can_enable. destruct (anyset (rd s CANCNTL) 1); repeat split.
Qed.

Lemma can_enable_running (s : can_state) :
  Z.testbit (rd (can_enable s) CANCNTL) 0 = false.
Proof.
  unfold can_enable. destruct (anyset (rd s CANCNTL) 1) eqn:E.
  - rewrite rd_wr_same, u32_testbit by lia.
    rewrite Z.land_spec, Z.lnot_spec by lia. apply andb_false_r.
  - change 1 with (Z.shiftl 1 0) in E. rewrite anyset_bit in E by lia. exact E.
Qed.

Lemma can_enable_other_bits (s : can_state) (i : Z) :
  1 <= i -> Z.testbit (rd (can_enable s) CANCNTL) i = Z.testbit (rd s CANCNTL) i.
Proof.
  intros Hi. destruct (Z.ltb_spec i 32).
  - apply testbit_cntl_can_enable. lia.
  - rewrite !rd_testbit_high by lia. reflexivity.
Qed.

(** Setting or clearing bit [k] of a register. *)
Lemma testbit_set_bit (s : can_state) (r : creg) (k i : Z) :
  0 <= k < 32 -> 0 <= i ->
  Z.testbit (rd (wr r (Z.lor (rd s r) (Z.shiftl 1 k)) s) r) i
  = Z.testbit (rd s r) i || (i =? k).
Proof.
  intros Hk Hi. rewrite rd_wr_same. destruct (Z.ltb_spec i 32).
  - rewrite u32_testbit, Z.lor_spec, testbit_one_shifted by lia.
    rewrite (Z.eqb_sym k i). reflexivity.
  - rewrite rd_testbit_high by lia. unfold u32.
    rewrite Z.mod_pow2_bits_high by lia.
    destruct (Z.eqb_spec i k); [lia|reflexivity].
Qed.

Lemma testbit_clear_bit (s : can_state) (r : creg) (k i : Z) :
  0 <= k -> 0 <= i ->
  Z.testbit (rd (wr r (Z.land (rd s r) (Z.lnot (Z.shiftl 1 k))) s) r) i
  = Z.testbit (rd s r) i && negb (i =? k).
Proof.
  intros Hk Hi. rewrite rd_wr_same. destruct (Z.ltb_spec i 32).
  - rewrite u32_testbit, Z.land_spec, Z.lnot_spec, testbit_one_shifted by lia.
    rewrite (Z.eqb_sym k i). reflexivity.
  - rewrite rd_testbit_high by lia. unfold u32.
    rewrite Z.mod_pow2_bits_high by lia. reflexivity.
Qed.

Lemma irq_set_tail_frame (s1 : can_state) :
  let s' :=
    (let s := can_disable s1 in
      let s :=
        if negb (anyset (enabled_irqs s) IRQ_ENABLE_ANY) then
          wr CANCNTL
             (Z.land (rd s CANCNTL)
                (Z.lnot (Z.lor (Z.lor (Z.shiftl 1 1) (Z.shiftl 1 2))
                               (Z.shiftl 1 3)))) s
        else
          let s := wr CANCNTL (Z.lor (rd s CANCNTL) (Z.shiftl 1 1)) s in
          let s :=
            if anyset (enabled_irqs s) IRQ_ENABLE_STATUS
            then wr CANCNTL (Z.lor (rd s CANCNTL) (Z.shiftl 1 2)) s
            else wr CANCNTL (Z.land (rd s CANCNTL) (Z.lnot (Z.shiftl 1 2))) s in
          if anyset (enabled_irqs s) IRQ_ENABLE_ERROR
          then wr CANCNTL (Z.lor (rd s CANCNTL) (Z.shiftl 1 3)) s
          else wr CANCNTL (Z.land (rd s CANCNTL) (Z.lnot (Z.shiftl 1 3))) s in
      let s := can_enable s in
      with_nvic true s) in
  enabled_irqs s' = enabled_irqs s1 /\
  nvic_enabled s' = true /\
  can_irq_id s' = can_irq_id s1 /\
  calls s' = calls s1 /\
  Z.testbit (rd s' CANCNTL) 0 = false /\
  (forall i, 4 <= i -> Z.testbit (rd s' CANCNTL) i = Z.testbit (rd s1 CANCNTL) i) /\
  (forall r, r <> CANCNTL -> rd s' r = rd s1 r).
Proof.
  cbv zeta.
  change (rd (with_nvic true ?x)) with (rd x).
  cbn [enabled_irqs nvic_enabled can_irq_id calls with_nvic].
  match goal with
  | |- context [can_enable ?x] =>
      destruct (can_enable_fields x) as [E1 [E2 [E3 _]]]; rewrite E1, E2, E3;
      clear E1 E2 E3
  end.
  split; [|split; [reflexivity|split; [|split; [|split; [|split]]]]].
  - unfold can_disable.
    repeat match goal with
           | |- context [if ?c then _ else _] => destruct c
           end; reflexivity.
  - unfold can_disable.
    repeat match goal with
           | |- context [if ?c then _ else _] => destruct c
           end; reflexivity.
  - unfold can_disable.
    repeat match goal with
           | |- context [if ?c then _ else _] => destruct c
           end; reflexivity.
  - apply can_enable_running.
  - intros i Hi. rewrite can_enable_other_bits by lia.
    destruct (Z.ltb_spec i 32) as [Hlt|Hge];
      [|rewrite !rd_testbit_high by lia; reflexivity].
    assert (Hd : Z.testbit (rd (can_disable s1) CANCNTL) i
                 = Z.testbit (rd s1 CANCNTL) i).
    { unfold can_disable. change 1 with (Z.shiftl 1 0).
      rewrite testbit_set_bit by lia.
      destruct (Z.eqb_spec i 0); [lia|]. apply orb_false_r. }
    rewrite <- Hd. generalize (can_disable s1). intros s2.
    repeat match goal with
           | |- context [if ?c then _ else _] => destruct c
           end;
      repeat first [ rewrite testbit_set_bit by lia
                   | rewrite testbit_clear_bit by lia ];
      cntl_bits;
      repeat match goal with
             | |- context [?a =? ?b] => destruct (Z.eqb_spec a b); [lia|]
             end;
      cbn [orb negb andb]; rewrite ?orb_false_r, ?andb_true_r;
      reflexivity.
  - intros r Hr. rewrite rd_can_enable_other by exact Hr. unfold can_disable.
    repeat match goal with
           | |- context [if ?c then _ else _] => destruct c
           end;
      repeat (rewrite rd_wr_other by congruence); reflexivity.
Qed.

Lemma can_irq_set_frame (s : can_state) (t : CanIrqType) (enable b : Z) :
  irq_bit t = Some b ->
  enabled_irqs (can_irq_set s t enable)
  = (if negb (enable =? 0) then Z.lor (enabled_irqs s) (Z.shiftl 1 b)
     else Z.land (enabled_irqs s) (u32 (Z.lnot (Z.shiftl 1 b)))) /\
  nvic_enabled (can_irq_set s t enable) = true /\
  can_irq_id (can_irq_set s t enable) = can_irq_id s /\
  calls (can_irq_set s t enable) = calls s /\
  Z.testbit (rd (can_irq_set s t enable) CANCNTL) 0 = false /\
  (forall i, 4 <= i ->
     Z.testbit (rd (can_irq_set s t enable) CANCNTL) i
     = Z.testbit (rd s CANCNTL) i) /\
  (forall r, r <> CANCNTL -> rd (can_irq_set s t enable) r = rd s r).
Proof.
  intros Hb.
  pose (upd := fun m : Z =>
    if negb (enable =? 0)
    then with_enabled_irqs (Z.lor (enabled_irqs s) m) s
    else with_enabled_irqs (Z.land (enabled_irqs s) (u32 (Z.lnot m))) s).
  assert (Hupd : forall m,
             enabled_irqs (upd m)
             = (if negb (enable =? 0) then Z.lor (enabled_irqs s) m
                else Z.land (enabled_irqs s) (u32 (Z.lnot m))) /\
             can_irq_id (upd m) = can_irq_id s /\ calls (upd m) = calls s /\
             forall r, rd (upd m) r = rd s r).
  { intros m. unfold upd. destruct (negb (enable =? 0)); repeat split. }
  destruct t; cbn [irq_bit] in Hb; try discriminate Hb;
    injection Hb as <-;
    match goal with
    | |- context [can_irq_set s ?t enable] =>
        match eval cbv [irq_bit] in (irq_bit t) with
        | Some ?k =>
            pose proof (irq_set_tail_frame (upd (Z.shiftl 1 k))) as T;
            destruct (Hupd (Z.shiftl 1 k)) as [U1 [U2 [U3 U4]]]
        end
    end;
    cbv zeta in T; destruct T as [T1 [T2 [T3 [T4 [T5 [T6 T7]]]]]];
    rewrite U1 in T1; rewrite U2 in T3; rewrite U3 in T4;
    (split; [exact T1|]); (split; [exact T2|]); (split; [exact T3|]);
    (split; [exact T4|]); (split; [exact T5|]);
    (split; [intros i Hi; rewrite <- (U4 CANCNTL); exact (T6 i Hi)
            |intros r Hr; rewrite <- (U4 r); exact (T7 r Hr)]).
Qed.

Lemma can_irq_set_mask_bit (s : can_state) (t : CanIrqType) (enable b i : Z) :
  irq_bit t = Some b -> 0 <= i < 32 ->
  Z.testbit (enabled_irqs (can_irq_set s t enable)) i
  = if i =? b then negb (enable =? 0) else Z.testbit (enabled_irqs s) i.
Proof.
  intros Hb Hi.
  assert (Hr : 0 <= b < 32).
  { destruct t; cbn [irq_bit] in Hb; try discriminate Hb;
      injection Hb as <-; lia. }
  destruct (can_irq_set_frame s t enable b Hb) as [E _].
  rewrite E. destruct (negb (enable =? 0)).
  - rewrite Z.lor_spec, testbit_one_shifted by lia. rewrite (Z.eqb_sym b i).
    destruct (i =? b); [apply orb_true_r|apply orb_false_r].
  - rewrite Z.land_spec, u32_testbit, Z.lnot_spec, testbit_one_shifted by lia.
    rewrite (Z.eqb_sym b i).
    destruct (i =? b); [apply andb_false_r|apply andb_true_r].
Qed.

(** X5.  [can_irq_set] for one of the five kinds it names records the
    request in [enabled_irqs]: the bit of that kind becomes 1 when [enable]
    is non-zero and 0 when it is zero, and the bits of the other kinds keep
    their values.  The registered callback id and the callbacks made so far
    are untouched. *)
Theorem can_irq_set_updates_mask (s : can_state) (t : CanIrqType)
    (enable b : Z) :
  irq_bit t = Some b ->
  (forall i, 0 <= i < 32 ->
     Z.testbit (enabled_irqs (can_irq_set s t enable)) i
     = if i =? b then negb (enable =? 0) else Z.testbit (enabled_irqs s) i) /\
  can_irq_id (can_irq_set s t enable) = can_irq_id s /\
  calls (can_irq_set s t enable) = calls s.
Proof.
  intros Hb.
  destruct (can_irq_set_frame s t enable b Hb) as [_ [_ [Ei [Ec _]]]].
  split; [|split; [exact Ei|exact Ec]].
  intros i Hi. apply can_irq_set_mask_bit; assumption.
Qed.

Lemma can_irq_set_updates_mask_witness :
  irq_bit IRQ_BUS = Some 4 /\
  (forall i, 0 <= i < 32 ->
     Z.testbit (enabled_irqs (can_irq_set (irq_state 0x18) IRQ_BUS 0)) i
     = if i =? 4 then negb (0 =? 0)
       else Z.testbit (enabled_irqs (irq_state 0x18)) i) /\
  can_irq_id (can_irq_set (irq_state 0x18) IRQ_BUS 0)
  = can_irq_id (irq_state 0x18) /\
  calls (can_irq_set (irq_state 0x18) IRQ_BUS 0) = calls (irq_state 0x18).
Proof.
  assert (H : irq_bit IRQ_BUS = Some 4) by reflexivity.
  split; [exact H|].
  exact (can_irq_set_updates_mask (irq_state 0x18) IRQ_BUS 0 4 H).
Defined.

(** X6.  Whatever the state before, [can_irq_set] for a kind it names
    returns with the INIT bit of CANCNTL clear (the controller is taken out
    of initialisation mode, also when it was in it before the call) and
    with the CAN interrupt enabled in the NVIC, also when the call disabled
    the last kind.  It changes no bit of CANCNTL above EIE and no other
    register. *)
Theorem can_irq_set_leaves_running (s : can_state) (t : CanIrqType)
    (enable : Z) :
  irq_bit t <> None ->
  Z.testbit (rd (can_irq_set s t enable) CANCNTL) 0 = false /\
  nvic_enabled (can_irq_set s t enable) = true /\
  (forall i, 4 <= i ->
     Z.testbit (rd (can_irq_set s t enable) CANCNTL) i
     = Z.testbit (rd s CANCNTL) i) /\
  (forall r, r <> CANCNTL -> rd (can_irq_set s t enable) r = rd s r).
Proof.
  intros Hb. destruct (irq_bit t) as [b|] eqn:E; [|congruence].
  destruct (can_irq_set_frame s t enable b E) as [_ [N [_ [_ [I [B R]]]]]].
  repeat split; assumption.
Qed.

Lemma can_irq_set_leaves_running_witness :
  irq_bit IRQ_TX <> None /\
  Z.testbit (rd reset_state CANCNTL) 0 = true /\
  Z.testbit (rd (can_irq_set reset_state IRQ_TX 0) CANCNTL) 0 = false /\
  nvic_enabled (can_irq_set reset_state IRQ_TX 0) = true /\
  (forall i, 4 <= i ->
     Z.testbit (rd (can_irq_set reset_state IRQ_TX 0) CANCNTL) i
     = Z.testbit (rd reset_state CANCNTL) i) /\
  (forall r, r <> CANCNTL ->
     rd (can_irq_set reset_state IRQ_TX 0) r = rd reset_state r).
Proof.
  assert (H : irq_bit IRQ_TX <> None) by discriminate.
  split; [exact H|]. split; [reflexivity|].
  exact (can_irq_set_leaves_running reset_state IRQ_TX 0 H).
Defined.

(** ** Dispatch after configuration, and repeated dispatch *)

(** One dispatch of a status interrupt: callbacks made, CANSTAT bits left,
    everything else. *)
Lemma can_irq_effect (s : can_state) :
  Z.land (rd s CANINT) 0xFFFF = 0x8000 ->
  fired (can_irq s)
  = fired s
    ++ (if Z.testbit (rd s CANSTAT) 7 && Z.testbit (enabled_irqs s) 4
        then [(can_irq_id s, IRQ_BUS)] else [])
    ++ (if Z.testbit (rd s CANSTAT) 5 && Z.testbit (enabled_irqs s) 3
        then [(can_irq_id s, IRQ_PASSIVE)] else [])
    ++ (if Z.testbit (rd s CANSTAT) 6 && Z.testbit (enabled_irqs s) 2
        then [(can_irq_id s, IRQ_ERROR)] else [])
    ++ (if Z.testbit (rd s CANSTAT) 4 then [(can_irq_id s, IRQ_RX)] else [])
    ++ (if Z.testbit (rd s CANSTAT) 3 then [(can_irq_id s, IRQ_TX)] else []) /\
  (forall i, 0 <= i ->
     Z.testbit (rd (can_irq s) CANSTAT) i
     = Z.testbit (rd s CANSTAT) i && negb (i =? 4) && negb (i =? 3)) /\
  (forall r, r <> CANSTAT -> rd (can_irq s) r = rd s r) /\
  enabled_irqs (can_irq s) = enabled_irqs s /\
  can_irq_id (can_irq s) = can_irq_id s.
Proof.
  intros Hint. unfold can_irq.
  rewrite Hint. change (32768 =? 32768) with true. cbv iota zeta.
  unfold CANSTAT_BOFF, CANSTAT_EPASS, CANSTAT_EWARN, CANSTAT_RXOK, CANSTAT_TXOK,
    IRQ_ENABLE_BE, IRQ_ENABLE_EP, IRQ_ENABLE_EW.
  rewrite !anyset_bit by lia.
  remember (rd s CANSTAT) as status eqn:Hst.
  destruct (Z.testbit status 7) eqn:S7; destruct (Z.testbit status 5) eqn:S5;
    destruct (Z.testbit status 6) eqn:S6; destruct (Z.testbit status 4) eqn:S4;
    destruct (Z.testbit status 3) eqn:S3;
    cbn [enabled_irqs irq_handler wr andb];
    destruct (Z.testbit (enabled_irqs s) 4); cbn [enabled_irqs irq_handler wr];
    destruct (Z.testbit (enabled_irqs s) 3); cbn [enabled_irqs irq_handler wr];
    destruct (Z.testbit (enabled_irqs s) 2); cbn [enabled_irqs irq_handler wr].
  all: repeat progress change (rd (irq_handler ?t ?x) ?r) with (rd x r).
  all: (split; [unfold fired; cbn [calls irq_handler wr can_irq_id rev app];
                rewrite <- ?app_assoc; cbn [app]; rewrite ?app_nil_r; reflexivity|]).
  all: (split;
        [intros i Hi; rewrite ?rd_wr_same; rewrite <- ?Hst;
         unfold rd in Hst; rewrite Hst;
         rewrite ?clear_flag_bits by lia; rewrite <- Hst;
         destruct (Z.eqb_spec i 4) as [E4|E4]; destruct (Z.eqb_spec i 3) as [E3|E3];
         try (exfalso; lia); try subst i; rewrite ?S4, ?S3; cbn [andb negb];
         rewrite ?andb_true_r, ?andb_false_r; reflexivity|]).
  all: (split;
        [intros r Hr;
         repeat first
           [ rewrite rd_wr_other by congruence
           | progress change (rd (irq_handler ?t ?x) ?r) with (rd x r) ];
         reflexivity|]).
  all: split; reflexivity.
Qed.

Lemma in_callback (c : bool) (x y : Z * CanIrqType) :
  In y (if c then [x] else []) <-> c = true /\ x = y.
Proof.
  destruct c; cbn [In]; split; intros H.
  - destruct H as [H|[]]. split; [reflexivity|exact H].
  - left. apply H.
  - contradiction.
  - destruct H as [H _]. discriminate H.
Qed.

Ltac pick_callback :=
  first [ solve [split; [assumption || reflexivity | reflexivity]]
        | left; solve [split; [assumption || reflexivity | reflexivity]]
        | right; pick_callback ].

(** X7.  Enabling decides delivery for the error kinds only.  With a
    status interrupt pending and the condition of kind [t] asserted in
    CANSTAT, the dispatch that follows [can_irq_set s t enable] calls the
    handler for [t] exactly when [enable] is non-zero if [t] is bus-off,
    error-passive or error-warning, and calls it in any case if [t] is
    receive or transmit completion. *)
Theorem can_irq_set_gates_delivery (s : can_state) (t : CanIrqType)
    (enable b k : Z) :
  irq_bit t = Some b -> status_bit t = Some k ->
  Z.land (rd s CANINT) 0xFFFF = 0x8000 ->
  Z.testbit (rd s CANSTAT) k = true ->
  exists l,
    fired (can_irq (can_irq_set s t enable)) = fired s ++ l /\
    (In (can_irq_id s, t) l <-> enable <> 0 \/ t = IRQ_RX \/ t = IRQ_TX).
Proof.
  intros Hb Hk Hint Hst.
  destruct (can_irq_set_frame s t enable b Hb) as [_ [_ [Ei [Ec [_ [_ R]]]]]].
  assert (Hint' : Z.land (rd (can_irq_set s t enable) CANINT) 0xFFFF = 0x8000).
  { rewrite R by discriminate. exact Hint. }
  destruct (can_irq_effect _ Hint') as [F _].
  rewrite R in F by discriminate. rewrite Ei in F.
  unfold fired in F at 2. rewrite Ec in F. fold (fired s) in F.
  eexists. split; [exact F|].
  assert (En : negb (enable =? 0) = true <-> enable <> 0).
  { destruct (Z.eqb_spec enable 0); cbn; intuition congruence. }
  destruct t; cbn [irq_bit] in Hb; cbn [status_bit] in Hk;
    try discriminate Hb; injection Hb as <-; injection Hk as <-;
    rewrite !in_app_iff, !in_callback;
    rewrite Hst;
    match goal with
    | |- context [Z.testbit (enabled_irqs (can_irq_set s ?t enable)) ?j] =>
        match eval cbv [irq_bit] in (irq_bit t) with
        | Some j =>
            rewrite (can_irq_set_mask_bit s t enable j j eq_refl) by lia
        end
    | _ => idtac
    end;
    rewrite ?Z.eqb_refl; cbn [andb];
    (split;
     [intros H;
      repeat (destruct H as [[H E]|H]; [try discriminate E|]);
      try (destruct H as [H E]; try discriminate E);
      first [ left; apply En; exact H
            | right; left; reflexivity
            | right; right; reflexivity ]
     |intros [H|[H|H]]; try discriminate H;
      try (apply En in H); pick_callback]).
Qed.

Lemma can_irq_set_gates_delivery_witness :
  irq_bit IRQ_BUS = Some 4 /\ status_bit IRQ_BUS = Some 7 /\
  Z.land (rd (irq_state 0) CANINT) 0xFFFF = 0x8000 /\
  Z.testbit (rd (irq_state 0) CANSTAT) 7 = true /\
  exists l,
    fired (can_irq (can_irq_set (irq_state 0) IRQ_BUS 1))
    = fired (irq_state 0) ++ l /\
    (In (can_irq_id (irq_state 0), IRQ_BUS) l
     <-> 1 <> 0 \/ IRQ_BUS = IRQ_RX \/ IRQ_BUS = IRQ_TX).
Proof.
  assert (H1 : irq_bit IRQ_BUS = Some 4) by reflexivity.
  assert (H2 : status_bit IRQ_BUS = Some 7) by reflexivity.
  assert (H3 : Z.land (rd (irq_state 0) CANINT) 0xFFFF = 0x8000)
    by reflexivity.
  assert (H4 : Z.testbit (rd (irq_state 0) CANSTAT) 7 = true) by reflexivity.
  split; [exact H1|]. split; [exact H2|]. split; [exact H3|].
  split; [exact H4|].
  exact (can_irq_set_gates_delivery (irq_state 0) IRQ_BUS 1 4 7 H1 H2 H3 H4).
Defined.

(** X8.  Completion callbacks are made once, error callbacks on every
    dispatch.  If the controller changes nothing between two dispatches of
    a status interrupt, the second one calls the handler again for each
    enabled error condition still asserted and makes no receive or transmit
    callback, the first dispatch having cleared RXOK and TXOK. *)
Theorem can_irq_repeated (s : can_state) :
  Z.land (rd s CANINT) 0xFFFF = 0x8000 ->
  fired (can_irq (can_irq s))
  = fired (can_irq s)
    ++ (if Z.testbit (rd s CANSTAT) 7 && Z.testbit (enabled_irqs s) 4
        then [(can_irq_id s, IRQ_BUS)] else [])
    ++ (if Z.testbit (rd s CANSTAT) 5 && Z.testbit (enabled_irqs s) 3
        then [(can_irq_id s, IRQ_PASSIVE)] else [])
    ++ (if Z.testbit (rd s CANSTAT) 6 && Z.testbit (enabled_irqs s) 2
        then [(can_irq_id s, IRQ_ERROR)] else []).
Proof.
  intros Hint.
  destruct (can_irq_effect s Hint) as [_ [B [R [E I]]]].
  assert (Hint' : Z.land (rd (can_irq s) CANINT) 0xFFFF = 0x8000).
  { rewrite R by discriminate. exact Hint. }
  destruct (can_irq_effect (can_irq s) Hint') as [F _].
  rewrite F, E, I, !B by lia. cbn [Z.eqb negb andb].
  rewrite !andb_true_r, !andb_false_r, !app_nil_r. reflexivity.
Qed.

Lemma can_irq_repeated_witness :
  Z.land (rd (irq_state 0x18) CANINT) 0xFFFF = 0x8000 /\
  fired (can_irq (can_irq (irq_state 0x18)))
  = fired (can_irq (irq_state 0x18))
    ++ (if Z.testbit (rd (irq_state 0x18) CANSTAT) 7
           && Z.testbit (enabled_irqs (irq_state 0x18)) 4
        then [(can_irq_id (irq_state 0x18), IRQ_BUS)] else [])
    ++ (if Z.testbit (rd (irq_state 0x18) CANSTAT) 5
           && Z.testbit (enabled_irqs (irq_state 0x18)) 3
        then [(can_irq_id (irq_state 0x18), IRQ_PASSIVE)] else [])
    ++ (if Z.testbit (rd (irq_state 0x18) CANSTAT) 6
           && Z.testbit (enabled_irqs (irq_state 0x18)) 2
        then [(can_irq_id (irq_state 0x18), IRQ_ERROR)] else []).
Proof.
  assert (H : Z.land (rd (irq_state 0x18) CANINT) 0xFFFF = 0x8000)
    by reflexivity.
  split; [exact H|].
  exact (can_irq_repeated (irq_state 0x18) H).
Defined.



(** ** Transmit and receive *)

Lemma txPending_bit31 (s : can_state) :
  Z.testbit (txPending s) 31 = Z.testbit (rd s CANTXREQ2) 15.
Proof.
  unfold txPending.
  rewrite Z.lor_spec, Z.land_spec, u32_testbit, Z.shiftl_spec by lia.
  change (Z.testbit 255 31) with false. rewrite andb_false_r. reflexivity.
Qed.

Section Transfer.

Variable hw_cmdreq : creg -> regfile -> regfile.
Variable hw_tick : regfile -> regfile.

(** X9.  When the transmit request of message object 32 is pending (bit 15
    of CANTXREQ2), [can_write] returns 0 at once, whatever the message and
    whatever the rest of the transmit-request registers hold: it never
    waits and writes nothing but the INIT bit that [can_enable] clears. *)
Theorem can_write_busy (s : can_state) (msg : CAN_Message) (cc : Z)
    (fuel : nat) :
  Z.testbit (rd s CANTXREQ2) 15 = true ->
  can_write hw_cmdreq hw_tick fuel s msg cc = Done (0, can_enable s) /\
  (forall r, r <> CANCNTL -> rd (can_enable s) r = rd s r) /\
  (forall i, 1 <= i ->
     Z.testbit (rd (can_enable s) CANCNTL) i = Z.testbit (rd s CANCNTL) i).
Proof.
  intros H. split; [|split].
  - apply can_write_pending. rewrite txPending_bit31. exact H.
  - intros r Hr. apply rd_can_enable_other. exact Hr.
  - intros i Hi. apply can_enable_other_bits. exact Hi.
Qed.

(** X10.  [can_read] returns 0 and leaves the caller's message as it was
    when no message object can be read: with handle 0 when none of the
    objects 1 to 31 has new data (new data in object 32 is not looked at),
    and with a handle below 0 or above 32.  It never waits in these
    cases. *)
Theorem can_read_nothing (s : can_state) (msg : CAN_Message) (handle : Z)
    (fuel : nat) :
  (handle = 0 /\ forall i, 0 <= i < 31 -> Z.testbit (newdata s) i = false)
  \/ handle < 0 \/ 32 < handle ->
  can_read hw_cmdreq hw_tick fuel s msg handle = Done (0, msg, can_enable s).
Proof.
  intros [[-> H]|H].
  - apply (can_read_out_of_range hw_cmdreq hw_tick s msg 0 0); [|lia].
    change (0 =? 0) with true. cbv iota. symmetry. apply find_slot_none.
    intros j Hj. rewrite bit_set_spec by lia. apply H.
    unfold RX_MSG_OBJ_COUNT in Hj. lia.
  - apply (can_read_out_of_range hw_cmdreq hw_tick s msg handle handle); [|lia].
    destruct (Z.eqb_spec handle 0); [lia|reflexivity].
Qed.

Lemma can_read_message (fuel : nat) (s s2 : can_state) (m0 msg' : CAN_Message)
    (handle : Z) :
  can_read hw_cmdreq hw_tick fuel s m0 handle = Done (1, msg', s2) ->
  exists sd,
    msg' = if2_message sd /\
    s2 = wr CANSTAT (Z.land (rd sd CANSTAT) (Z.lnot (Z.shiftl 1 4))) sd.
Proof.
  unfold can_read. cbv zeta.
  match goal with
  | |- context [if ?c then _ else Done (0, _, _)] => destruct c
  end; [|intros H; discriminate H].
  destruct (wait_idle hw_tick fuel CANIF2_CMDREQ (can_enable s))
    as [sa| |] eqn:W1; cbn [bind]; try (intros H; discriminate H).
  match goal with
  | |- context [wait_idle hw_tick fuel CANIF2_CMDREQ ?x] =>
      destruct (wait_idle hw_tick fuel CANIF2_CMDREQ x) as [sd| |] eqn:W2
  end; cbn [bind]; try (intros H; discriminate H).
  intros H. exists sd. unfold if2_message.
  destruct (anyset (rd sd CANIF2_ARB2) CANIFn_ARB2_XTD);
    injection H as <- <-; split; reflexivity.
Qed.

Lemma land_ones_range (x n : Z) : 0 <= n -> 0 <= Z.land x (Z.ones n) < 2 ^ n.
Proof.
  intros Hn. rewrite Z.land_ones by exact Hn. apply Z.mod_pos_bound. lia.
Qed.

Lemma byte_range (x : Z) : 0 <= Z.land x 0xFF <= 255.
Proof.
  pose proof (land_ones_range x 8 ltac:(lia)) as H.
  change (Z.ones 8) with 0xFF in H. lia.
Qed.

Lemma dlc_range (x : Z) : 0 <= Z.land x 0xF <= 15.
Proof.
  pose proof (land_ones_range x 4 ltac:(lia)) as H.
  change (Z.ones 4) with 0xF in H. lia.
Qed.

(** X12.  Every message [can_read] delivers with result 1 is within the
    ranges of its decoding: eight data bytes, each in 0..255, whatever the
    length; a length in 0..15, so possibly above 8; an identifier below
    2^29 in extended and below 2^11 in standard format.  On return RXOK is
    clear in CANSTAT. *)
Theorem can_read_message_ranges (fuel : nat) (s s2 : can_state)
    (m0 msg' : CAN_Message) (handle : Z) :
  can_read hw_cmdreq hw_tick fuel s m0 handle = Done (1, msg', s2) ->
  length (data msg') = 8%nat /\
  (forall b, In b (data msg') -> 0 <= b <= 255) /\
  0 <= len msg' <= 15 /\
  0 <= id msg' < 2 ^ (match format msg' with
                      | CANExtended => 29
                      | CANStandard => 11
                      end) /\
  Z.testbit (rd s2 CANSTAT) 4 = false.
Proof.
  intros H. destruct (can_read_message _ _ _ _ _ _ H) as [sd [-> ->]].
  unfold if2_message.
  pose proof (land_ones_range (rd sd CANIF2_ARB2) 13 ltac:(lia)) as R2.
  pose proof (land_ones_range (rd sd CANIF2_ARB1) 16 ltac:(lia)) as R1.
  change (Z.ones 13) with 0x1FFF in R2. change (Z.ones 16) with 0xFFFF in R1.
  destruct (anyset (rd sd CANIF2_ARB2) CANIFn_ARB2_XTD);
    cbn [data len id format length In].
  all: split; [reflexivity|].
  all: split;
    [intros b Hb;
     repeat (destruct Hb as [Hb|Hb];
             [rewrite <- Hb; apply byte_range|]);
     contradiction|].
  all: split; [apply dlc_range|].
  all: split; [|rewrite testbit_clear_bit by lia; apply andb_false_r].
  - rewrite Z.shiftl_mul_pow2 by lia.
    rewrite lor_add_low by lia. lia.
  - rewrite Z.shiftr_div_pow2 by lia.
    split; [apply Z.div_pos; lia|].
    apply Z.div_lt_upper_bound; lia.
Qed.

End Transfer.

Lemma can_write_busy_witness :
  Z.testbit
    (rd (mkCan (set_reg CANTXREQ2 0x8000 reset_regs) [] 0 0 [] false)
        CANTXREQ2) 15 = true /\
  can_write sim_cmdreq sim_tick 0
    (mkCan (set_reg CANTXREQ2 0x8000 reset_regs) [] 0 0 [] false) sample_msg 0
  = Done (0, can_enable
               (mkCan (set_reg CANTXREQ2 0x8000 reset_regs) [] 0 0 [] false)) /\
  (forall r, r <> CANCNTL ->
     rd (can_enable (mkCan (set_reg CANTXREQ2 0x8000 reset_regs) [] 0 0 [] false))
        r
     = rd (mkCan (set_reg CANTXREQ2 0x8000 reset_regs) [] 0 0 [] false) r) /\
  (forall i, 1 <= i ->
     Z.testbit
       (rd (can_enable
              (mkCan (set_reg CANTXREQ2 0x8000 reset_regs) [] 0 0 [] false))
           CANCNTL) i
     = Z.testbit
         (rd (mkCan (set_reg CANTXREQ2 0x8000 reset_regs) [] 0 0 [] false)
             CANCNTL) i).
Proof.
  assert (H : Z.testbit
                (rd (mkCan (set_reg CANTXREQ2 0x8000 reset_regs) [] 0 0 [] false)
                    CANTXREQ2) 15 = true) by reflexivity.
  split; [exact H|].
  exact (can_write_busy sim_cmdreq sim_tick _ sample_msg 0 0%nat H).
Defined.

Lemma can_read_nothing_witness :
  ((0 = 0 /\ forall i, 0 <= i < 31 -> Z.testbit (newdata reset_state) i = false)
   \/ 0 < 0 \/ 32 < 0) /\
  can_read sim_cmdreq sim_tick 0 reset_state sample_msg 0
  = Done (0, sample_msg, can_enable reset_state).
Proof.
  assert (H : (0 = 0 /\ forall i, 0 <= i < 31 ->
                                  Z.testbit (newdata reset_state) i = false)
              \/ 0 < 0 \/ 32 < 0).
  { left. split; [reflexivity|]. intros i _. apply Z.bits_0. }
  split; [exact H|].
  exact (can_read_nothing sim_cmdreq sim_tick reset_state sample_msg 0 0%nat H).
Defined.

Lemma can_read_message_ranges_witness :
  exists msg' s2,
    can_read sim_cmdreq sim_tick 2
      (mkCan (set_reg CANIF2_MCTRL 0xF reset_regs) [] 0 0 [] false) sample_msg 5
    = Done (1, msg', s2) /\
    len msg' = 15 /\
    length (data msg') = 8%nat /\
    (forall b, In b (data msg') -> 0 <= b <= 255) /\
    0 <= len msg' <= 15 /\
    0 <= id msg' < 2 ^ (match format msg' with
                        | CANExtended => 29
                        | CANStandard => 11
                        end) /\
    Z.testbit (rd s2 CANSTAT) 4 = false.
Proof.
  assert (H : exists msg' s2,
             can_read sim_cmdreq sim_tick 2
               (mkCan (set_reg CANIF2_MCTRL 0xF reset_regs) [] 0 0 [] false)
               sample_msg 5
             = Done (1, msg', s2) /\ len msg' = 15).
  { eexists. eexists. split; [lazy; reflexivity|reflexivity]. }
  destruct H as [msg' [s2 [H L]]]. exists msg', s2.
  split; [exact H|]. split; [exact L|].
  exact (can_read_message_ranges sim_cmdreq sim_tick _ _ _ _ _ _ H).
Defined.

(** ** Encoding and decoding of frames *)

Ltac bits :=
  repeat first
    [ rewrite Z.lor_spec
    | rewrite Z.land_spec
    | rewrite Z.shiftl_spec by lia
    | rewrite Z.shiftr_spec by lia
    | rewrite Z.testbit_ones_nonneg by lia
    | rewrite Z.testbit_mod_pow2 by lia
    | rewrite testbit_one_shifted by lia
    | rewrite u32_testbit by lia
    | rewrite Z.testbit_neg_r by lia
    | rewrite Z.bits_0 ].

Ltac cmps :=
  repeat match goal with
         | |- context [?a <? ?b] => destruct (Z.ltb_spec a b); try lia
         | |- context [?a =? ?b] => destruct (Z.eqb_spec a b); try lia
         end;
  cbn [andb orb negb];
  rewrite ?andb_true_r, ?andb_false_r, ?orb_false_r, ?orb_true_r;
  try reflexivity.

Lemma u32_testbit_high (z i : Z) : 32 <= i -> Z.testbit (u32 z) i = false.
Proof. intros H. unfold u32. apply Z.mod_pow2_bits_high. lia. Qed.

Lemma ext_id_decodes (idv dir : Z) :
  dir = CANIFn_ARB2_DIR \/ dir = 0 ->
  let a2 := u32 (Z.lor (Z.lor (Z.lor CANIFn_ARB2_MSGVAL CANIFn_ARB2_XTD) dir)
                       (Z.land (Z.shiftr idv 16) 0x1FFFF)) in
  let a1 := u32 (Z.land idv 0xFFFF) in
  anyset a2 CANIFn_ARB2_XTD = true /\
  Z.lor (Z.shiftl (Z.land a2 0x1FFF) 16) (Z.land a1 0xFFFF) = idv mod 2 ^ 29.
Proof.
  intros Hd a2 a1. subst a2 a1.
  unfold CANIFn_ARB2_MSGVAL, CANIFn_ARB2_XTD.
  split.
  - rewrite anyset_bit by lia. bits. cmps.
  - apply Z.bits_inj'. intros n Hn.
    change 0x1FFF with (Z.ones 13). change 0xFFFF with (Z.ones 16).
    change 0x1FFFF with (Z.ones 17).
    rewrite Z.lor_spec, Z.shiftl_spec, !Z.land_spec by lia.
    rewrite Z.testbit_mod_pow2 by lia.
    destruct (Z.ltb_spec n 16).
    + rewrite (Z.testbit_neg_r _ (n - 16)) by lia.
      rewrite u32_testbit by lia. bits. cmps.
    + rewrite !Z.testbit_ones_nonneg by lia.
      destruct (Z.ltb_spec (n - 16) 13).
      * rewrite !u32_testbit by lia.
        destruct Hd as [-> | ->]; unfold CANIFn_ARB2_DIR; bits; cmps.
        all: replace (n - 16 + 16) with n by lia; cmps.
      * rewrite andb_false_r. cbn [orb].
        destruct (Z.ltb_spec n 32).
        -- rewrite u32_testbit by lia. bits. cmps.
        -- rewrite u32_testbit_high by lia. cmps.
Qed.

Lemma std_id_decodes (idv dir : Z) :
  dir = CANIFn_ARB2_DIR \/ dir = 0 ->
  let a2 := u32 (Z.lor (Z.lor CANIFn_ARB2_MSGVAL dir)
                       (Z.land (u32 (Z.shiftl idv 2)) 0x1FFF)) in
  anyset a2 CANIFn_ARB2_XTD = false /\
  Z.shiftr (Z.land a2 0x1FFF) 2 = idv mod 2 ^ 11.
Proof.
  intros Hd a2. subst a2.
  unfold CANIFn_ARB2_MSGVAL, CANIFn_ARB2_XTD.
  change 0x1FFF with (Z.ones 13).
  split.
  - rewrite anyset_bit by lia.
    destruct Hd as [-> | ->]; unfold CANIFn_ARB2_DIR; bits; cmps.
  - apply Z.bits_inj'. intros n Hn.
    rewrite Z.shiftr_spec, Z.land_spec, Z.testbit_mod_pow2 by lia.
    rewrite Z.testbit_ones_nonneg by lia.
    destruct (Z.ltb_spec (n + 2) 13).
    + rewrite u32_testbit by lia.
      destruct Hd as [-> | ->]; unfold CANIFn_ARB2_DIR; bits; cmps.
      all: replace (n + 2 - 2) with n by lia; cmps.
    + rewrite andb_false_r. cmps.
Qed.

Lemma dlc_decodes (l : Z) :
  Z.land (u32 (Z.lor (Z.lor (Z.lor CANIFn_MCTRL_UMASK CANIFn_MCTRL_TXRQST)
                            CANIFn_MCTRL_EOB)
                     (Z.land l 0xF))) 0xF
  = l mod 16.
Proof.
  unfold CANIFn_MCTRL_UMASK, CANIFn_MCTRL_TXRQST, CANIFn_MCTRL_EOB.
  apply Z.bits_inj'. intros n Hn.
  change 0xF with (Z.ones 4). change 16 with (2 ^ 4).
  rewrite Z.land_spec, Z.testbit_mod_pow2, Z.testbit_ones_nonneg by lia.
  destruct (Z.ltb_spec n 4).
  - rewrite u32_testbit by lia. bits. cmps.
  - rewrite andb_false_r. reflexivity.
Qed.

Lemma data_pair_decodes (hi lo : Z) :
  let w := u32 (Z.lor (Z.shiftl (Z.land hi 0xFF) 8) (Z.land lo 0xFF)) in
  Z.land (Z.shiftr w 0) 0xFF = Z.land lo 0xFF /\
  Z.land (Z.shiftr w 8) 0xFF = Z.land hi 0xFF.
Proof.
  intros w. subst w. change 0xFF with (Z.ones 8).
  split; apply Z.bits_inj'; intros n Hn.
  - rewrite Z.shiftr_0_r, !Z.land_spec, Z.testbit_ones_nonneg by lia.
    destruct (Z.ltb_spec n 8).
    + rewrite u32_testbit by lia. bits. cmps.
    + rewrite !andb_false_r. reflexivity.
  - rewrite !Z.land_spec, Z.shiftr_spec, Z.testbit_ones_nonneg by lia.
    destruct (Z.ltb_spec n 8).
    + rewrite u32_testbit by lia. bits. cmps.
      replace (n + 8 - 8) with n by lia. reflexivity.
    + rewrite !andb_false_r. reflexivity.
Qed.

Section RoundTrip.

Variable hw_cmdreq : creg -> regfile -> regfile.
Variable hw_tick : regfile -> regfile.
Hypothesis transfers : transfer_completes hw_tick.
Hypothesis loopback : presents_if1 hw_cmdreq.
Hypothesis stable : interface_stable hw_cmdreq hw_tick.

Lemma wait_idle_inv (fuel : nat) (r : creg) (s s' : can_state) :
  wait_idle hw_tick fuel r s = Done s' ->
  exists n, s' = with_regs (Nat.iter n hw_tick (regs s)) s.
Proof.
  revert s. induction fuel as [|f IH]; intros s H; [discriminate H|].
  cbn [wait_idle] in H. destruct (anyset (rd s r) CANIFn_CMDREQ_BUSY).
  - destruct (IH _ H) as [n Hn]. exists (S n).
    rewrite Nat.iter_succ_r. exact Hn.
  - injection H as <-. exists 0%nat. symmetry. apply with_regs_same.
Qed.

Lemma iter_stable (n : nat) (f : regfile) (r r' : creg) :
  if_twin r = Some r' ->
  Nat.iter n hw_tick f r = f r /\ Nat.iter n hw_tick f r' = f r'.
Proof.
  intros H. induction n as [|m [IH1 IH2]]; [split; reflexivity|].
  change (Nat.iter (S m) hw_tick f) with (hw_tick (Nat.iter m hw_tick f)).
  destruct (stable (Nat.iter m hw_tick f) r r' H) as [A [B _]].
  rewrite A, B. split; assumption.
Qed.

Lemma rd_after_wait (fuel : nat) (q : creg) (s s' : can_state) (r r' : creg) :
  wait_idle hw_tick fuel q s = Done s' -> if_twin r = Some r' ->
  rd s' r = rd s r /\ rd s' r' = rd s r'.
Proof.
  intros W H. destruct (wait_idle_inv fuel q s s' W) as [n ->].
  destruct (iter_stable n (regs s) r r' H) as [A B].
  unfold rd. cbn [regs with_regs]. rewrite A, B. split; reflexivity.
Qed.

Lemma rd_after_cmdreq1 (v : Z) (s : can_state) (r r' : creg) :
  if_twin r = Some r' ->
  rd (cmdreq hw_cmdreq CANIF1_CMDREQ v s) r = rd s r.
Proof.
  intros H. unfold cmdreq, rd. cbn [regs with_regs].
  destruct (stable (regs (wr CANIF1_CMDREQ v s)) r r' H) as [_ [_ C]].
  rewrite C. fold (rd (wr CANIF1_CMDREQ v s) r).
  fold (rd s r). apply rd_wr_other. destruct r; discriminate.
Qed.

Lemma rd_after_cmdreq2 (v : Z) (s : can_state) (r r' : creg) :
  if_twin r = Some r' ->
  rd (cmdreq hw_cmdreq CANIF2_CMDREQ v s) r' = rd s r.
Proof.
  intros H. unfold cmdreq, rd. cbn [regs with_regs].
  rewrite (loopback _ r r' H). fold (rd (wr CANIF2_CMDREQ v s) r).
  fold (rd s r). apply rd_wr_other. destruct r; discriminate.
Qed.

Lemma can_write_inv (fuel : nat) (s s1 : can_state) (msg : CAN_Message)
    (cc : Z) :
  can_write hw_cmdreq hw_tick fuel s msg cc = Done (1, s1) ->
  let direction :=
    match type msg with CANData => CANIFn_ARB2_DIR | CANRemote => 0 end in
  match format msg with
  | CANExtended =>
      rd s1 CANIF1_ARB1 = u32 (Z.land (id msg) 0xFFFF) /\
      rd s1 CANIF1_ARB2
      = u32 (Z.lor (Z.lor (Z.lor CANIFn_ARB2_MSGVAL CANIFn_ARB2_XTD) direction)
                   (Z.land (Z.shiftr (id msg) 16) 0x1FFFF))
  | CANStandard =>
      rd s1 CANIF1_ARB2
      = u32 (Z.lor (Z.lor CANIFn_ARB2_MSGVAL direction)
                   (Z.land (u32 (Z.shiftl (id msg) 2)) 0x1FFF))
  end /\
  rd s1 CANIF1_MCTRL
  = u32 (Z.lor (Z.lor (Z.lor CANIFn_MCTRL_UMASK CANIFn_MCTRL_TXRQST)
                      CANIFn_MCTRL_EOB)
               (Z.land (len msg) 0xF)) /\
  rd s1 CANIF1_DA1 = u32 (Z.lor (Z.shiftl (byte_at msg 1) 8) (byte_at msg 0)) /\
  rd s1 CANIF1_DA2 = u32 (Z.lor (Z.shiftl (byte_at msg 3) 8) (byte_at msg 2)) /\
  rd s1 CANIF1_DB1 = u32 (Z.lor (Z.shiftl (byte_at msg 5) 8) (byte_at msg 4)) /\
  rd s1 CANIF1_DB2 = u32 (Z.lor (Z.shiftl (byte_at msg 7) 8) (byte_at msg 6)).
Proof.
  unfold can_write. cbv zeta.
  match goal with
  | |- context [if ?c then Done (0, _) else _] => destruct c
  end; [intros H; discriminate H|].
  destruct (wait_idle hw_tick fuel CANIF1_CMDREQ (can_enable s))
    as [sa| |] eqn:W1; cbn [bind]; try (intros H; discriminate H).
  match goal with
  | |- context [wait_idle hw_tick fuel CANIF1_CMDREQ ?x] =>
      destruct (wait_idle hw_tick fuel CANIF1_CMDREQ x) as [sd| |] eqn:W2
  end; cbn [bind]; try (intros H; discriminate H).
  intros H. injection H as <-.
  assert (K : forall r r', if_twin r = Some r' ->
                rd (wr CANSTAT (Z.land (rd sd CANSTAT) (Z.lnot (Z.shiftl 1 3))) sd) r
                = rd sd r).
  { intros r r' Hr. apply rd_wr_other. destruct r; discriminate. }
  pose proof (fun r r' Hr => proj1 (rd_after_wait _ _ _ _ r r' W2 Hr)) as K2.
  destruct (format msg);
    repeat split;
    (erewrite K by reflexivity); (erewrite K2 by reflexivity);
    (erewrite rd_after_cmdreq1 by reflexivity);
    repeat first [ rewrite rd_wr_same | rewrite rd_wr_other by discriminate ];
    reflexivity.
Qed.

Lemma can_read_inv (fuel : nat) (s1 s2 : can_state) (m0 msg' : CAN_Message)
    (h : Z) :
  can_read hw_cmdreq hw_tick fuel s1 m0 h = Done (1, msg', s2) ->
  exists s',
    msg' = if2_message s' /\
    forall r r', if_twin r = Some r' -> rd s' r' = rd s1 r.
Proof.
  unfold can_read. cbv zeta.
  match goal with
  | |- context [if ?c then _ else Done (0, _, _)] => destruct c
  end; [|intros H; discriminate H].
  destruct (wait_idle hw_tick fuel CANIF2_CMDREQ (can_enable s1))
    as [sa| |] eqn:W1; cbn [bind]; try (intros H; discriminate H).
  match goal with
  | |- context [wait_idle hw_tick fuel CANIF2_CMDREQ ?x] =>
      destruct (wait_idle hw_tick fuel CANIF2_CMDREQ x) as [sd| |] eqn:W2
  end; cbn [bind]; try (intros H; discriminate H).
  intros H. exists sd. split.
  - unfold if2_message.
    destruct (anyset (rd sd CANIF2_ARB2) CANIFn_ARB2_XTD);
      injection H as <- _; reflexivity.
  - intros r r' Hr.
    rewrite (proj2 (rd_after_wait _ _ _ _ r r' W2 Hr)).
    rewrite (rd_after_cmdreq2 _ _ r r' Hr).
    rewrite rd_wr_other by (destruct r; discriminate).
    rewrite (proj1 (rd_after_wait _ _ _ _ r r' W1 Hr)).
    apply rd_can_enable_other. destruct r; discriminate.
Qed.

(** X11.  What [can_write] encodes, [can_read] decodes.  Let the
    controller finish every transfer, keep the interface registers between
    requests, and present through interface 2 what interface 1 last
    transferred.  Then, with the transmit object free, [can_write] returns
    1 and a following [can_read] of any message object returns 1 with the
    frame format written, the identifier reduced to 29 bits (extended) or
    11 bits (standard), the length reduced modulo 16 and the low bytes of
    the first eight data elements. *)
Theorem can_write_read_round_trip (s : can_state) (msg m0 : CAN_Message)
    (cc h : Z) :
  Z.testbit (rd s CANTXREQ2) 15 = false ->
  1 <= h <= 32 ->
  exists s1 msg' s2,
    returns (fun fuel => can_write hw_cmdreq hw_tick fuel s msg cc) (1, s1) /\
    returns (fun fuel => can_read hw_cmdreq hw_tick fuel s1 m0 h)
            (1, msg', s2) /\
    format msg' = format msg /\
    id msg' = id msg mod 2 ^ (match format msg with
                              | CANExtended => 29
                              | CANStandard => 11
                              end) /\
    len msg' = len msg mod 16 /\
    data msg' = map (byte_at msg) (seq 0 8).
Proof.
  intros Htx Hh. rewrite <- txPending_bit31 in Htx.
  destruct (can_write_free hw_cmdreq hw_tick transfers s msg cc Htx)
    as [[r1 s1] [Hw [Hr1 _]]].
  cbn [fst] in Hr1. subst r1.
  assert (Eh : h = (if h =? 0
                    then find_slot (bit_set (newdata s1))
                           (Z.to_nat RX_MSG_OBJ_COUNT) 0 h
                    else h)).
  { destruct (Z.eqb_spec h 0); [lia|reflexivity]. }
  destruct (can_read_in_range hw_cmdreq hw_tick transfers s1 m0 h h Eh Hh)
    as [[[r2 msg'] s2] [Hrd [Hr2 _]]].
  cbn [fst] in Hr2. subst r2.
  exists s1, msg', s2. split; [exact Hw|]. split; [exact Hrd|].
  destruct Hw as [n1 Hw]. specialize (Hw n1 (le_n n1)).
  destruct Hrd as [n2 Hrd]. specialize (Hrd n2 (le_n n2)).
  apply can_write_inv in Hw. cbv zeta in Hw.
  destruct Hw as [HA [HM [H1 [H2 [H3 H4]]]]].
  apply can_read_inv in Hrd. destruct Hrd as [s' [-> Hregs]].
  assert (Hdir : (match type msg with
                  | CANData => CANIFn_ARB2_DIR
                  | CANRemote => 0
                  end) = CANIFn_ARB2_DIR
                 \/ (match type msg with
                     | CANData => CANIFn_ARB2_DIR
                     | CANRemote => 0
                     end) = 0).
  { destruct (type msg); [left|right]; reflexivity. }
  unfold if2_message.
  rewrite (Hregs CANIF1_ARB1 CANIF2_ARB1 eq_refl).
  rewrite (Hregs CANIF1_ARB2 CANIF2_ARB2 eq_refl).
  rewrite (Hregs CANIF1_MCTRL CANIF2_MCTRL eq_refl).
  rewrite (Hregs CANIF1_DA1 CANIF2_DA1 eq_refl).
  rewrite (Hregs CANIF1_DA2 CANIF2_DA2 eq_refl).
  rewrite (Hregs CANIF1_DB1 CANIF2_DB1 eq_refl).
  rewrite (Hregs CANIF1_DB2 CANIF2_DB2 eq_refl).
  rewrite HM, H1, H2, H3, H4.
  assert (Hdata :
    [ Z.land (Z.shiftr (u32 (Z.lor (Z.shiftl (byte_at msg 1) 8) (byte_at msg 0))) 0) 0xFF;
      Z.land (Z.shiftr (u32 (Z.lor (Z.shiftl (byte_at msg 1) 8) (byte_at msg 0))) 8) 0xFF;
      Z.land (Z.shiftr (u32 (Z.lor (Z.shiftl (byte_at msg 3) 8) (byte_at msg 2))) 0) 0xFF;
      Z.land (Z.shiftr (u32 (Z.lor (Z.shiftl (byte_at msg 3) 8) (byte_at msg 2))) 8) 0xFF;
      Z.land (Z.shiftr (u32 (Z.lor (Z.shiftl (byte_at msg 5) 8) (byte_at msg 4))) 0) 0xFF;
      Z.land (Z.shiftr (u32 (Z.lor (Z.shiftl (byte_at msg 5) 8) (byte_at msg 4))) 8) 0xFF;
      Z.land (Z.shiftr (u32 (Z.lor (Z.shiftl (byte_at msg 7) 8) (byte_at msg 6))) 0) 0xFF;
      Z.land (Z.shiftr (u32 (Z.lor (Z.shiftl (byte_at msg 7) 8) (byte_at msg 6))) 8) 0xFF ]
    = map (byte_at msg) (seq 0 8)).
  { cbn [map seq]. unfold byte_at.
    destruct (data_pair_decodes (nth 1 (data msg) 0) (nth 0 (data msg) 0)) as [-> ->].
    destruct (data_pair_decodes (nth 3 (data msg) 0) (nth 2 (data msg) 0)) as [-> ->].
    destruct (data_pair_decodes (nth 5 (data msg) 0) (nth 4 (data msg) 0)) as [-> ->].
    destruct (data_pair_decodes (nth 7 (data msg) 0) (nth 6 (data msg) 0)) as [-> ->].
    reflexivity. }
  rewrite Hdata, dlc_decodes.
  destruct (format msg).
  - rewrite HA.
    destruct (std_id_decodes (id msg) _ Hdir) as [X I]. cbv zeta in X, I.
    rewrite X, I. cbn [format id len data]. repeat split.
  - destruct HA as [HA1 HA2]. rewrite HA1, HA2.
    destruct (ext_id_decodes (id msg) _ Hdir) as [X I]. cbv zeta in X, I.
    rewrite X, I. cbn [format id len data]. repeat split.
Qed.

End RoundTrip.

Lemma mirror_presents : presents_if1 mirror_cmdreq.
Proof. intros f r r' H. destruct r; inversion H; reflexivity. Qed.

Lemma mirror_stable : interface_stable mirror_cmdreq sim_tick.
Proof. intros f r r' H. destruct r; inversion H; repeat split. Qed.

Lemma can_write_read_round_trip_witness :
  transfer_completes sim_tick /\ presents_if1 mirror_cmdreq /\
  interface_stable mirror_cmdreq sim_tick /\
  Z.testbit (rd reset_state CANTXREQ2) 15 = false /\ 1 <= 32 <= 32 /\
  exists s1 msg' s2,
    returns (fun fuel => can_write mirror_cmdreq sim_tick fuel reset_state
                           sample_ext_msg 0) (1, s1) /\
    returns (fun fuel => can_read mirror_cmdreq sim_tick fuel s1 sample_msg 32)
            (1, msg', s2) /\
    format msg' = format sample_ext_msg /\
    id msg' = id sample_ext_msg mod 2 ^ (match format sample_ext_msg with
                                         | CANExtended => 29
                                         | CANStandard => 11
                                         end) /\
    len msg' = len sample_ext_msg mod 16 /\
    data msg' = map (byte_at sample_ext_msg) (seq 0 8).
Proof.
  assert (H1 : Z.testbit (rd reset_state CANTXREQ2) 15 = false) by reflexivity.
  assert (H2 : 1 <= 32 <= 32) by lia.
  split; [exact sim_transfers|]. split; [exact mirror_presents|].
  split; [exact mirror_stable|]. split; [exact H1|]. split; [exact H2|].
  exact (can_write_read_round_trip mirror_cmdreq sim_tick sim_transfers
           mirror_presents mirror_stable reset_state sample_ext_msg sample_msg
           0 32 H1 H2).
Defined.

(** ** Modes, monitoring and error counters *)

Lemma srd_swr_same (r : sreg) (v : Z) (b : board) : srd (swr r v b) r = u32 v.
Proof.
  unfold srd, swr. cbn [sregs].
  replace (sreg_beq r r) with true by (destruct r; reflexivity).
  apply u32_idem.
Qed.

Lemma srd_swr_other (r r' : sreg) (v : Z) (b : board) :
  r <> r' -> srd (swr r v b) r' = srd b r'.
Proof.
  intros H. unfold srd, swr. cbn [sregs].
  destruct (sreg_beq r r') eqn:E; [|reflexivity].
  exfalso. apply H. apply internal_sreg_dec_bl. exact E.
Qed.

Lemma srd_testbit_high (b : board) (r : sreg) (i : Z) :
  32 <= i -> Z.testbit (srd b r) i = false.
Proof. intros H. unfold srd, u32. apply Z.mod_pow2_bits_high. lia. Qed.

Lemma stestbit_set_bit (b : board) (r : sreg) (k i : Z) :
  0 <= k < 32 -> 0 <= i ->
  Z.testbit (srd (swr r (Z.lor (srd b r) (Z.shiftl 1 k)) b) r) i
  = Z.testbit (srd b r) i || (i =? k).
Proof.
  intros Hk Hi. rewrite srd_swr_same. destruct (Z.ltb_spec i 32).
  - rewrite u32_testbit, Z.lor_spec, testbit_one_shifted by lia.
    rewrite (Z.eqb_sym k i). reflexivity.
  - rewrite srd_testbit_high by lia. unfold u32.
    rewrite Z.mod_pow2_bits_high by lia.
    destruct (Z.eqb_spec i k); [lia|reflexivity].
Qed.

Lemma stestbit_clear_bit (b : board) (r : sreg) (k i : Z) :
  0 <= k -> 0 <= i ->
  Z.testbit (srd (swr r (Z.land (srd b r) (Z.lnot (Z.shiftl 1 k))) b) r) i
  = Z.testbit (srd b r) i && negb (i =? k).
Proof.
  intros Hk Hi. rewrite srd_swr_same. destruct (Z.ltb_spec i 32).
  - rewrite u32_testbit, Z.land_spec, Z.lnot_spec, testbit_one_shifted by lia.
    rewrite (Z.eqb_sym k i). reflexivity.
  - rewrite srd_testbit_high by lia. unfold u32.
    rewrite Z.mod_pow2_bits_high by lia. reflexivity.
Qed.

Lemma crd_cwr_set_bit (b : board) (k i : Z) :
  0 <= k < 32 -> 0 <= i ->
  Z.testbit (crd (cwr CANCNTL (Z.lor (crd b CANCNTL) (Z.shiftl 1 k)) b) CANCNTL) i
  = Z.testbit (crd b CANCNTL) i || (i =? k).
Proof. intros Hk Hi. apply (testbit_set_bit (can b) CANCNTL k i Hk Hi). Qed.

Lemma crd_cwr_clear_bit (b : board) (k i : Z) :
  0 <= k -> 0 <= i ->
  Z.testbit
    (crd (cwr CANCNTL (Z.land (crd b CANCNTL) (Z.lnot (Z.shiftl 1 k))) b) CANCNTL) i
  = Z.testbit (crd b CANCNTL) i && negb (i =? k).
Proof. intros Hk Hi. apply (testbit_clear_bit (can b) CANCNTL k i Hk Hi). Qed.

Lemma can_disable_bits (s : can_state) (i : Z) :
  0 <= i ->
  Z.testbit (rd (can_disable s) CANCNTL) i
  = Z.testbit (rd s CANCNTL) i || (i =? 0).
Proof.
  intros Hi. unfold can_disable. change 1 with (Z.shiftl 1 0).
  apply testbit_set_bit; lia.
Qed.

(** X13.  What each mode leaves in the registers, from any state.  RESET
    and NORMAL clear the TEST bit of CANCNTL, set respectively clear INIT,
    and do not touch CANTEST, so SILENT and LBACK stay as an earlier mode
    left them.  SILENT, TEST_LOCAL and TEST_SILENT set TEST and force the
    SILENT and LBACK bits of CANTEST to (1,0), (0,1) and (1,1) without
    changing INIT.  MODE_TEST_GLOBAL and any other value return 0 and
    change nothing. *)
Theorem can_mode_outcome (b : board) (mode : CanMode) :
  let r := fst (can_mode b mode) in
  let b' := snd (can_mode b mode) in
  let test := Z.testbit (crd b' CANCNTL) 7 in
  let init := Z.testbit (crd b' CANCNTL) 0 in
  let silent := Z.testbit (srd b' CANTEST) 3 in
  let lback := Z.testbit (srd b' CANTEST) 4 in
  match mode with
  | MODE_RESET =>
      r = 1 /\ test = false /\ init = true /\ sregs b' = sregs b
  | MODE_NORMAL =>
      r = 1 /\ test = false /\ init = false /\ sregs b' = sregs b
  | MODE_SILENT =>
      r = 1 /\ test = true /\ silent = true /\ lback = false /\
      init = Z.testbit (crd b CANCNTL) 0
  | MODE_TEST_LOCAL =>
      r = 1 /\ test = true /\ silent = false /\ lback = true /\
      init = Z.testbit (crd b CANCNTL) 0
  | MODE_TEST_SILENT =>
      r = 1 /\ test = true /\ silent = true /\ lback = true /\
      init = Z.testbit (crd b CANCNTL) 0
  | MODE_TEST_GLOBAL | MODE_OTHER _ => r = 0 /\ b' = b
  end.
Proof.
  intros r b' test init silent lback.
  subst r b' test init silent lback.
  destruct mode; cbn [can_mode fst snd];
    unfold CANCNTL_TEST, CANTEST_SILENT, CANTEST_LBACK;
    (split; [reflexivity|]);
    try reflexivity;
    unfold crd, cwr, on_can;
    repeat progress change (can (swr ?r ?v ?x)) with (can x);
    cbn [can sregs].
  - rewrite !can_disable_bits by lia.
    rewrite !testbit_clear_bit by lia. cbn [Z.eqb negb orb].
    rewrite andb_false_r, orb_true_r. repeat split.
  - rewrite can_enable_running.
    rewrite can_enable_other_bits by lia.
    rewrite testbit_clear_bit by lia. cbn [Z.eqb negb].
    rewrite andb_false_r. repeat split.
  - rewrite !testbit_set_bit by lia.
    rewrite !stestbit_clear_bit, !stestbit_set_bit by lia.
    cbn [Z.eqb negb orb andb].
    rewrite !orb_true_r, !andb_false_r, orb_false_r. repeat split.
  - rewrite !testbit_set_bit by lia.
    rewrite !stestbit_set_bit, !stestbit_clear_bit by lia.
    cbn [Z.eqb negb orb andb].
    rewrite !orb_true_r, !andb_false_r, !orb_false_r. repeat split.
  - rewrite !testbit_set_bit by lia.
    rewrite !srd_swr_same, !u32_testbit by lia.
    rewrite !Z.lor_spec, !testbit_one_shifted by lia.
    cbn [Z.eqb negb orb andb].
    rewrite !orb_true_r, !orb_false_r. repeat split.
Qed.

Lemma crd_swr (r : sreg) (v : Z) (b : board) (q : creg) :
  crd (swr r v b) q = crd b q.
Proof. reflexivity. Qed.

Lemma srd_cwr (r : creg) (v : Z) (b : board) (q : sreg) :
  srd (cwr r v b) q = srd b q.
Proof. reflexivity. Qed.

(** [if (!(CANCNTL & 1)) CANCNTL |= 1;] *)
Lemma force_init (b1 : board) :
  let b2 := if negb (anyset (crd b1 CANCNTL) (Z.shiftl 1 0))
            then cwr CANCNTL (Z.lor (crd b1 CANCNTL) (Z.shiftl 1 0)) b1
            else b1 in
  Z.testbit (crd b2 CANCNTL) 0 = true /\
  (forall i, 0 <= i -> i <> 0 ->
     Z.testbit (crd b2 CANCNTL) i = Z.testbit (crd b1 CANCNTL) i) /\
  (forall r, r <> CANCNTL -> crd b2 r = crd b1 r) /\
  (forall r, srd b2 r = srd b1 r).
Proof.
  cbv zeta. rewrite anyset_bit by lia.
  destruct (Z.testbit (crd b1 CANCNTL) 0) eqn:E; cbn [negb].
  - split; [exact E|]. repeat split.
  - split; [|split; [|split; [|reflexivity]]].
    + rewrite crd_cwr_set_bit by lia. apply orb_true_r.
    + intros i Hi Hn. rewrite crd_cwr_set_bit by lia.
      destruct (Z.eqb_spec i 0); [lia|]. apply orb_false_r.
    + intros r Hr. unfold crd, cwr, on_can. cbn [can].
      apply rd_wr_other. congruence.
Qed.

(** X14.  [can_monitor] always returns with the INIT bit of CANCNTL set:
    it stops the controller if it was running and never restarts it.  The
    TEST bit of CANCNTL and the SILENT bit of CANTEST are set when [silent]
    is non-zero and cleared when it is zero; no other bit of the two
    registers changes. *)
Theorem can_monitor_outcome (b : board) (silent : Z) :
  Z.testbit (crd (can_monitor b silent) CANCNTL) 0 = true /\
  Z.testbit (crd (can_monitor b silent) CANCNTL) 7 = negb (silent =? 0) /\
  Z.testbit (srd (can_monitor b silent) CANTEST) 3 = negb (silent =? 0) /\
  (forall i, 0 <= i -> i <> 0 -> i <> 7 ->
     Z.testbit (crd (can_monitor b silent) CANCNTL) i
     = Z.testbit (crd b CANCNTL) i) /\
  (forall i, 0 <= i -> i <> 3 ->
     Z.testbit (srd (can_monitor b silent) CANTEST) i
     = Z.testbit (srd b CANTEST) i).
Proof.
  unfold can_monitor. destruct (negb (silent =? 0)); cbv zeta;
    match goal with
    | |- context [if negb (anyset (crd ?b1 CANCNTL) (Z.shiftl 1 0))
                  then _ else _] =>
        destruct (force_init b1) as [T0 [T1 [_ T2]]]
    end;
    cbv zeta in T0, T1, T2;
    (split; [exact T0|]);
    rewrite T1 by lia; rewrite !T2; rewrite crd_swr.
  - rewrite crd_cwr_set_bit, stestbit_set_bit by lia.
    split; [apply orb_true_r|]. split; [apply orb_true_r|].
    split.
    + intros i Hi H0 H7. rewrite T1 by lia.
      rewrite crd_swr, crd_cwr_set_bit by lia.
      destruct (Z.eqb_spec i 7); [lia|]. apply orb_false_r.
    + intros i Hi H3. rewrite stestbit_set_bit by lia.
      destruct (Z.eqb_spec i 3); [lia|]. rewrite srd_cwr. apply orb_false_r.
  - rewrite crd_cwr_clear_bit, stestbit_clear_bit by lia.
    split; [apply andb_false_r|]. split; [apply andb_false_r|].
    split.
    + intros i Hi H0 H7. rewrite T1 by lia.
      rewrite crd_swr, crd_cwr_clear_bit by lia.
      destruct (Z.eqb_spec i 7); [lia|]. apply andb_true_r.
    + intros i Hi H3. rewrite stestbit_clear_bit by lia.
      destruct (Z.eqb_spec i 3); [lia|]. rewrite srd_cwr. apply andb_true_r.
Qed.

(** X15.  The two error counters are the fields of CANEC: the transmit
    counter is its low byte, the receive counter the seven bits above it,
    so together they make up the low 15 bits of the register; the
    receive-error-passive flag in bit 15 is not part of either. *)
Theorem error_counters_of_canec (b : board) :
  0 <= can_tderror b <= 255 /\
  0 <= can_rderror b <= 127 /\
  srd b CANEC mod 2 ^ 15 = can_rderror b * 256 + can_tderror b.
Proof.
  unfold can_rderror, can_tderror.
  change 0xFF with (Z.ones 8). change 0x7F with (Z.ones 7).
  rewrite !Z.land_ones by lia. rewrite Z.shiftr_div_pow2 by lia.
  generalize (srd b CANEC). intros x.
  change (2 ^ 8) with 256. change (2 ^ 7) with 128. change (2 ^ 15) with 32768.
  pose proof (Z.mod_pos_bound x 256 ltac:(lia)) as B1.
  pose proof (Z.mod_pos_bound (x / 256) 128 ltac:(lia)) as B2.
  rewrite (Z.mod_small ((x / 256) mod 128) 256) by lia.
  rewrite (Z.mod_small (x mod 256) 256) by lia.
  change (Z.ones 8) with 255. change (Z.ones 7) with 127.
  split; [lia|]. split; [lia|].
  clear B1 B2. Z.div_mod_to_equations. lia.
Qed.



(** ** Configuration of the message objects *)

Lemma trace_extends (s s' : can_state) (l : list (creg * Z)) :
  mmio s' = rev l ++ mmio s -> trace s' = trace s ++ l.
Proof.
  intros H. unfold trace. rewrite H, rev_app_distr, rev_involutive. reflexivity.
Qed.

Section Configuration.

Variable hw_cmdreq : creg -> regfile -> regfile.
Variable hw_tick : regfile -> regfile.
Variable hw_preset : regfile -> regfile.
Hypothesis transfers : transfer_completes hw_tick.

Lemma config_msgobjs_returns (n : nat) (i : Z) (s : can_state) :
  0 <= i -> i + Z.of_nat n <= 64 ->
  exists s',
    returns (fun fuel => config_msgobjs hw_cmdreq hw_tick fuel n i s) s' /\
    mmio s' = rev (config_writes n i) ++ mmio s.
Proof.
  revert i s. induction n as [|m IH]; intros i s Hi Hn.
  - exists s. split; [apply returns_ret|reflexivity].
  - cbn [config_msgobjs].
    apply (returns_after_wait hw_tick); [exact transfers|left; reflexivity|].
    intros f'. cbv beta.
    assert (Hu : u16 (i + 1) = i + 1).
    { unfold u16. apply Z.mod_small. lia. }
    rewrite Hu.
    destruct (IH (i + 1)
                (with_regs f'
                   (cmdreq hw_cmdreq CANIF1_CMDREQ (Z.land i 63)
                      (wr CANIF1_CMDMSK_W
                         (Z.lor (Z.lor CANIFn_CMDMSK_WR CANIFn_CMDMSK_ARB)
                                CANIFn_CMDMSK_CTRL) s)))
                ltac:(lia) ltac:(lia)) as [s' [Hr Hm]].
    exists s'. split; [exact Hr|].
    rewrite Hm. cbn [mmio with_regs cmdreq wr config_writes rev].
    assert (Hv : u32 (Z.land i 63) = i).
    { change 63 with (Z.ones 6). rewrite Z.land_ones by lia.
      rewrite Z.mod_small by lia. apply u32_small. lia. }
    rewrite Hv. rewrite <- !app_assoc. reflexivity.
Qed.

Lemma can_filter_accept_all (s : can_state) :
  exists s',
    returns (fun fuel => can_filter hw_cmdreq hw_tick fuel s 0 0 CANStandard 1)
            (1, s') /\
    mmio s' = [(CANIF1_CMDREQ, 1); (CANIF1_CMDMSK_W, 0xF0);
               (CANIF1_MCTRL, 0x1088); (CANIF1_MSK2, 0); (CANIF1_ARB2, 0x8000)]
              ++ mmio s.
Proof.
  unfold can_filter. change (1 =? 0) with false.
  change ((0 <? 1) && (1 <=? 32)) with true. cbv iota.
  destruct (returns_after_wait hw_tick CANIF1_CMDREQ
              (cmdreq hw_cmdreq CANIF1_CMDREQ (Z.land 1 63)
                 (wr CANIF1_CMDMSK_W
                    (Z.lor (Z.lor (Z.lor CANIFn_CMDMSK_WR CANIFn_CMDMSK_MASK)
                                  CANIFn_CMDMSK_ARB) CANIFn_CMDMSK_CTRL)
                    (wr CANIF1_MCTRL
                       (Z.lor (Z.lor CANIFn_MCTRL_UMASK CANIFn_MCTRL_EOB)
                              (Z.land DLC_MAX 15))
                       (wr CANIF1_MSK2 (Z.land (u32 (Z.shiftl 0 2)) 8191)
                          (wr CANIF1_ARB2
                             (Z.lor CANIFn_ARB2_MSGVAL
                                    (Z.land (u32 (Z.shiftl 0 2)) 8191)) s)))))
              (fun x _ => Done (1, x))
              (fun b => fst b = 1 /\
                        mmio (snd b)
                        = [(CANIF1_CMDREQ, 1); (CANIF1_CMDMSK_W, 0xF0);
                           (CANIF1_MCTRL, 0x1088); (CANIF1_MSK2, 0);
                           (CANIF1_ARB2, 0x8000)] ++ mmio s)
              transfers (or_introl eq_refl)) as [[r s'] [Hr [H1 H2]]].
  { intros f'. eexists. split; [apply returns_ret|].
    split; reflexivity. }
  cbn [fst snd] in H1, H2. subst r. exists s'. split; [exact Hr|exact H2].
Qed.

Lemma can_config_rxmsgobj_log (s : can_state) :
  exists s',
    returns (fun fuel => can_config_rxmsgobj hw_cmdreq hw_tick fuel s) (1, s') /\
    mmio s' = rev rx_config_writes ++ mmio s.
Proof.
  unfold can_config_rxmsgobj.
  destruct (wait_idle_returns hw_tick CANIF1_CMDREQ s transfers
              (or_introl eq_refl)) as [f1 W1].
  set (s1 := with_regs f1 s) in *.
  set (s2 := wr CANIF1_MCTRL 0 (wr CANIF1_ARB2 0 (wr CANIF1_ARB1 0 s1))).
  destruct (config_msgobjs_returns (Z.to_nat RX_MSG_OBJ_COUNT) 1 s2
              ltac:(lia) ltac:(unfold RX_MSG_OBJ_COUNT; lia)) as [s3 [W3 M3]].
  destruct (can_filter_accept_all s3) as [s4 [W4 M4]].
  exists s4. split.
  - apply (returns_bind _ _ s1 _ W1). cbv beta zeta. fold s2.
    apply (returns_bind _ _ s3 _ W3).
    apply (returns_bind _ _ (1, s4) _ W4). apply returns_ret.
  - rewrite M4, M3. subst s2 s1.
    cbn [mmio wr with_regs]. unfold rx_config_writes.
    change (Z.to_nat RX_MSG_OBJ_COUNT) with 31%nat.
    rewrite !rev_app_distr. cbn [rev app]. rewrite <- !app_assoc.
    reflexivity.
Qed.

Lemma can_config_txmsgobj_log (s : can_state) :
  exists s',
    returns (fun fuel => can_config_txmsgobj hw_cmdreq hw_tick fuel s) (1, s') /\
    mmio s' = rev tx_config_writes ++ mmio s.
Proof.
  unfold can_config_txmsgobj.
  destruct (wait_idle_returns hw_tick CANIF1_CMDREQ s transfers
              (or_introl eq_refl)) as [f1 W1].
  set (s1 := with_regs f1 s) in *.
  set (s2 := wr CANIF1_MCTRL 0
               (wr CANIF1_ARB2 CANIFn_ARB2_DIR (wr CANIF1_ARB1 0 s1))).
  destruct (config_msgobjs_returns (Z.to_nat TX_MSG_OBJ_COUNT)
              (RX_MSG_OBJ_COUNT + 1) s2
              ltac:(unfold RX_MSG_OBJ_COUNT; lia)
              ltac:(unfold RX_MSG_OBJ_COUNT, TX_MSG_OBJ_COUNT; lia))
    as [s3 [W3 M3]].
  exists s3. split.
  - apply (returns_bind _ _ s1 _ W1). cbv beta zeta. fold s2.
    apply (returns_bind _ _ s3 _ W3). apply returns_ret.
  - rewrite M3. subst s2 s1.
    cbn [mmio wr with_regs]. unfold tx_config_writes.
    change (Z.to_nat TX_MSG_OBJ_COUNT) with 1%nat.
    change (RX_MSG_OBJ_COUNT + 1) with 32.
    rewrite !rev_app_distr. cbn [rev app config_writes].
    reflexivity.
Qed.

(** X16.  [can_config_rxmsgobj] returns 1 after writing, in this order:
    empty arbitration and control words, a transfer to each of the message
    objects 1 to 31 in ascending order, and then the accept-all filter of
    [can_filter] into message object 1, the only receive object it marks
    valid. *)
Theorem can_config_rxmsgobj_trace (s : can_state) :
  exists s',
    returns (fun fuel => can_config_rxmsgobj hw_cmdreq hw_tick fuel s) (1, s') /\
    trace s' = trace s ++ rx_config_writes.
Proof.
  destruct (can_config_rxmsgobj_log s) as [s' [R M]].
  exists s'. split; [exact R|]. apply trace_extends. exact M.
Qed.

(** X17.  [can_config_txmsgobj] returns 1 after writing the arbitration
    word with only the direction bit set and a single transfer, to message
    object 32. *)
Theorem can_config_txmsgobj_trace (s : can_state) :
  exists s',
    returns (fun fuel => can_config_txmsgobj hw_cmdreq hw_tick fuel s) (1, s') /\
    trace s' = trace s ++ tx_config_writes.
Proof.
  destruct (can_config_txmsgobj_log s) as [s' [R M]].
  exists s'. split; [exact R|]. apply trace_extends. exact M.
Qed.

Lemma can_enable_log (s : can_state) :
  exists tail,
    mmio (can_enable s) = tail ++ mmio s /\
    forall e, In e tail -> fst e = CANCNTL.
Proof.
  unfold can_enable. destruct (anyset (rd s CANCNTL) 1).
  - eexists [_]. split; [reflexivity|].
    intros e [<-|[]]. reflexivity.
  - exists []. split; [reflexivity|]. intros e [].
Qed.

(** X18.  [can_reset] returns with the controller running (INIT clear in
    CANCNTL) and the peripheral reset de-asserted.  On the way it clears
    CANSTAT and configures the receive and the transmit objects afresh;
    whatever it writes after that goes to CANCNTL. *)
Theorem can_reset_outcome (b : board) :
  exists b' tail,
    returns (fun fuel => can_reset hw_cmdreq hw_tick fuel b) b' /\
    Z.testbit (crd b' CANCNTL) 0 = false /\
    Z.testbit (srd b' PRESETCTRL1) 7 = false /\
    (forall r, r <> PRESETCTRL1 -> srd b' r = srd b r) /\
    trace (can b')
    = trace (can b) ++ (CANSTAT, 0) :: rx_config_writes ++ tx_config_writes
      ++ tail /\
    (forall e, In e tail -> fst e = CANCNTL).
Proof.
  unfold can_reset. cbv zeta.
  set (b1 := swr PRESETCTRL1
               (Z.land (srd b PRESETCTRL1) (Z.lnot (Z.shiftl 1 7))) b).
  change (can b1) with (can b).
  destruct (can_config_rxmsgobj_log (wr CANSTAT 0 (can b))) as [s1 [R1 M1]].
  destruct (can_config_txmsgobj_log s1) as [s2 [R2 M2]].
  destruct (can_enable_log s2) as [tail [M3 Ht]].
  exists (mkBoard (can_enable s2) (sregs b1)), (rev tail).
  split; [|split; [|split; [|split; [|split]]]].
  - apply (returns_bind _ _ (1, s1) _ R1). cbv beta.
    apply (returns_bind _ _ (1, s2) _ R2). apply returns_ret.
  - unfold crd. cbn [can]. apply can_enable_running.
  - change (srd (mkBoard (can_enable s2) (sregs b1)) PRESETCTRL1)
      with (srd b1 PRESETCTRL1).
    subst b1. rewrite stestbit_clear_bit by lia. apply andb_false_r.
  - intros r Hr.
    change (srd (mkBoard (can_enable s2) (sregs b1)) r) with (srd b1 r).
    subst b1. apply srd_swr_other. congruence.
  - cbn [can]. unfold trace. rewrite M3, M2, M1. cbn [mmio wr].
    rewrite !rev_app_distr, !rev_involutive. cbn [rev app].
    rewrite <- !app_assoc. reflexivity.
  - intros e He. apply Ht. apply in_rev. exact He.
Qed.

Lemma can_frequency_log (clock hz w : Z) (s : can_state) :
  returns (fun fuel => can_speed fuel clock (u32 hz) 1) w ->
  exists ret s' l,
    returns (fun fuel => can_frequency fuel clock s hz) (ret, s') /\
    mmio s' = l ++ mmio s /\
    (w <> 0 -> In (CANBT, w) l) /\
    (w = 0 -> forall e, In e l -> fst e = CANCNTL).
Proof.
  intros [n0 Hs]. pose proof (Hs n0 (le_n n0)) as H.
  destruct (Z.eq_dec w 0) as [->|Hne].
  - exists 0, s, []. split.
    + exists n0. intros fuel Hf. apply can_frequency_zero. apply Hs. exact Hf.
    + split; [reflexivity|]. split; [intros C; contradiction|].
      intros _ e [].
  - destruct (can_speed_nonzero_inv n0 clock (u32 hz) 1 w H Hne)
      as [bits [brp [Hr [_ [_ Hw]]]]].
    pose proof (pack_btr_range bits 1 brp Hr) as Hrange.
    rewrite <- Hw in Hrange.
    assert (H32 : int32 w = w).
    { unfold int32. rewrite Z.mod_small by lia. lia. }
    assert (Hlow : Z.land w 0xFFFF = w).
    { change 0xFFFF with (Z.ones 16). rewrite land_mod by lia.
      apply Z.mod_small. lia. }
    eexists. eexists. eexists (_ :: _ :: (CANBT, u32 w) :: _ :: [_]).
    split; [|split; [|split]].
    + exists n0. intros fuel Hf. unfold can_frequency.
      rewrite (Hs fuel Hf). cbn [bind]. rewrite H32, Hlow.
      destruct (Z.ltb_spec 0 w) as [_|Hle]; [|lia]. reflexivity.
    + reflexivity.
    + intros _. rewrite (u32_small w) by lia. right. right. left. reflexivity.
    + intros C. contradiction.
Qed.

Lemma wait_running_cleared (fuel : nat) (s : can_state) :
  (1 <= fuel)%nat ->
  wait_running hw_tick fuel
    (wr CANCNTL (Z.land (rd s CANCNTL) (Z.lnot (Z.shiftl 1 0))) s)
  = Done (wr CANCNTL (Z.land (rd s CANCNTL) (Z.lnot (Z.shiftl 1 0))) s).
Proof.
  intros Hf. destruct fuel as [|f]; [lia|]. cbn [wait_running].
  rewrite anyset_bit by lia. rewrite testbit_clear_bit by lia.
  rewrite andb_false_r. reflexivity.
Qed.

(** Bytes 1 and 2 of PINASSIGN6 after [&= ~0x00FFFF00; |= rd << 16 | td << 8]. *)
Lemma pinassign_bits (p rd td i : Z) :
  0 <= rd < 256 -> 0 <= td < 256 -> 0 <= i < 32 ->
  Z.testbit
    (u32 (Z.lor (u32 (Z.land p (Z.lnot 0x00FFFF00)))
                (Z.lor (Z.shiftl rd 16) (Z.shiftl td 8)))) i
  = if (8 <=? i) && (i <? 16) then Z.testbit td (i - 8)
    else if (16 <=? i) && (i <? 24) then Z.testbit rd (i - 16)
    else Z.testbit p i.
Proof.
  intros Hrd Htd Hi.
  rewrite u32_testbit, Z.lor_spec, u32_testbit by lia.
  rewrite Z.land_spec, Z.lnot_spec, Z.lor_spec, !Z.shiftl_spec by lia.
  change 0x00FFFF00 with (Z.shiftl (Z.ones 16) 8).
  rewrite Z.shiftl_spec by lia.
  destruct (Z.leb_spec 8 i); destruct (Z.ltb_spec i 16);
    destruct (Z.leb_spec 16 i); destruct (Z.ltb_spec i 24);
    try lia; cbn [andb].
  - rewrite Z.testbit_ones_nonneg by lia.
    destruct (Z.ltb_spec (i - 8) 16); [|lia].
    rewrite (Z.testbit_neg_r rd) by lia. cbn [negb orb].
    rewrite andb_false_r. reflexivity.
  - rewrite Z.testbit_ones_nonneg by lia.
    destruct (Z.ltb_spec (i - 8) 16); [|lia].
    rewrite (testbit_small td 8 (i - 8)) by lia. cbn [negb].
    rewrite andb_false_r, orb_false_r. reflexivity.
  - rewrite Z.testbit_ones_nonneg by lia.
    destruct (Z.ltb_spec (i - 8) 16); [lia|].
    rewrite (testbit_small td 8 (i - 8)) by lia.
    rewrite (testbit_small rd 8 (i - 16)) by lia. cbn [negb orb].
    rewrite andb_true_r, orb_false_r. reflexivity.
  - rewrite (Z.testbit_neg_r (Z.ones 16)), (Z.testbit_neg_r rd),
      (Z.testbit_neg_r td) by lia.
    cbn [negb orb]. rewrite andb_true_r, orb_false_r. reflexivity.
Qed.

Lemma can_init_freq_log (clock hz w rdpin tdpin : Z) (b : board) :
  returns (fun fuel => can_speed fuel clock (u32 hz) 1) w ->
  0 <= rdpin < 256 -> 0 <= tdpin < 256 ->
  exists b' pre,
    returns (fun fuel => can_init_freq hw_cmdreq hw_tick hw_preset fuel clock
                           b rdpin tdpin hz) b' /\
    Z.testbit (srd b' SYSAHBCLKCTRL1) 7 = true /\
    Z.testbit (srd b' PRESETCTRL1) 7 = false /\
    (forall i, 0 <= i < 32 ->
       Z.testbit (srd b' PINASSIGN6) i
       = if (8 <=? i) && (i <? 16) then Z.testbit tdpin (i - 8)
         else if (16 <=? i) && (i <? 24) then Z.testbit rdpin (i - 16)
         else Z.testbit (srd b PINASSIGN6) i) /\
    trace (can b')
    = trace (can b) ++ pre ++ rx_config_writes ++ tx_config_writes /\
    (w <> 0 -> In (CANBT, w) pre) /\
    (w = 0 -> forall e, In e pre -> fst e = CANCNTL).
Proof.
  intros Hs Hrd Htd. unfold can_init_freq. cbv zeta.
  set (b1 := swr SYSAHBCLKCTRL1
               (Z.lor (srd b SYSAHBCLKCTRL1) (Z.shiftl 1 7)) b).
  set (b2 := swr PRESETCTRL1 (Z.lor (srd b1 PRESETCTRL1) (Z.shiftl 1 7)) b1).
  set (b3 := on_can (fun s => with_regs (hw_preset (regs s)) s) b2).
  set (b4 := swr PRESETCTRL1
               (Z.land (srd b3 PRESETCTRL1) (Z.lnot (Z.shiftl 1 7))) b3).
  destruct (force_init b4) as [_ [_ [_ T]]]. cbv zeta in T.
  assert (L5 : exists l5,
             mmio (can (if negb (anyset (crd b4 CANCNTL) (Z.shiftl 1 0))
                        then cwr CANCNTL
                               (Z.lor (crd b4 CANCNTL) (Z.shiftl 1 0)) b4
                        else b4))
             = l5 ++ mmio (can b) /\
             forall e, In e l5 -> fst e = CANCNTL).
  { destruct (negb (anyset (crd b4 CANCNTL) (Z.shiftl 1 0))).
    - eexists [_]. split; [reflexivity|]. intros e [<-|[]]. reflexivity.
    - exists []. split; [reflexivity|]. intros e []. }
  set (b5 := if negb (anyset (crd b4 CANCNTL) (Z.shiftl 1 0))
             then cwr CANCNTL (Z.lor (crd b4 CANCNTL) (Z.shiftl 1 0)) b4
             else b4) in *.
  destruct L5 as [l5 [M5 C5]].
  set (b6 := swr PINASSIGN6
               (Z.land (srd b5 PINASSIGN6) (Z.lnot 0x00FFFF00)) b5).
  set (b7 := swr PINASSIGN6
               (Z.lor (srd b6 PINASSIGN6)
                      (Z.lor (Z.shiftl rdpin 16) (Z.shiftl tdpin 8))) b6).
  change (can b7) with (can b5).
  destruct (can_frequency_log clock hz w (can b5) Hs)
    as [ret [s1 [l1 [R1 [M1 [Hin Hno]]]]]].
  set (s2 := wr CANCNTL (Z.land (rd s1 CANCNTL) (Z.lnot (Z.shiftl 1 0))) s1).
  destruct (can_config_rxmsgobj_log s2) as [s3 [R3 M3]].
  destruct (can_config_txmsgobj_log s3) as [s4 [R4 M4]].
  exists (mkBoard s4 (sregs b7)), (rev ((CANCNTL, u32 (Z.land (rd s1 CANCNTL)
                                         (Z.lnot (Z.shiftl 1 0)))) :: l1 ++ l5)).
  split; [|split; [|split; [|split; [|split; [|split]]]]].
  - apply (returns_bind _ _ (ret, s1) _ R1). cbv beta. cbn [snd]. fold s2.
    apply (returns_bind (fun fuel => wait_running hw_tick fuel s2) _ s2).
    + exists 1%nat. intros fuel Hf. apply wait_running_cleared. exact Hf.
    + apply (returns_bind _ _ (1, s3) _ R3). cbv beta.
      apply (returns_bind _ _ (1, s4) _ R4). apply returns_ret.
  - change (srd (mkBoard s4 (sregs b7)) SYSAHBCLKCTRL1)
      with (srd b7 SYSAHBCLKCTRL1).
    subst b7 b6. rewrite !srd_swr_other by discriminate. rewrite T.
    subst b4. rewrite srd_swr_other by discriminate.
    change (srd b3 SYSAHBCLKCTRL1) with (srd b2 SYSAHBCLKCTRL1).
    subst b2. rewrite srd_swr_other by discriminate.
    subst b1. rewrite stestbit_set_bit by lia. apply orb_true_r.
  - change (srd (mkBoard s4 (sregs b7)) PRESETCTRL1) with (srd b7 PRESETCTRL1).
    subst b7 b6. rewrite !srd_swr_other by discriminate. rewrite T.
    subst b4. rewrite stestbit_clear_bit by lia. apply andb_false_r.
  - intros i Hi.
    change (srd (mkBoard s4 (sregs b7)) PINASSIGN6) with (srd b7 PINASSIGN6).
    subst b7 b6. rewrite !srd_swr_same.
    rewrite (pinassign_bits _ rdpin tdpin i Hrd Htd Hi).
    rewrite T. subst b4. rewrite srd_swr_other by discriminate.
    change (srd b3 PINASSIGN6) with (srd b2 PINASSIGN6).
    subst b2 b1. rewrite !srd_swr_other by discriminate. reflexivity.
  - cbn [can]. unfold trace. rewrite M4, M3. subst s2. cbn [mmio wr].
    rewrite M1, M5.
    rewrite !rev_app_distr, !rev_involutive. cbn [rev app].
    rewrite !rev_app_distr. rewrite <- !app_assoc. reflexivity.
  - intros Hw. apply -> in_rev. right. apply in_or_app. left.
    apply Hin. exact Hw.
  - intros Hw e He. apply in_rev in He. destruct He as [<-|He]; [reflexivity|].
    apply in_app_or in He. destruct He as [He|He].
    + apply (Hno Hw). exact He.
    + apply C5. exact He.
Qed.

(** X19.  [can_init_freq] returns whenever the bit-timing solver does,
    whether or not the solver found a timing.  It leaves the CAN clock
    enabled and the peripheral reset de-asserted, routes the two pins
    through bytes 1 and 2 of PINASSIGN6 without touching bytes 0 and 3, and
    ends by configuring the receive and the transmit objects.  A solver
    result of 0 is not reported: no bit-timing register is written (the
    only writes before the object configuration go to CANCNTL) and the
    initialisation carries on; a non-zero result is written to CANBT. *)
Theorem can_init_freq_outcome (clock hz w rdpin tdpin : Z) (b : board) :
  returns (fun fuel => can_speed fuel clock (u32 hz) 1) w ->
  0 <= rdpin < 256 -> 0 <= tdpin < 256 ->
  exists b' pre,
    returns (fun fuel => can_init_freq hw_cmdreq hw_tick hw_preset fuel clock
                           b rdpin tdpin hz) b' /\
    Z.testbit (srd b' SYSAHBCLKCTRL1) 7 = true /\
    Z.testbit (srd b' PRESETCTRL1) 7 = false /\
    (forall i, 0 <= i < 32 ->
       Z.testbit (srd b' PINASSIGN6) i
       = if (8 <=? i) && (i <? 16) then Z.testbit tdpin (i - 8)
         else if (16 <=? i) && (i <? 24) then Z.testbit rdpin (i - 16)
         else Z.testbit (srd b PINASSIGN6) i) /\
    trace (can b')
    = trace (can b) ++ pre ++ rx_config_writes ++ tx_config_writes /\
    (w <> 0 -> In (CANBT, w) pre) /\
    (w = 0 -> forall e, In e pre -> fst e = CANCNTL).
Proof. exact (can_init_freq_log clock hz w rdpin tdpin b). Qed.

(** X29.  [can_init] always returns.  At its fixed 100 kbit/s the bit
    width of any 32-bit core clock is far below the range in which the
    solver's prescaler wraps, so the initialisation ends, for every clock,
    by configuring the message objects.  [can_free] afterwards switches
    the CAN clock off again; the pin routing and the registers of the
    controller stay as the initialisation left them. *)
Theorem can_init_returns (clock rdpin tdpin : Z) (b : board) :
  0 <= clock < 2 ^ 32 -> 0 <= rdpin < 256 -> 0 <= tdpin < 256 ->
  exists b' pre,
    returns (fun fuel => can_init hw_cmdreq hw_tick hw_preset fuel clock
                           b rdpin tdpin) b' /\
    trace (can b')
    = trace (can b) ++ pre ++ rx_config_writes ++ tx_config_writes /\
    Z.testbit (srd b' SYSAHBCLKCTRL1) 7 = true /\
    Z.testbit (srd (can_free b') SYSAHBCLKCTRL1) 7 = false /\
    Z.testbit (srd (can_free b') PRESETCTRL1) 7 = false /\
    srd (can_free b') PINASSIGN6 = srd b' PINASSIGN6 /\
    can (can_free b') = can b'.
Proof.
  intros Hc Hrd Htd.
  assert (Hbw : clock / 100000 / 4 < 2 ^ 16).
  { apply Z.div_lt_upper_bound; [lia|].
    apply Z.div_lt_upper_bound; lia. }
  destruct (can_speed_returns clock 100000 1 ltac:(lia) ltac:(lia) Hbw)
    as [w Hw].
  destruct (can_init_freq_log clock 100000 w rdpin tdpin b Hw Hrd Htd)
    as [b' [pre [R [Hclk [_ [_ [Ht _]]]]]]].
  exists b', pre. split; [exact R|]. split; [exact Ht|].
  split; [exact Hclk|]. unfold can_free.
  split; [|split; [|split]].
  - rewrite srd_swr_other by discriminate.
    rewrite stestbit_clear_bit by lia. apply andb_false_r.
  - rewrite stestbit_clear_bit by lia. apply andb_false_r.
  - rewrite !srd_swr_other by discriminate. reflexivity.
  - reflexivity.
Qed.

End Configuration.

Lemma can_config_rxmsgobj_trace_witness :
  transfer_completes sim_tick /\
  exists s',
    returns (fun fuel => can_config_rxmsgobj sim_cmdreq sim_tick fuel reset_state)
            (1, s') /\
    trace s' = trace reset_state ++ rx_config_writes.
Proof.
  split; [exact sim_transfers|].
  exact (can_config_rxmsgobj_trace sim_cmdreq sim_tick sim_transfers
           reset_state).
Defined.

Lemma can_config_txmsgobj_trace_witness :
  transfer_completes sim_tick /\
  exists s',
    returns (fun fuel => can_config_txmsgobj sim_cmdreq sim_tick fuel reset_state)
            (1, s') /\
    trace s' = trace reset_state ++ tx_config_writes.
Proof.
  split; [exact sim_transfers|].
  exact (can_config_txmsgobj_trace sim_cmdreq sim_tick sim_transfers
           reset_state).
Defined.

Lemma can_reset_outcome_witness :
  transfer_completes sim_tick /\
  exists b' tail,
    returns (fun fuel => can_reset sim_cmdreq sim_tick fuel reset_board) b' /\
    Z.testbit (crd b' CANCNTL) 0 = false /\
    Z.testbit (srd b' PRESETCTRL1) 7 = false /\
    (forall r, r <> PRESETCTRL1 -> srd b' r = srd reset_board r) /\
    trace (can b')
    = trace (can reset_board) ++ (CANSTAT, 0) :: rx_config_writes
      ++ tx_config_writes ++ tail /\
    (forall e, In e tail -> fst e = CANCNTL).
Proof.
  split; [exact sim_transfers|].
  exact (can_reset_outcome sim_cmdreq sim_tick sim_transfers reset_board).
Defined.

Lemma can_init_freq_outcome_witness :
  transfer_completes sim_tick /\
  returns (fun fuel => can_speed fuel 48000000 (u32 500000) 1) 14917 /\
  0 <= 18 < 256 /\ 0 <= 13 < 256 /\
  exists b' pre,
    returns (fun fuel => can_init_freq sim_cmdreq sim_tick (fun _ => reset_regs)
                           fuel 48000000 reset_board 18 13 500000) b' /\
    Z.testbit (srd b' SYSAHBCLKCTRL1) 7 = true /\
    Z.testbit (srd b' PRESETCTRL1) 7 = false /\
    (forall i, 0 <= i < 32 ->
       Z.testbit (srd b' PINASSIGN6) i
       = if (8 <=? i) && (i <? 16) then Z.testbit 13 (i - 8)
         else if (16 <=? i) && (i <? 24) then Z.testbit 18 (i - 16)
         else Z.testbit (srd reset_board PINASSIGN6) i) /\
    trace (can b')
    = trace (can reset_board) ++ pre ++ rx_config_writes ++ tx_config_writes /\
    (14917 <> 0 -> In (CANBT, 14917) pre) /\
    (14917 = 0 -> forall e, In e pre -> fst e = CANCNTL).
Proof.
  assert (H1 : returns (fun fuel => can_speed fuel 48000000 (u32 500000) 1)
                       14917).
  { exists 1%nat. intros fuel Hf. destruct fuel as [|f]; [lia|]. reflexivity. }
  assert (H2 : 0 <= 18 < 256) by lia.
  assert (H3 : 0 <= 13 < 256) by lia.
  split; [exact sim_transfers|]. split; [exact H1|]. split; [exact H2|].
  split; [exact H3|].
  exact (can_init_freq_outcome sim_cmdreq sim_tick (fun _ => reset_regs)
           sim_transfers 48000000 500000 14917 18 13 reset_board H1 H2 H3).
Defined.

Lemma can_init_returns_witness :
  transfer_completes sim_tick /\
  0 <= 72000000 < 2 ^ 32 /\ 0 <= 18 < 256 /\ 0 <= 13 < 256 /\
  exists b' pre,
    returns (fun fuel => can_init sim_cmdreq sim_tick (fun _ => reset_regs)
                           fuel 72000000 reset_board 18 13) b' /\
    trace (can b')
    = trace (can reset_board) ++ pre ++ rx_config_writes ++ tx_config_writes /\
    Z.testbit (srd b' SYSAHBCLKCTRL1) 7 = true /\
    Z.testbit (srd (can_free b') SYSAHBCLKCTRL1) 7 = false /\
    Z.testbit (srd (can_free b') PRESETCTRL1) 7 = false /\
    srd (can_free b') PINASSIGN6 = srd b' PINASSIGN6 /\
    can (can_free b') = can b'.
Proof.
  assert (H1 : 0 <= 72000000 < 2 ^ 32) by lia.
  assert (H2 : 0 <= 18 < 256) by lia.
  assert (H3 : 0 <= 13 < 256) by lia.
  split; [exact sim_transfers|]. split; [exact H1|]. split; [exact H2|].
  split; [exact H3|].
  exact (can_init_returns sim_cmdreq sim_tick (fun _ => reset_regs)
           sim_transfers 72000000 18 13 reset_board H1 H2 H3).
Defined.

End CanMore.

(** * Further properties of the real-time clock *)

Module RtcMore.
Import Rtc RtcReset RtcSpec.

Section Elapsed.

Variables RTC_SATURDAY RTC_CLOCK_12 RTC_CLOCK_24 RTC_PM : Z.
Variable _rtc_maketime : tm -> option Z.
Variable spare_store : Z -> Z.

Local Notation "'ORIGIN'" := (DATETIME_HWRTC_ORIGIN RTC_SATURDAY RTC_CLOCK_24).
Local Notation "'to_tm'" := (rtc_convert_datetime_hwrtc_to_tm RTC_CLOCK_12 RTC_PM).
Local Notation "'init_impl'" :=
  (rtc_init_impl RTC_SATURDAY RTC_CLOCK_24 spare_store).
Local Notation "'write_impl'" :=
  (rtc_write_impl RTC_SATURDAY RTC_CLOCK_24 spare_store).
Local Notation "'read_impl'" :=
  (rtc_read_impl RTC_SATURDAY RTC_CLOCK_12 RTC_CLOCK_24 RTC_PM
                 _rtc_maketime spare_store).
Local Notation "'consistent'" :=
  (origin_consistent RTC_SATURDAY RTC_CLOCK_12 RTC_CLOCK_24 RTC_PM _rtc_maketime).
Local Notation "'read_present'" :=
  (rtc_read_present RTC_CLOCK_12 RTC_PM _rtc_maketime).

(** The value read when the date registers hold [d], in terms of the two
    conversions. *)
Lemma read_present_value (y : rtc_state) (e : Z) :
  _rtc_maketime (to_tm (hwrtc y)) = Some e ->
  read_present y
  = (int64 (t_write y + int64 (int64 e - t_hwrtc_origin y)), y).
Proof.
  intros H. unfold rtc_read_present, RTC_WaitAccessEnable, RTC_GetDateAndTime.
  rewrite H. reflexivity.
Qed.

Lemma elapsed_in_range (t o e : Z) :
  0 <= t < 2 ^ 62 -> 0 <= o < 2 ^ 62 -> 0 <= e < 2 ^ 62 ->
  int64 (int64 t + int64 (int64 e - int64 o)) = t + (e - o).
Proof.
  intros Ht Ho He.
  rewrite (int64_small t), (int64_small o), (int64_small e) by lia.
  rewrite (int64_small (e - o)) by lia. apply int64_small. lia.
Qed.

(** X20.  The driver's time base.  After [rtc_write_impl t], a read made
    when the date registers have moved on to a date [d] returns
    [t + (e - o)], where [e] and [o] are the conversions of [d] and of the
    reference date: the time written plus the time the hardware has
    counted since. *)
Theorem rtc_read_elapsed (s : rtc_state) (d : S_RTC_TIME_DATA_T)
    (t o e : Z) (fuel : nat) :
  (3 <= fuel)%nat ->
  0 <= t < 2 ^ 62 -> 0 <= o < 2 ^ 62 -> 0 <= e < 2 ^ 62 ->
  _rtc_maketime (to_tm ORIGIN) = Some o ->
  _rtc_maketime (to_tm d) = Some e ->
  consistent s ->
  spare_store t = t ->
  exists s1 s2,
    write_impl fuel t s = Done s1 /\
    read_impl fuel (with_hwrtc d s1) = Done (t + (e - o), s2).
Proof.
  intros Hf Ht Ho He Hmo Hme Hc Hsp.
  assert (Ht64 : int64 t = t) by (apply int64_small; lia).
  destruct (write_impl_returns RTC_SATURDAY RTC_CLOCK_24 spare_store fuel t s Hf)
    as [s1 [Hw [_ [Hact [Hspr [_ [Htw [Hin Hor]]]]]]]].
  rewrite Ht64, Hsp in Hspr.
  destruct (read_impl_unfold RTC_SATURDAY RTC_CLOCK_12 RTC_CLOCK_24 RTC_PM
              _rtc_maketime spare_store fuel (with_hwrtc d s1) Hf)
    as [y [_ [Hin' [Hor' [Hsame [_ Hrd]]]]]].
  destruct (Hsame Hact) as [Hhw' [Htw' Hspr']].
  cbn [with_hwrtc hwrtc t_write SPR0 t_hwrtc_origin_inited t_hwrtc_origin]
    in Hhw', Htw', Hspr', Hin', Hor'.
  exists s1. rewrite Hrd, Hmo.
  destruct (t_hwrtc_origin_inited y) eqn:Hi; cbn [negb].
  - eexists. split; [exact Hw|].
    rewrite (read_present_value y e) by (rewrite Hhw'; exact Hme).
    rewrite Htw', Htw, Hor', Hor.
    rewrite (Hc o) by (try exact Hmo; congruence).
    rewrite elapsed_in_range by assumption. reflexivity.
  - eexists. split; [exact Hw|].
    rewrite (read_present_value _ e)
      by (cbn [hwrtc with_t_write with_spare_access with_origin
               with_origin_inited]; rewrite Hhw'; exact Hme).
    cbn [t_write t_hwrtc_origin with_t_write with_spare_access with_origin
         with_origin_inited].
    rewrite Hspr', Hspr. rewrite <- Ht64 at 1. rewrite (int64_small (int64 t))
      by (rewrite Ht64; lia).
    rewrite elapsed_in_range by assumption. reflexivity.
Qed.

(** X21.  The time survives a reset of the core.  If, after
    [rtc_write_impl t], the statics of the driver are lost while the RTC
    domain keeps running, the first read after the reset returns
    [t + (e - o)] all the same: it takes the time written from spare
    register 0 and works the origin out again. *)
Theorem rtc_read_after_reset (s : rtc_state) (d : S_RTC_TIME_DATA_T)
    (t o e : Z) (fuel : nat) :
  (3 <= fuel)%nat ->
  0 <= t < 2 ^ 62 -> 0 <= o < 2 ^ 62 -> 0 <= e < 2 ^ 62 ->
  _rtc_maketime (to_tm ORIGIN) = Some o ->
  _rtc_maketime (to_tm d) = Some e ->
  spare_store t = t ->
  exists s1 s2,
    write_impl fuel t s = Done s1 /\
    read_impl fuel (reset_cycle (with_hwrtc d s1)) = Done (t + (e - o), s2).
Proof.
  intros Hf Ht Ho He Hmo Hme Hsp.
  assert (Ht64 : int64 t = t) by (apply int64_small; lia).
  destruct (write_impl_returns RTC_SATURDAY RTC_CLOCK_24 spare_store fuel t s Hf)
    as [s1 [Hw [_ [Hact [Hspr [_ _]]]]]].
  rewrite Ht64, Hsp in Hspr.
  destruct (read_impl_unfold RTC_SATURDAY RTC_CLOCK_12 RTC_CLOCK_24 RTC_PM
              _rtc_maketime spare_store fuel (reset_cycle (with_hwrtc d s1)) Hf)
    as [y [_ [Hin' [_ [Hsame [_ Hrd]]]]]].
  destruct (Hsame Hact) as [Hhw' [_ Hspr']].
  cbn [reset_cycle with_hwrtc hwrtc SPR0 t_hwrtc_origin_inited]
    in Hhw', Hspr', Hin'.
  exists s1. rewrite Hrd, Hmo, Hin'. cbn [negb].
  eexists. split; [exact Hw|].
  rewrite (read_present_value _ e)
    by (cbn [hwrtc with_t_write with_spare_access with_origin
             with_origin_inited]; rewrite Hhw'; exact Hme).
  cbn [t_write t_hwrtc_origin with_t_write with_spare_access with_origin
       with_origin_inited].
  rewrite Hspr', Hspr. rewrite <- Ht64 at 1. rewrite (int64_small (int64 t))
    by (rewrite Ht64; lia).
  rewrite elapsed_in_range by assumption. reflexivity.
Qed.

Lemma init_impl_clock (fuel : nat) (s : rtc_state) :
  (3 <= fuel)%nat ->
  exists s1,
    init_impl fuel s = Done s1 /\ clk_enabled s1 = true /\
    INIT_ACTIVE s1 = true /\
    t_hwrtc_origin_inited s1 = t_hwrtc_origin_inited s /\
    t_hwrtc_origin s1 = t_hwrtc_origin s.
Proof.
  intros Hf. destruct fuel as [|[|f]]; try lia.
  cbn [rtc_init_impl]. unfold rtc_isenabled_impl, CLK_SetModuleClock,
    CLK_EnableModuleClock. cbn [with_clk INIT_ACTIVE].
  destruct (INIT_ACTIVE s) eqn:Ha; cbn [Z.eqb negb].
  - exists (with_clk true s). repeat split. exact Ha.
  - destruct (write_impl_active RTC_SATURDAY RTC_CLOCK_24 spare_store f 0
                (RTC_Open (with_clk true s)) eq_refl)
      as [s1 [Hw [Hc [Hact [_ [_ [_ [Hi Ho]]]]]]]].
    exists s1. split; [exact Hw|]. split; [exact Hc|]. split; [exact Hact|].
    split; [exact Hi|exact Ho].
Qed.

(** X22.  [rtc_init_impl] never resets a running clock, and starts a
    stopped one at the epoch.  When the RTC is already active it only
    opens the clock gate: date registers, spare register and the time
    written stay as they are.  When it is not, the read that follows
    returns 0. *)
Theorem rtc_init_outcome (s : rtc_state) (o : Z) (fuel : nat) :
  (3 <= fuel)%nat ->
  _rtc_maketime (to_tm ORIGIN) = Some o ->
  consistent s ->
  spare_store 0 = 0 ->
  exists s1,
    init_impl fuel s = Done s1 /\
    (INIT_ACTIVE s = true -> s1 = with_clk true s) /\
    (INIT_ACTIVE s = false -> exists s2, read_impl fuel s1 = Done (0, s2)).
Proof.
  intros Hf Hmo Hc Hsp.
  destruct (init_impl_returns RTC_SATURDAY RTC_CLOCK_24 spare_store fuel s Hf)
    as [s1 [Hret [Hact [Hsame [Hfresh [Hi Ho]]]]]].
  exists s1. split; [exact Hret|]. split; [exact Hsame|].
  intros Ha. destruct (Hfresh Ha) as [Hhw [Htw Hspr]].
  destruct (read_impl_unfold RTC_SATURDAY RTC_CLOCK_12 RTC_CLOCK_24 RTC_PM
              _rtc_maketime spare_store fuel s1 Hf)
    as [y [_ [Hin' [Hor' [Hkeep [_ Hrd]]]]]].
  destruct (Hkeep Hact) as [Hhw' [Htw' Hspr']].
  assert (Hz : forall x, int64 (0 + int64 (int64 x - int64 x)) = 0).
  { intros x. rewrite Z.sub_diag. reflexivity. }
  rewrite Hrd, Hmo.
  destruct (t_hwrtc_origin_inited y) eqn:Hiy; cbn [negb].
  - eexists.
    rewrite (read_present_value y o) by (rewrite Hhw', Hhw; exact Hmo).
    rewrite Htw', Htw, Hor', Ho.
    rewrite (Hc o) by (try exact Hmo; congruence).
    rewrite Hz. reflexivity.
  - eexists.
    rewrite (read_present_value _ o)
      by (cbn [hwrtc with_t_write with_spare_access with_origin
               with_origin_inited]; rewrite Hhw', Hhw; exact Hmo).
    cbn [t_write t_hwrtc_origin with_t_write with_spare_access with_origin
         with_origin_inited].
    rewrite Hspr', Hspr, Hsp. change (int64 0) with 0.
    rewrite Hz. reflexivity.
Qed.

(** X23.  [rtc_free_impl] has no lasting effect: it only closes the clock
    gate (the gate is closed afterwards, and putting the gate back gives
    the state before), and every other operation opens the gate again
    before it does anything else.  Initialising, reading and writing after
    it behave as without it, and [rtc_isenabled_impl] after it still
    reports the RTC's "init active" flag, leaving the state as before the
    free but for the gate, which is open. *)
Theorem rtc_free_transparent (s : rtc_state) (t : Z) (fuel : nat) :
  clk_enabled (rtc_free_impl s) = false /\
  with_clk (clk_enabled s) (rtc_free_impl s) = s /\
  init_impl fuel (rtc_free_impl s) = init_impl fuel s /\
  read_impl fuel (rtc_free_impl s) = read_impl fuel s /\
  write_impl fuel t (rtc_free_impl s) = write_impl fuel t s /\
  rtc_isenabled_impl (rtc_free_impl s) = rtc_isenabled_impl s /\
  rtc_isenabled_impl (rtc_free_impl s)
  = (if INIT_ACTIVE s then 1 else 0, with_clk true s).
Proof.
  split; [|split; [|split; [|split; [|split; [|split]]]]].
  - reflexivity.
  - destruct s; reflexivity.
  - destruct fuel; reflexivity.
  - reflexivity.
  - destruct fuel; reflexivity.
  - reflexivity.
  - reflexivity.
Qed.

Lemma read_impl_result (fuel : nat) (s : rtc_state) (o : Z) :
  (3 <= fuel)%nat ->
  _rtc_maketime (to_tm ORIGIN) = Some o ->
  exists y,
    read_impl fuel s = Done (read_present y) /\
    clk_enabled y = true /\ INIT_ACTIVE y = true /\
    t_hwrtc_origin_inited y = true.
Proof.
  intros Hf Hmo.
  assert (Hk : forall x,
             clk_enabled x = true -> INIT_ACTIVE x = true ->
             exists y,
               (if negb (t_hwrtc_origin_inited x) then
                  match _rtc_maketime (to_tm ORIGIN) with
                  | None => Done (0, with_origin_inited true x)
                  | Some seconds =>
                      Done (read_present
                              (with_t_write
                                 (int64 (RTC_READ_SPARE_REGISTER
                                           (RTC_WaitAccessEnable
                                              (RTC_EnableSpareAccess
                                                 (RTC_WaitAccessEnable
                                                    (with_origin (int64 seconds)
                                                       (with_origin_inited true x)))))))
                                 (RTC_WaitAccessEnable
                                    (RTC_EnableSpareAccess
                                       (RTC_WaitAccessEnable
                                          (with_origin (int64 seconds)
                                             (with_origin_inited true x)))))))
                  end
                else Done (read_present x))
               = Done (read_present y) /\
               clk_enabled y = true /\ INIT_ACTIVE y = true /\
               t_hwrtc_origin_inited y = true).
  { intros x Hc Ha. rewrite Hmo.
    destruct (t_hwrtc_origin_inited x) eqn:Hi; cbn [negb].
    - exists x. repeat split; assumption.
    - eexists. split; [reflexivity|]. repeat split; assumption. }
  unfold rtc_read_impl, rtc_isenabled_impl, CLK_SetModuleClock,
    CLK_EnableModuleClock.
  cbn [with_clk INIT_ACTIVE].
  destruct (INIT_ACTIVE s) eqn:Ha; cbn [Z.eqb bind].
  - apply Hk; [reflexivity|exact Ha].
  - destruct (init_impl_clock fuel (with_clk true s) Hf)
      as [s1 [Hret [Hc [Hact _]]]].
    rewrite Hret. cbn [bind]. apply Hk; assumption.
Qed.

(** X24.  Reading changes nothing that a second read would see.  Provided
    the conversion accepts the reference date, [rtc_read_impl] returns, and
    a second call on the state it leaves returns the same value and leaves
    that state as it is. *)
Theorem rtc_read_stable (s : rtc_state) (o : Z) (fuel : nat) :
  (3 <= fuel)%nat ->
  _rtc_maketime (to_tm ORIGIN) = Some o ->
  exists v s',
    read_impl fuel s = Done (v, s') /\
    read_impl fuel s' = Done (v, s').
Proof.
  intros Hf Hmo.
  destruct (read_impl_result fuel s o Hf Hmo) as [y [Hr [Hc [Ha Hi]]]].
  exists (fst (read_present y)), y.
  assert (Hp : read_present y = (fst (read_present y), y)).
  { rewrite <- (read_present_state RTC_CLOCK_12 RTC_PM _rtc_maketime y) at 3.
    apply surjective_pairing. }
  split; [rewrite Hr; f_equal; exact Hp|].
  unfold rtc_read_impl, rtc_isenabled_impl, CLK_SetModuleClock,
    CLK_EnableModuleClock.
  cbn [with_clk INIT_ACTIVE]. rewrite Ha. cbn [Z.eqb bind].
  assert (Hy : with_clk true y = y).
  { destruct y. cbn in Hc. subst. reflexivity. }
  rewrite Hy, Hi. cbn [negb]. f_equal. exact Hp.
Qed.

(** X25.  The cached origin is consistent in every state the driver can
    reach: consistency holds after power-up, is restored by a reset of the
    core, and is kept by each of the five operations. *)
Theorem origin_consistent_preserved (s : rtc_state) (t : Z) (fuel : nat) :
  (3 <= fuel)%nat ->
  consistent s ->
  (forall d, consistent (power_on d)) /\
  consistent (reset_cycle s) /\
  consistent (rtc_free_impl s) /\
  consistent (snd (rtc_isenabled_impl s)) /\
  (forall s', init_impl fuel s = Done s' -> consistent s') /\
  (forall s', write_impl fuel t s = Done s' -> consistent s') /\
  (forall v s', read_impl fuel s = Done (v, s') -> consistent s').
Proof.
  intros Hf Hc.
  split; [intros d seconds H; discriminate H|].
  split; [intros seconds H; discriminate H|].
  split; [exact Hc|]. split; [exact Hc|].
  split; [|split].
  - intros s' Hi.
    destruct (init_impl_clock fuel s Hf) as [s1 [Hret [_ [_ [Hin Hor]]]]].
    rewrite Hret in Hi. injection Hi as <-.
    apply (consistent_same_origin RTC_SATURDAY RTC_CLOCK_12 RTC_CLOCK_24 RTC_PM
             _rtc_maketime s s1 Hin Hor Hc).
  - intros s' Hw.
    apply (consistent_write RTC_SATURDAY RTC_CLOCK_12 RTC_CLOCK_24 RTC_PM
             _rtc_maketime spare_store fuel t s s' Hf Hc Hw).
  - intros v s' Hr.
    apply (consistent_read RTC_SATURDAY RTC_CLOCK_12 RTC_CLOCK_24 RTC_PM
             _rtc_maketime spare_store fuel s s' v Hf Hc Hr).
Qed.

End Elapsed.

Lemma rtc_read_elapsed_witness :
  (3 <= 3)%nat /\
  0 <= 1700000000 < 2 ^ 62 /\ 0 <= 946684800 < 2 ^ 62 /\
  0 <= 981173106 < 2 ^ 62 /\
  maketime_full_leap
    (rtc_convert_datetime_hwrtc_to_tm sample_CLOCK_12 sample_PM
       (DATETIME_HWRTC_ORIGIN sample_SATURDAY sample_CLOCK_24))
  = Some 946684800 /\
  maketime_full_leap
    (rtc_convert_datetime_hwrtc_to_tm sample_CLOCK_12 sample_PM sample_datetime)
  = Some 981173106 /\
  origin_consistent sample_SATURDAY sample_CLOCK_12 sample_CLOCK_24 sample_PM
    maketime_full_leap running_state /\
  u32 1700000000 = 1700000000 /\
  exists s1 s2,
    rtc_write_impl sample_SATURDAY sample_CLOCK_24 u32 3 1700000000
      running_state = Done s1 /\
    rtc_read_impl sample_SATURDAY sample_CLOCK_12 sample_CLOCK_24 sample_PM
      maketime_full_leap u32 3 (with_hwrtc sample_datetime s1)
    = Done (1700000000 + (981173106 - 946684800), s2).
Proof.
  assert (H1 : (3 <= 3)%nat) by lia.
  assert (H2 : 0 <= 1700000000 < 2 ^ 62) by lia.
  assert (H3 : 0 <= 946684800 < 2 ^ 62) by lia.
  assert (H4 : 0 <= 981173106 < 2 ^ 62) by lia.
  assert (H5 : maketime_full_leap
                 (rtc_convert_datetime_hwrtc_to_tm sample_CLOCK_12 sample_PM
                    (DATETIME_HWRTC_ORIGIN sample_SATURDAY sample_CLOCK_24))
               = Some 946684800) by reflexivity.
  assert (H6 : maketime_full_leap
                 (rtc_convert_datetime_hwrtc_to_tm sample_CLOCK_12 sample_PM
                    sample_datetime)
               = Some 981173106) by reflexivity.
  assert (H7 : origin_consistent sample_SATURDAY sample_CLOCK_12
                 sample_CLOCK_24 sample_PM maketime_full_leap
                 running_state).
  { intros seconds _ H. rewrite H5 in H. injection H as <-. reflexivity. }
  assert (H8 : u32 1700000000 = 1700000000) by reflexivity.
  repeat (split; [assumption|]).
  exact (rtc_read_elapsed sample_SATURDAY sample_CLOCK_12 sample_CLOCK_24
           sample_PM maketime_full_leap u32 running_state
           sample_datetime 1700000000 946684800 981173106 3
           H1 H2 H3 H4 H5 H6 H7 H8).
Defined.

Lemma rtc_read_after_reset_witness :
  (3 <= 3)%nat /\
  0 <= 1700000000 < 2 ^ 62 /\ 0 <= 946684800 < 2 ^ 62 /\
  0 <= 981173106 < 2 ^ 62 /\
  maketime_full_leap
    (rtc_convert_datetime_hwrtc_to_tm sample_CLOCK_12 sample_PM
       (DATETIME_HWRTC_ORIGIN sample_SATURDAY sample_CLOCK_24))
  = Some 946684800 /\
  maketime_full_leap
    (rtc_convert_datetime_hwrtc_to_tm sample_CLOCK_12 sample_PM sample_datetime)
  = Some 981173106 /\
  u32 1700000000 = 1700000000 /\
  exists s1 s2,
    rtc_write_impl sample_SATURDAY sample_CLOCK_24 u32 3 1700000000
      (power_on sample_datetime) = Done s1 /\
    rtc_read_impl sample_SATURDAY sample_CLOCK_12 sample_CLOCK_24 sample_PM
      maketime_full_leap u32 3 (reset_cycle (with_hwrtc sample_datetime s1))
    = Done (1700000000 + (981173106 - 946684800), s2).
Proof.
  assert (H1 : (3 <= 3)%nat) by lia.
  assert (H2 : 0 <= 1700000000 < 2 ^ 62) by lia.
  assert (H3 : 0 <= 946684800 < 2 ^ 62) by lia.
  assert (H4 : 0 <= 981173106 < 2 ^ 62) by lia.
  assert (H5 : maketime_full_leap
                 (rtc_convert_datetime_hwrtc_to_tm sample_CLOCK_12 sample_PM
                    (DATETIME_HWRTC_ORIGIN sample_SATURDAY sample_CLOCK_24))
               = Some 946684800) by reflexivity.
  assert (H6 : maketime_full_leap
                 (rtc_convert_datetime_hwrtc_to_tm sample_CLOCK_12 sample_PM
                    sample_datetime)
               = Some 981173106) by reflexivity.
  assert (H8 : u32 1700000000 = 1700000000) by reflexivity.
  repeat (split; [assumption|]).
  exact (rtc_read_after_reset sample_SATURDAY sample_CLOCK_12 sample_CLOCK_24
           sample_PM maketime_full_leap u32 (power_on sample_datetime)
           sample_datetime 1700000000 946684800 981173106 3
           H1 H2 H3 H4 H5 H6 H8).
Defined.

Lemma rtc_init_outcome_witness :
  (3 <= 3)%nat /\
  maketime_full_leap
    (rtc_convert_datetime_hwrtc_to_tm sample_CLOCK_12 sample_PM
       (DATETIME_HWRTC_ORIGIN sample_SATURDAY sample_CLOCK_24))
  = Some 946684800 /\
  origin_consistent sample_SATURDAY sample_CLOCK_12 sample_CLOCK_24 sample_PM
    maketime_full_leap (power_on sample_datetime) /\
  u32 0 = 0 /\
  exists s1,
    rtc_init_impl sample_SATURDAY sample_CLOCK_24 u32 3
      (power_on sample_datetime) = Done s1 /\
    (INIT_ACTIVE (power_on sample_datetime) = true ->
     s1 = with_clk true (power_on sample_datetime)) /\
    (INIT_ACTIVE (power_on sample_datetime) = false ->
     exists s2,
       rtc_read_impl sample_SATURDAY sample_CLOCK_12 sample_CLOCK_24 sample_PM
         maketime_full_leap u32 3 s1 = Done (0, s2)).
Proof.
  assert (H1 : (3 <= 3)%nat) by lia.
  assert (H5 : maketime_full_leap
                 (rtc_convert_datetime_hwrtc_to_tm sample_CLOCK_12 sample_PM
                    (DATETIME_HWRTC_ORIGIN sample_SATURDAY sample_CLOCK_24))
               = Some 946684800) by reflexivity.
  assert (H7 : origin_consistent sample_SATURDAY sample_CLOCK_12
                 sample_CLOCK_24 sample_PM maketime_full_leap
                 (power_on sample_datetime)).
  { intros seconds H. discriminate H. }
  assert (H8 : u32 0 = 0) by reflexivity.
  repeat (split; [assumption|]).
  exact (rtc_init_outcome sample_SATURDAY sample_CLOCK_12 sample_CLOCK_24
           sample_PM maketime_full_leap u32 (power_on sample_datetime)
           946684800 3 H1 H5 H7 H8).
Defined.

Lemma rtc_read_stable_witness :
  (3 <= 3)%nat /\
  maketime_full_leap
    (rtc_convert_datetime_hwrtc_to_tm sample_CLOCK_12 sample_PM
       (DATETIME_HWRTC_ORIGIN sample_SATURDAY sample_CLOCK_24))
  = Some 946684800 /\
  exists v s',
    rtc_read_impl sample_SATURDAY sample_CLOCK_12 sample_CLOCK_24 sample_PM
      maketime_full_leap u32 3 (power_on sample_datetime) = Done (v, s') /\
    rtc_read_impl sample_SATURDAY sample_CLOCK_12 sample_CLOCK_24 sample_PM
      maketime_full_leap u32 3 s' = Done (v, s').
Proof.
  assert (H1 : (3 <= 3)%nat) by lia.
  assert (H5 : maketime_full_leap
                 (rtc_convert_datetime_hwrtc_to_tm sample_CLOCK_12 sample_PM
                    (DATETIME_HWRTC_ORIGIN sample_SATURDAY sample_CLOCK_24))
               = Some 946684800) by reflexivity.
  repeat (split; [assumption|]).
  exact (rtc_read_stable sample_SATURDAY sample_CLOCK_12 sample_CLOCK_24
           sample_PM maketime_full_leap u32 (power_on sample_datetime)
           946684800 3 H1 H5).
Defined.

Lemma origin_consistent_preserved_witness :
  (3 <= 3)%nat /\
  origin_consistent sample_SATURDAY sample_CLOCK_12 sample_CLOCK_24 sample_PM
    maketime_full_leap running_state /\
  (forall d,
     origin_consistent sample_SATURDAY sample_CLOCK_12 sample_CLOCK_24
       sample_PM maketime_full_leap (power_on d)) /\
  origin_consistent sample_SATURDAY sample_CLOCK_12 sample_CLOCK_24 sample_PM
    maketime_full_leap (reset_cycle running_state) /\
  origin_consistent sample_SATURDAY sample_CLOCK_12 sample_CLOCK_24 sample_PM
    maketime_full_leap (rtc_free_impl running_state) /\
  origin_consistent sample_SATURDAY sample_CLOCK_12 sample_CLOCK_24 sample_PM
    maketime_full_leap (snd (rtc_isenabled_impl running_state)) /\
  (forall s',
     rtc_init_impl sample_SATURDAY sample_CLOCK_24 u32 3
       running_state = Done s' ->
     origin_consistent sample_SATURDAY sample_CLOCK_12 sample_CLOCK_24
       sample_PM maketime_full_leap s') /\
  (forall s',
     rtc_write_impl sample_SATURDAY sample_CLOCK_24 u32 3 1700000000
       running_state = Done s' ->
     origin_consistent sample_SATURDAY sample_CLOCK_12 sample_CLOCK_24
       sample_PM maketime_full_leap s') /\
  (forall v s',
     rtc_read_impl sample_SATURDAY sample_CLOCK_12 sample_CLOCK_24 sample_PM
       maketime_full_leap u32 3 running_state = Done (v, s') ->
     origin_consistent sample_SATURDAY sample_CLOCK_12 sample_CLOCK_24
       sample_PM maketime_full_leap s').
Proof.
  assert (H1 : (3 <= 3)%nat) by lia.
  assert (H5 : maketime_full_leap
                 (rtc_convert_datetime_hwrtc_to_tm sample_CLOCK_12 sample_PM
                    (DATETIME_HWRTC_ORIGIN sample_SATURDAY sample_CLOCK_24))
               = Some 946684800) by reflexivity.
  assert (H7 : origin_consistent sample_SATURDAY sample_CLOCK_12
                 sample_CLOCK_24 sample_PM maketime_full_leap
                 running_state).
  { intros seconds _ H. rewrite H5 in H. injection H as <-. reflexivity. }
  split; [exact H1|]. split; [exact H7|].
  exact (origin_consistent_preserved sample_SATURDAY sample_CLOCK_12
           sample_CLOCK_24 sample_PM maketime_full_leap u32
           running_state 1700000000 3 H1 H7).
Defined.

End RtcMore.

(** * Properties of the QSPI macros *)

Module QspiSpec.
Import Qspi.

Lemma u32_bit (z i : Z) :
  0 <= i -> Z.testbit (u32 z) i = (i <? 32) && Z.testbit z i.
Proof. intros H. unfold u32. apply Z.testbit_mod_pow2. lia. Qed.

Ltac reg_bits :=
  repeat first
    [ rewrite u32_bit by lia
    | rewrite Z.lor_spec
    | rewrite Z.land_spec
    | rewrite Z.lnot_spec by lia ].

Ltac bool_cases :=
  repeat match goal with
         | |- context [Z.testbit ?a ?b] => destruct (Z.testbit a b)
         | |- context [?a <? ?b] => destruct (a <? b)
         end;
  reflexivity.

(** X26.  The two chip-select macros are idempotent and the one applied
    last decides: setting the pin low after setting it high gives what
    setting it low alone gives, and the other way round, for every register
    value and every position of the three fields. *)
Theorem ss_level_last_wins (AUTOSS SSACTPOL SS SSCTL : Z) :
  let high := QSPI_SET_SS_HIGH AUTOSS SSACTPOL SS in
  let low := QSPI_SET_SS_LOW AUTOSS SSACTPOL SS in
  low (high SSCTL) = low SSCTL /\ high (low SSCTL) = high SSCTL /\
  high (high SSCTL) = high SSCTL /\ low (low SSCTL) = low SSCTL.
Proof.
  cbv zeta. unfold QSPI_SET_SS_HIGH, QSPI_SET_SS_LOW.
  repeat split; apply Z.bits_inj'; intros i Hi; reg_bits; bool_cases.
Qed.

(** X27.  [QSPI_SET_DATA_WIDTH] stores the width modulo 32 in the
    five-bit field and leaves the rest of the register alone, so a width
    of 32 is stored as 0 and widths that differ by 32 are stored alike. *)
Theorem data_width_field (Msk Pos CTL w : Z) :
  0 <= Pos -> Pos + 5 <= 32 -> Msk = Z.shiftl 0x1F Pos ->
  0 <= CTL < 2 ^ 32 ->
  Z.shiftr (Z.land (QSPI_SET_DATA_WIDTH Msk Pos CTL w) Msk) Pos = w mod 32 /\
  (forall i, 0 <= i -> i < Pos \/ Pos + 5 <= i ->
     Z.testbit (QSPI_SET_DATA_WIDTH Msk Pos CTL w) i = Z.testbit CTL i).
Proof.
  intros HP HP5 -> HC. unfold QSPI_SET_DATA_WIDTH.
  change 0x1F with (Z.ones 5). change (w mod 32) with (w mod 2 ^ 5).
  assert (Hhigh : forall i, 32 <= i -> Z.testbit CTL i = false).
  { intros i Hi. apply (CanMore.testbit_small CTL 32 i); lia. }
  split.
  - apply Z.bits_inj'. intros i Hi.
    rewrite Z.shiftr_spec, Z.testbit_mod_pow2 by lia.
    reg_bits. rewrite !Z.shiftl_spec by lia.
    rewrite Z.land_spec.
    destruct (Z.ltb_spec i 5).
    + rewrite !Z.testbit_ones_nonneg by lia.
      replace (i + Pos - Pos) with i by lia.
      destruct (Z.ltb_spec (i + Pos) 32); [|lia].
      destruct (Z.ltb_spec i 5); [|lia].
      cbn [negb andb]. rewrite !andb_false_r, !andb_true_r. reflexivity.
    + rewrite (Z.testbit_ones_nonneg 5 (i + Pos - Pos)) by lia.
      replace (i + Pos - Pos) with i by lia.
      destruct (Z.ltb_spec i 5); [lia|]. rewrite !andb_false_r. reflexivity.
  - intros i Hi Hout. reg_bits. rewrite !Z.shiftl_spec by lia.
    rewrite Z.land_spec.
    destruct (Z.ltb_spec i 32).
    + destruct Hout as [Hlo|Hhi].
      * rewrite (Z.testbit_neg_r (Z.ones 5) (i - Pos)),
          (Z.testbit_neg_r w (i - Pos)) by lia.
        cbn [negb andb orb].
        rewrite !andb_true_r, orb_false_r. reflexivity.
      * rewrite !Z.testbit_ones_nonneg by lia.
        destruct (Z.ltb_spec (i - Pos) 5); [lia|].
        cbn [negb andb orb]. rewrite !andb_false_r, !andb_true_r, orb_false_r.
        reflexivity.
    + rewrite (Hhigh i) by lia. reflexivity.
Qed.

(** X28.  [QSPI_SET_SUSPEND_CYCLE] does not reduce its argument to the
    four bits of SUSPITV (QSPI_CTL[7:4]).  A cycle count of 0 to 15 is
    stored in the field and nothing else changes; the bits of a larger
    count are or-ed into the register above the field. *)
Theorem suspend_cycle_bits (CTL c i : Z) :
  0 <= i < 32 ->
  Z.testbit (QSPI_SET_SUSPEND_CYCLE (Z.shiftl 0xF 4) 4 CTL c) i
  = if i <? 4 then Z.testbit CTL i
    else if i <? 8 then Z.testbit c (i - 4)
    else Z.testbit CTL i || Z.testbit c (i - 4).
Proof.
  intros Hi. unfold QSPI_SET_SUSPEND_CYCLE.
  change 0xF with (Z.ones 4).
  reg_bits. rewrite !Z.shiftl_spec by lia.
  destruct (Z.ltb_spec i 32); [|lia]. cbn [andb].
  destruct (Z.ltb_spec i 4).
  - rewrite (Z.testbit_neg_r (Z.ones 4) (i - 4)),
      (Z.testbit_neg_r c (i - 4)) by lia.
    cbn [negb]. rewrite andb_true_r, orb_false_r. reflexivity.
  - rewrite Z.testbit_ones_nonneg by lia.
    destruct (Z.ltb_spec i 8).
    + destruct (Z.ltb_spec (i - 4) 4); [|lia]. cbn [negb].
      rewrite andb_false_r. reflexivity.
    + destruct (Z.ltb_spec (i - 4) 4); [lia|]. cbn [negb].
      rewrite andb_true_r. reflexivity.
Qed.

Lemma data_width_field_witness :
  0 <= 8 /\ 8 + 5 <= 32 /\ 0x1F00 = Z.shiftl 0x1F 8 /\
  0 <= 0x00000034 < 2 ^ 32 /\
  Z.shiftr (Z.land (QSPI_SET_DATA_WIDTH 0x1F00 8 0x00000034 32) 0x1F00) 8
  = 32 mod 32 /\
  (forall i, 0 <= i -> i < 8 \/ 8 + 5 <= i ->
     Z.testbit (QSPI_SET_DATA_WIDTH 0x1F00 8 0x00000034 32) i
     = Z.testbit 0x00000034 i).
Proof.
  assert (H1 : 0 <= 8) by lia.
  assert (H2 : 8 + 5 <= 32) by lia.
  assert (H3 : 0x1F00 = Z.shiftl 0x1F 8) by reflexivity.
  assert (H4 : 0 <= 0x00000034 < 2 ^ 32) by lia.
  repeat (split; [assumption|]).
  exact (data_width_field 0x1F00 8 0x00000034 32 H1 H2 H3 H4).
Defined.

Lemma suspend_cycle_bits_witness :
  0 <= 8 < 32 /\
  Z.testbit (QSPI_SET_SUSPEND_CYCLE (Z.shiftl 0xF 4) 4 0x00000034 16) 8
  = if 8 <? 4 then Z.testbit 0x00000034 8
    else if 8 <? 8 then Z.testbit 16 (8 - 4)
    else Z.testbit 0x00000034 8 || Z.testbit 16 (8 - 4).
Proof.
  assert (H3 : 0 <= 8 < 32) by lia.
  split; [exact H3|].
  exact (suspend_cycle_bits 0x00000034 16 8 H3).
Defined.

End QspiSpec.
